(** * Session protocol of the NLP-to-SQL chat client

    A shallow embedding of the [ChatBot] component of
    nlp-sql-chatbot/components: the transcript of chat messages, the submit handler [handleSendMessage], the pagination handler
    [handlePageChange] and the session loaders [loadSessionMessages],
    [fetchSessionInfo] and [handleSessionSelect].

    React state is a record that the handlers thread through a small
    state-and-exception monad.  A handler closes over the state of the render
    it was created in; that snapshot is the handler's first argument
    ([render]).  Every value a handler obtains from outside (the settlement of
    a backend call, a reading of the clock, a draw of [Math.random], the
    message the engine gives a TypeError that a handler displays) is an
    explicit argument, so that all behaviours of the environment are
    quantified over. *)

From Stdlib Require Import ZArith NArith Lia Ascii String.
From stdpp Require Import base tactics option list strings pretty.

Open Scope string_scope.
Open Scope list_scope.

(** ** JavaScript values *)

(** Rows are [any[]]: JSON values the client never inspects. *)
Local Unset Elimination Schemes.
Inductive Json :=
| JNull
| JBool (b : bool)
| JNum (z : Z)
| JStr (s : string)
| JArr (items : list Json)
| JObj (fields : list (string * Json)).
Local Set Elimination Schemes.

(** [new Date()] / [new Date(ms)] carry milliseconds since the epoch;
    [new Date(created_at)] keeps the persisted string it was built from. *)
Inductive Date :=
| DateOfMs (ms : N)
| DateOfString (src : string).

(** Truthiness of a string: only the empty string is falsy. *)
Definition truthy (s : string) : bool := negb (String.eqb s "").

(** Truthiness of [string | null | undefined]. *)
Definition truthy_opt (o : option string) : bool :=
  match o with
  | Some s => truthy s
  | None => false
  end.

(** [a || d] where [a : string | undefined] and [d : string]. *)
Definition or_else (a : option string) (d : string) : string :=
  match a with
  | Some s => if truthy s then s else d
  | None => d
  end.

(** Strings are sequences of bytes (UTF-8).  White space as
    [String.prototype.trim] removes it: TAB, LF, VT, FF, CR, SPACE, and the
    encodings of U+00A0, U+1680, U+2000..U+200A, U+2028, U+2029, U+202F,
    U+205F, U+3000 and U+FEFF. *)
Definition is_ascii_space (c : ascii) : bool :=
  match c with
  | "009" | "010" | "011" | "012" | "013" | " " => true
  | _ => false
  end%char.

(** Third byte, after E2 80, of U+2000..U+200A, U+2028, U+2029, U+202F. *)
Definition is_e2_80_space (c : ascii) : bool :=
  let n := nat_of_ascii c in
  (Nat.leb 128 n && Nat.leb n 138)
  || Nat.eqb n 168 || Nat.eqb n 169 || Nat.eqb n 175.

(** [!input.trim()]: the trimmed string is empty exactly when the string
    consists of white space only. *)
Fixpoint trim_is_empty (s : string) : bool :=
  match s with
  | EmptyString => true
  | String c rest =>
      if is_ascii_space c then trim_is_empty rest
      else
        match c, rest with
        | "194"%char, String "160"%char rest' => trim_is_empty rest'
        | "225"%char, String "154"%char (String "128"%char rest') =>
            trim_is_empty rest'
        | "226"%char, String "128"%char (String d rest') =>
            is_e2_80_space d && trim_is_empty rest'
        | "226"%char, String "129"%char (String "159"%char rest') =>
            trim_is_empty rest'
        | "227"%char, String "128"%char (String "128"%char rest') =>
            trim_is_empty rest'
        | "239"%char, String "187"%char (String "191"%char rest') =>
            trim_is_empty rest'
        | _, _ => false
        end
  end.

(** ** Data model (the interfaces of the component) *)

Module PaginationInfo.
Record t := mk {
  table_id : string;
  current_page : Z;
  total_pages : Z;
  total_rows : Z;
  page_size : Z;
  has_next : option bool;
  has_prev : option bool;
}.
End PaginationInfo.

Module TableInfo.
Record t := mk {
  name : string;
  description : string;
  sql : string;
  results : option (list Json);
  row_count : Z;
  table_id : option string;
  pagination : option PaginationInfo.t;
}.
End TableInfo.

Module SqlResult.
Record t := mk {
  sql : string;
  data : option (list Json);
  error : option string;
  pagination : option PaginationInfo.t;
  table_id : option string;
}.
End SqlResult.

Module AnalysisResult.
Record t := mk {
  tables : list TableInfo.t;
  analysis_type : option string;
}.
End AnalysisResult.

(** [query_type] is declared as a union of three literals, but it is copied
    from an untyped response, so at run time it is any string or missing. *)
Module ChatMessage.
Record t := mk {
  id : string;
  isUser : bool;
  text : string;
  timestamp : Date;
  query_type : option string;
  sqlResult : option SqlResult.t;
  analysisResult : option AnalysisResult.t;
}.
End ChatMessage.

Module PaginationState.
Record t := mk {
  messageId : string;
  tableId : string;
  currentPage : Z;
}.
End PaginationState.

(** What [getSessionInfo] resolves with: [error] is set on the fallback
    object the API layer returns for a disconnected session. *)
Module SessionInfo.
Record t := mk {
  error : bool;
  description : string;
  db_name : option string;
}.
End SessionInfo.

(** A message literal without [query_type], [sqlResult] or
    [analysisResult]. *)
Definition plain_message (id : string) (isUser : bool) (text : string)
    (timestamp : Date) : ChatMessage.t :=
  ChatMessage.mk id isUser text timestamp None None None.

(** ** Component state and props *)

(** The state variables that the handlers of the transcript read or write.
    [isRefreshing], [showSessionManager], [showDashboard] and [savedQueries]
    only drive the spinner, the dialogs and the dashboard. *)

Record State := mkState {
  messages : list ChatMessage.t;
  input : string;
  isProcessing : bool;
  sessionId : option string;
  sessionInfo : option SessionInfo.t;
  showSessionsList : bool;
  paginationState : option PaginationState.t;
}.

Record ChatBotProps := mkProps {
  workspaceId : option string;
  autoSessionId : option string;
}.

Definition welcome_text : string :=
  "Hello! I can help you query your database using natural language. How can I help you today?".

Definition welcome (ts : N) : ChatMessage.t :=
  plain_message "welcome" false welcome_text (DateOfMs ts).

(** The arguments of the [useState] calls. *)
Definition initial_state (ts : N) : State :=
  mkState [welcome ts] "" false None None false None.

(** ** The handler monad: state plus exceptions *)

(** A rejected promise or a thrown value: an [Error] with its message; some
    other value that is neither null nor undefined, whose [message] property
    reads as undefined; or null or undefined, of which no property can be
    read. *)
Inductive Thrown :=
| ErrorObject (message : string)
| NonError
| Nullish.

Inductive Completion (A : Type) :=
| Normal (a : A)
| Throw (e : Thrown).
Arguments Normal {A} a.
Arguments Throw {A} e.

Definition M (A : Type) : Type := State → Completion A * State.

(** [M] is a monad in stdpp's sense, which gives the notations
    [x ← m; k] and [m ;; k] for sequencing. *)
#[global] Instance M_ret : MRet M := λ A a s, (Normal a, s).

#[global] Instance M_bind : MBind M := λ A B k m s,
  match m s with
  | (Normal a, s') => k a s'
  | (Throw e, s') => (Throw e, s')
  end.

(** [await p]: the settlement of the promise is supplied by the caller. *)
Definition await {A} (settled : Completion A) : M A := λ s, (settled, s).

(** [try { body } catch (error) { handler error }] *)
Definition try_catch {A} (body : M A) (handler : Thrown → M A) : M A :=
  λ s, match body s with
       | (Normal a, s') => (Normal a, s')
       | (Throw e, s') => handler e s'
       end.

(** [try { body } finally { fin }]: [fin] runs on both exits; an exception of
    [body] is re-thrown after it unless [fin] throws itself. *)
Definition try_finally {A} (body : M A) (fin : M unit) : M A :=
  λ s, match body s with
       | (c, s') =>
           match fin s' with
           | (Normal _, s'') => (c, s'')
           | (Throw e, s'') => (Throw e, s'')
           end
       end.

(** State setters.  [setMessages] takes the updater function; a wholesale
    [setMessages(list)] is the constant updater. *)
Definition setMessages (f : list ChatMessage.t → list ChatMessage.t) : M unit :=
  λ s, (Normal (),
        mkState (f (messages s)) (input s) (isProcessing s) (sessionId s)
          (sessionInfo s) (showSessionsList s) (paginationState s)).

Definition setInput (v : string) : M unit :=
  λ s, (Normal (),
        mkState (messages s) v (isProcessing s) (sessionId s)
          (sessionInfo s) (showSessionsList s) (paginationState s)).

Definition setIsProcessing (v : bool) : M unit :=
  λ s, (Normal (),
        mkState (messages s) (input s) v (sessionId s)
          (sessionInfo s) (showSessionsList s) (paginationState s)).

Definition setSessionId (v : option string) : M unit :=
  λ s, (Normal (),
        mkState (messages s) (input s) (isProcessing s) v
          (sessionInfo s) (showSessionsList s) (paginationState s)).

Definition setSessionInfo (v : option SessionInfo.t) : M unit :=
  λ s, (Normal (),
        mkState (messages s) (input s) (isProcessing s) (sessionId s)
          v (showSessionsList s) (paginationState s)).

Definition setShowSessionsList (v : bool) : M unit :=
  λ s, (Normal (),
        mkState (messages s) (input s) (isProcessing s) (sessionId s)
          (sessionInfo s) v (paginationState s)).

Definition setPaginationState (v : option PaginationState.t) : M unit :=
  λ s, (Normal (),
        mkState (messages s) (input s) (isProcessing s) (sessionId s)
          (sessionInfo s) (showSessionsList s) v).

(** An event runs a handler created in the latest render: the handler closes
    over the state it starts from. *)
Definition dispatch {A} (handler : State → M A) : M A := λ s, handler s s.

(** One message literal reads the clock twice: [Date.now()] for the id and
    [new Date()] for the timestamp. *)
Record Stamp := mkStamp {
  Date_now : N;
  new_Date : N;
}.

(** ** Pagination: [handlePageChange] *)

(** What [getPaginatedResults] resolves with. *)
Module PageResponse.
Record t := mk {
  data : option (list Json);
  pagination : option PaginationInfo.t;
}.
End PageResponse.

(** [result.pagination?.table_id || tableId] *)
Definition currentTableId (result : PageResponse.t) (tableId : string) : string :=
  or_else (PaginationInfo.table_id <$> PageResponse.pagination result) tableId.

(** [table.table_id === tableId] *)
Definition table_id_is (tableId : string) (table : TableInfo.t) : bool :=
  match TableInfo.table_id table with
  | Some tid => String.eqb tid tableId
  | None => false
  end.

(** The callback of [msg.analysisResult.tables.map]. *)
Definition update_table (tableId : string) (result : PageResponse.t)
    (table : TableInfo.t) : TableInfo.t :=
  if table_id_is tableId table then
    TableInfo.mk (TableInfo.name table) (TableInfo.description table)
      (TableInfo.sql table)
      (PageResponse.data result)
      (TableInfo.row_count table)
      (Some (currentTableId result tableId))
      (PageResponse.pagination result)
  else table.

(** The callback of [prevMessages.map]: the [sqlResult] branch is tried
    first, the [analysisResult] branch only when the message has no
    [sqlResult]. *)
Definition update_message (messageId tableId : string)
    (result : PageResponse.t) (msg : ChatMessage.t) : ChatMessage.t :=
  if String.eqb (ChatMessage.id msg) messageId then
    match ChatMessage.sqlResult msg, ChatMessage.analysisResult msg with
    | Some sr, _ =>
        ChatMessage.mk (ChatMessage.id msg) (ChatMessage.isUser msg)
          (ChatMessage.text msg) (ChatMessage.timestamp msg)
          (ChatMessage.query_type msg)
          (Some (SqlResult.mk (SqlResult.sql sr)
                   (PageResponse.data result)
                   (SqlResult.error sr)
                   (PageResponse.pagination result)
                   (Some (currentTableId result tableId))))
          (ChatMessage.analysisResult msg)
    | None, Some ar =>
        ChatMessage.mk (ChatMessage.id msg) (ChatMessage.isUser msg)
          (ChatMessage.text msg) (ChatMessage.timestamp msg)
          (ChatMessage.query_type msg)
          (ChatMessage.sqlResult msg)
          (Some (AnalysisResult.mk
                   (map (update_table tableId result) (AnalysisResult.tables ar))
                   (AnalysisResult.analysis_type ar)))
    | None, None => msg
    end
  else msg.

(** [error instanceof Error ? error.message : 'Unknown error'] *)
Definition page_error_text (error : Thrown) : string :=
  match error with
  | ErrorObject message => message
  | NonError | Nullish => "Unknown error"
  end.

Definition pagination_error_message (newPage : Z) (error : Thrown)
    (at_ : Stamp) : ChatMessage.t :=
  plain_message ("pagination-error-" +:+ pretty (Date_now at_)) false
    ("Error loading page " +:+ pretty newPage +:+ ": " +:+ page_error_text error)
    (DateOfMs (new_Date at_)).

(** [getPaginatedResults] is the settlement of the backend call; [error_at]
    is the clock as the catch block reads it. *)
Definition handlePageChange (render : State) (messageId tableId : string)
    (newPage : Z) (getPaginatedResults : Completion PageResponse.t)
    (error_at : Stamp) : M unit :=
  if negb (truthy_opt (sessionId render)) || negb (truthy tableId) then
    mret ()
  else
    setIsProcessing true ;;
    try_finally
      (try_catch
         (result ← await getPaginatedResults;
          setMessages (map (update_message messageId tableId result)) ;;
          setPaginationState
            (Some (PaginationState.mk messageId
                     (currentTableId result tableId) newPage)))
         (λ error,
            setMessages (λ prev, prev ++ [pagination_error_message newPage error error_at])))
      (setIsProcessing false).

(** ** Submitting an utterance: [handleSendMessage] *)

(** The marks that open the system notices, as the source file spells
    them. *)
Definition ok_mark : string := "âœ…".
Definition fail_mark : string := "âŒ".
Definition warn_mark : string := "âš ï¸".

(** What [createSession] resolves with. *)
Module SessionData.
Record t := mk {
  _id : string;
  name : string;
}.
End SessionData.

(** What [executeQuery] resolves with. *)
Module QueryResponse.
Record t := mk {
  query_type : option string;
  text : option string;
  message : option string;
  sql : option string;
  data : option (list Json);
  error : option string;
  pagination : option PaginationInfo.t;
  table_id : option string;
  tables : option (list TableInfo.t);
  analysis_type : option string;
}.
End QueryResponse.

(** What the callback of [result.tables.map] reads when it has to make up a
    table id: [Date.now()] and [Math.random().toString(36)]. *)
Record IdDraw := mkIdDraw {
  draw_now : N;
  draw_random36 : string;
}.

(** [`table-${Date.now()}-${Math.random().toString(36).substring(2, 9)}`];
    [substring(2, 9)] keeps at most the seven code units from index 2 on. *)
Definition synthesized_table_id (d : IdDraw) : string :=
  "table-" +:+ pretty (draw_now d) +:+ "-" +:+ substring 2 7 (draw_random36 d).

(** The callback of [result.tables.map] for the table at position [i]. *)
Definition with_table_id (draws : nat → IdDraw) (i : nat) (table : TableInfo.t)
    : TableInfo.t :=
  TableInfo.mk (TableInfo.name table) (TableInfo.description table)
    (TableInfo.sql table) (TableInfo.results table) (TableInfo.row_count table)
    (Some (or_else (TableInfo.table_id table) (synthesized_table_id (draws i))))
    (TableInfo.pagination table).

Definition tablesWithIds (draws : nat → IdDraw) (tables : list TableInfo.t)
    : list TableInfo.t :=
  imap (with_table_id draws) tables.

(** [result.query_type === lit] *)
Definition query_type_is (result : QueryResponse.t) (lit : string) : bool :=
  match QueryResponse.query_type result with
  | Some q => String.eqb q lit
  | None => false
  end.

(** [result.text || result.message || 'Query executed successfully.'] *)
Definition responseMessage (result : QueryResponse.t) : string :=
  or_else (QueryResponse.text result)
    (or_else (QueryResponse.message result) "Query executed successfully.").

(** [botMessage] as it stands when it is appended.  Calling [map] on a
    [tables] that is null or undefined raises a TypeError; its message is the
    engine's, and is given as [fault]. *)
Definition botMessage (result : QueryResponse.t) (at_ : Stamp)
    (draws : nat → IdDraw) (fault : string) : Completion ChatMessage.t :=
  let id := "response-" +:+ pretty (Date_now at_) in
  let timestamp := DateOfMs (new_Date at_) in
  if query_type_is result "sql" then
    Normal (ChatMessage.mk id false (responseMessage result) timestamp
              (QueryResponse.query_type result)
              (Some (SqlResult.mk (or_else (QueryResponse.sql result) "")
                       (QueryResponse.data result)
                       (QueryResponse.error result)
                       (QueryResponse.pagination result)
                       (QueryResponse.table_id result)))
              None)
  else if query_type_is result "analysis" then
    match QueryResponse.tables result with
    | Some tables =>
        Normal (ChatMessage.mk id false (responseMessage result) timestamp
                  (QueryResponse.query_type result)
                  None
                  (Some (AnalysisResult.mk (tablesWithIds draws tables)
                           (QueryResponse.analysis_type result))))
    | None => Throw (ErrorObject fault)
    end
  else
    Normal (ChatMessage.mk id false (responseMessage result) timestamp
              (QueryResponse.query_type result) None None).

(** Everything one run of [handleSendMessage] obtains from outside.
    [fault_message] is the message the engine gives the TypeError it raises
    when the run reads a property of null or undefined; one run raises at
    most one. *)
Module SendIO.
Record t := mk {
  user_at : Stamp;
  createSession : Completion SessionData.t;
  session_at : Stamp;
  executeQuery : Completion QueryResponse.t;
  response_at : Stamp;
  table_draws : nat → IdDraw;
  error_at : Stamp;
  fault_message : string;
}.
End SendIO.

Definition userMessage (render : State) (at_ : Stamp) : ChatMessage.t :=
  plain_message (pretty (Date_now at_)) true (input render)
    (DateOfMs (new_Date at_)).

Definition session_created_message (sessionData : SessionData.t) (at_ : Stamp)
    : ChatMessage.t :=
  plain_message ("system-" +:+ pretty (Date_now at_)) false
    (ok_mark +:+ " Created new session: " +:+ SessionData.name sessionData)
    (DateOfMs (new_Date at_)).

Definition session_failed_message (at_ : Stamp) : ChatMessage.t :=
  plain_message ("error-" +:+ pretty (Date_now at_)) false
    (fail_mark +:+ " Failed to create session. Please try connecting to the workspace again.")
    (DateOfMs (new_Date at_)).

(** [error.message] in a catch block: the message of an [Error], undefined
    for another value that is not null, and for null or undefined a TypeError
    with the engine's message [fault]. *)
Definition message_of (error : Thrown) (fault : string)
    : Completion (option string) :=
  match error with
  | ErrorObject message => Normal (Some message)
  | NonError => Normal None
  | Nullish => Throw (ErrorObject fault)
  end.

(** The [errorMessage] literal of the catch block, with its text
    [`Error: ${error.message || 'Failed to execute query'}`]: building it
    faults when [error] is null or undefined. *)
Definition query_error_message (error : Thrown) (at_ : Stamp) (fault : string)
    : Completion ChatMessage.t :=
  match message_of error fault with
  | Normal message =>
      Normal (plain_message ("error-" +:+ pretty (Date_now at_)) false
                ("Error: " +:+ or_else message "Failed to execute query")
                (DateOfMs (new_Date at_)))
  | Throw e => Throw e
  end.

(** [!currentSessionId && workspaceId] *)
Definition needs_session (render : State) (props : ChatBotProps) : bool :=
  negb (truthy_opt (sessionId render)) && truthy_opt (workspaceId props).

(** The auto-create block.  It yields [Some currentSessionId] when the
    handler goes on and [None] when its catch clause returns from the
    handler. *)
Definition auto_create_session (render : State) (props : ChatBotProps)
    (io : SendIO.t) : M (option (option string)) :=
  if needs_session render props then
    try_catch
      (sessionData ← await (SendIO.createSession io);
       setSessionId (Some (SessionData._id sessionData)) ;;
       setMessages (λ prev, prev ++ [session_created_message sessionData (SendIO.session_at io)]) ;;
       mret (Some (Some (SessionData._id sessionData))))
      (λ _,
         setMessages (λ prev, prev ++ [session_failed_message (SendIO.session_at io)]) ;;
         setIsProcessing false ;;
         mret None)
  else mret (Some (sessionId render)).

Definition handleSendMessage (render : State) (props : ChatBotProps)
    (io : SendIO.t) : M unit :=
  if trim_is_empty (input render) then mret ()
  else
    setMessages (λ prev, prev ++ [userMessage render (SendIO.user_at io)]) ;;
    setInput "" ;;
    setIsProcessing true ;;
    try_finally
      (try_catch
         (proceed ← auto_create_session render props io;
          match proceed with
          | None => mret ()
          | Some currentSessionId =>
              result ← await (SendIO.executeQuery io);
              bot ← await (botMessage result (SendIO.response_at io)
                             (SendIO.table_draws io) (SendIO.fault_message io));
              setMessages (λ prev, prev ++ [bot])
          end)
         (λ error,
            errorMessage ← await (query_error_message error (SendIO.error_at io)
                                    (SendIO.fault_message io));
            setMessages (λ prev, prev ++ [errorMessage])))
      (setIsProcessing false).


(** ** Loading a session: [loadSessionMessages], [fetchSessionInfo],
    [handleSessionSelect] *)

(** [msg.query_result] of a persisted message; the three flags are read for
    their truthiness only. *)
Module PersistedResult.
Record t := mk {
  is_conversational : bool;
  is_multi_query : bool;
  is_why_analysis : bool;
  sql : option string;
  results : option (list Json);
  error : option string;
  pagination : option PaginationInfo.t;
  tables : option (list TableInfo.t);
  analysis_type : option string;
}.
End PersistedResult.

(** An element of what [getSessionMessages] resolves with. *)
Module PersistedMessage.
Record t := mk {
  _id : option string;
  role : string;
  content : string;
  created_at : option string;
  query_result : option PersistedResult.t;
}.
End PersistedMessage.

(** What the conversion of one persisted message reads when the message
    lacks an id or a creation time: [Date.now()] and [Math.random()] (as the
    template literal renders it) for the id, [Date.now()] for the
    timestamp. *)
Record LoadDraw := mkLoadDraw {
  id_now : N;
  id_random : string;
  created_now : N;
}.

(** The [queryType] of the conversion. *)
Definition persisted_query_type (queryResult : option PersistedResult.t)
    : option string :=
  match queryResult with
  | Some qr =>
      if PersistedResult.is_conversational qr then Some "conversational"
      else if PersistedResult.is_multi_query qr || PersistedResult.is_why_analysis qr
      then Some "analysis"
      else if truthy_opt (PersistedResult.sql qr) then Some "sql"
      else None
  | None => None
  end.

(** [queryResult && queryResult.sql ? {...} : undefined] *)
Definition persisted_sqlResult (queryResult : option PersistedResult.t)
    : option SqlResult.t :=
  match queryResult with
  | Some qr =>
      if truthy_opt (PersistedResult.sql qr) then
        Some (SqlResult.mk (or_else (PersistedResult.sql qr) "")
                (PersistedResult.results qr)
                (PersistedResult.error qr)
                (PersistedResult.pagination qr)
                (PaginationInfo.table_id <$> PersistedResult.pagination qr))
      else None
  | None => None
  end.

(** [queryResult && queryResult.tables ? {...} : undefined]; an array is
    truthy even when it is empty. *)
Definition persisted_analysisResult (queryResult : option PersistedResult.t)
    : option AnalysisResult.t :=
  match queryResult with
  | Some qr =>
      match PersistedResult.tables qr with
      | Some tables =>
          Some (AnalysisResult.mk tables (PersistedResult.analysis_type qr))
      | None => None
      end
  | None => None
  end.

(** The callback of [sessionMessages.map] for the message at position [i]. *)
Definition convert_message (draws : nat → LoadDraw) (i : nat)
    (msg : PersistedMessage.t) : ChatMessage.t :=
  let queryResult := PersistedMessage.query_result msg in
  ChatMessage.mk
    (or_else (PersistedMessage._id msg)
       ("msg-" +:+ pretty (id_now (draws i)) +:+ "-" +:+ id_random (draws i)))
    (String.eqb (PersistedMessage.role msg) "user")
    (PersistedMessage.content msg)
    (if truthy_opt (PersistedMessage.created_at msg)
     then DateOfString (or_else (PersistedMessage.created_at msg) "")
     else DateOfMs (created_now (draws i)))
    (persisted_query_type queryResult)
    (persisted_sqlResult queryResult)
    (persisted_analysisResult queryResult).

Module LoadIO.
Record t := mk {
  getSessionMessages : Completion (list PersistedMessage.t);
  draws : nat → LoadDraw;
  notice_at : Stamp;
  welcome_at : N;
  failed_at : N;
}.
End LoadIO.

Definition loaded_message (count : nat) (at_ : Stamp) : ChatMessage.t :=
  plain_message ("system-" +:+ pretty (Date_now at_)) false
    (ok_mark +:+ " Loaded " +:+ pretty count +:+ " messages from session")
    (DateOfMs (new_Date at_)).

Definition loaded_empty_message (at_ : Stamp) : ChatMessage.t :=
  plain_message ("system-" +:+ pretty (Date_now at_)) false
    (ok_mark +:+ " Session loaded (no previous messages)")
    (DateOfMs (new_Date at_)).

Definition error_loading_message (ts : N) : ChatMessage.t :=
  plain_message "error-loading" false
    (fail_mark +:+ " Failed to load session messages. Starting with a fresh chat.")
    (DateOfMs ts).

Definition loadSessionMessages (sessionId : string) (io : LoadIO.t) : M unit :=
  try_catch
    (sessionMessages ← await (LoadIO.getSessionMessages io);
     let convertedMessages := imap (convert_message (LoadIO.draws io)) sessionMessages in
     if Nat.ltb 0 (length convertedMessages) then
       setMessages (λ _, convertedMessages) ;;
       setMessages (λ prev, prev ++ [loaded_message (length convertedMessages) (LoadIO.notice_at io)])
     else
       setMessages (λ _, [welcome (LoadIO.welcome_at io)]) ;;
       setMessages (λ prev, prev ++ [loaded_empty_message (LoadIO.notice_at io)]))
    (λ _, setMessages (λ _, [error_loading_message (LoadIO.failed_at io)])).

Definition session_error_message (info : SessionInfo.t) (at_ : Stamp)
    : ChatMessage.t :=
  plain_message ("session-error-" +:+ pretty (Date_now at_)) false
    (warn_mark +:+ " " +:+ SessionInfo.description info)
    (DateOfMs (new_Date at_)).

(** [fetchSessionInfo] reads the session id of the render it was created
    in. *)
Definition fetchSessionInfo (render : State)
    (getSessionInfo : Completion SessionInfo.t) (at_ : Stamp) : M unit :=
  if negb (truthy_opt (sessionId render)) then mret ()
  else
    try_catch
      (info ← await getSessionInfo;
       setSessionInfo (Some info) ;;
       if SessionInfo.error info then
         setMessages (λ prev, prev ++ [session_error_message info at_])
       else mret ())
      (λ _, setSessionId None ;; setSessionInfo None).

Definition loading_message (ts : N) : ChatMessage.t :=
  plain_message "loading" false "Loading session messages..." (DateOfMs ts).

Module SelectIO.
Record t := mk {
  loading_at : N;
  load : LoadIO.t;
  getSessionInfo : Completion SessionInfo.t;
  info_at : Stamp;
}.
End SelectIO.

(** The closing [fetchSessionInfo()] is the one of the handler's own render:
    it asks for the session that was active before the selection, and not at
    all when there was none. *)
Definition handleSessionSelect (render : State) (selectedSessionId : string)
    (io : SelectIO.t) : M unit :=
  setSessionId (Some selectedSessionId) ;;
  setShowSessionsList false ;;
  setMessages (λ _, [loading_message (SelectIO.loading_at io)]) ;;
  loadSessionMessages selectedSessionId (SelectIO.load io) ;;
  fetchSessionInfo render (SelectIO.getSessionInfo io) (SelectIO.info_at io).

(** The effect on [sessionId]: after a render in which the session id
    changed, [fetchSessionInfo] of that render runs when the id is set. *)
Definition sessionId_effect (getSessionInfo : Completion SessionInfo.t)
    (at_ : Stamp) : M unit :=
  dispatch (λ render, fetchSessionInfo render getSessionInfo at_).

(** ** The remaining handlers that write the transcript *)

Definition handleSessionCreated (newSessionId : string) (at_ : Stamp) : M unit :=
  setSessionId (Some newSessionId) ;;
  setMessages (λ prev, prev ++
    [plain_message ("system-" +:+ pretty (Date_now at_)) false
       (ok_mark +:+ " Connected to database successfully. Session ID: " +:+ newSessionId)
       (DateOfMs (new_Date at_))]).

Definition handleNewChat (props : ChatBotProps)
    (createSession : Completion SessionData.t) (welcome_at : N) (at_ : Stamp)
    : M unit :=
  if negb (truthy_opt (workspaceId props)) then mret ()
  else
    try_catch
      (sessionData ← await createSession;
       setSessionId (Some (SessionData._id sessionData)) ;;
       setMessages (λ _, [welcome welcome_at]) ;;
       setMessages (λ prev, prev ++
         [plain_message ("system-" +:+ pretty (Date_now at_)) false
            (ok_mark +:+ " Started new chat session: " +:+ SessionData.name sessionData)
            (DateOfMs (new_Date at_))]))
      (λ _, mret ()).

(** [activateWorkspace] resolves with an acknowledgement the handler does
    not read. *)
Definition handleRefreshConnection (props : ChatBotProps)
    (activateWorkspace : Completion unit) (at_ : Stamp) : M unit :=
  if negb (truthy_opt (workspaceId props)) then mret ()
  else
    try_catch
      (await activateWorkspace ;;
       setMessages (λ prev, prev ++
         [plain_message ("system-" +:+ pretty (Date_now at_)) false
            (ok_mark +:+ " Database connection refreshed successfully!")
            (DateOfMs (new_Date at_))]))
      (λ _,
         setMessages (λ prev, prev ++
           [plain_message ("error-" +:+ pretty (Date_now at_)) false
              (fail_mark +:+ " Failed to refresh database connection. Please check your connection settings.")
              (DateOfMs (new_Date at_))])).

(** ** What one submit leaves behind *)

(** One submit: the user types [typed] into the input (the [onChange]
    handler) and sends the form; the handler that runs is the one of the
    render that followed the typing. *)
Definition submit (props : ChatBotProps) (typed : string) (io : SendIO.t)
    : M unit :=
  setInput typed ;;
  dispatch (λ render, handleSendMessage render props io).

Definition is_normal {A} (c : Completion A) : bool :=
  match c with
  | Normal _ => true
  | Throw _ => false
  end.

(** The call was rejected with null or undefined. *)
Definition rejected_nullish {A} (c : Completion A) : bool :=
  match c with
  | Throw Nullish => true
  | _ => false
  end.

(** The assistant turn that ends a submit whose [executeQuery] has settled:
    the resolver's answer or the report of the failure; or no turn but a
    fault, when the report cannot be built. *)
Definition reply_message (executeQuery : Completion QueryResponse.t)
    (response_at : Stamp) (table_draws : nat → IdDraw) (error_at : Stamp)
    (fault : string) : Completion ChatMessage.t :=
  match executeQuery with
  | Normal result =>
      match botMessage result response_at table_draws fault with
      | Normal bot => Normal bot
      | Throw error => query_error_message error error_at fault
      end
  | Throw error => query_error_message error error_at fault
  end.

Definition reply_of (io : SendIO.t) : Completion ChatMessage.t :=
  reply_message (SendIO.executeQuery io) (SendIO.response_at io)
    (SendIO.table_draws io) (SendIO.error_at io) (SendIO.fault_message io).

(** The turn a completion stands for, if any. *)
Definition turn_of (c : Completion ChatMessage.t) : list ChatMessage.t :=
  match c with
  | Normal msg => [msg]
  | Throw _ => []
  end.

(** The turns one run of [handleSendMessage] appends, in order. *)
Definition sent_turns (render : State) (props : ChatBotProps) (io : SendIO.t)
    : list ChatMessage.t :=
  userMessage render (SendIO.user_at io)
  :: (if needs_session render props then
        match SendIO.createSession io with
        | Normal sessionData =>
            session_created_message sessionData (SendIO.session_at io)
            :: turn_of (reply_of io)
        | Throw _ => [session_failed_message (SendIO.session_at io)]
        end
      else turn_of (reply_of io)).

(** How one run of [handleSendMessage] ends: normally, or with the fault of
    its catch block. *)
Definition send_outcome (render : State) (props : ChatBotProps)
    (io : SendIO.t) : Completion unit :=
  if needs_session render props && negb (is_normal (SendIO.createSession io))
  then Normal ()
  else
    match reply_of io with
    | Normal _ => Normal ()
    | Throw e => Throw e
    end.

(** The session id one run of [handleSendMessage] leaves behind. *)
Definition session_after (render : State) (props : ChatBotProps)
    (io : SendIO.t) (s : State) : option string :=
  if needs_session render props then
    match SendIO.createSession io with
    | Normal sessionData => Some (SessionData._id sessionData)
    | Throw _ => sessionId s
    end
  else sessionId s.

(** ** Calls in flight *)

(** [handleSendMessage] and [fetchSessionInfo] are asynchronous: a call runs
    up to an [await] and goes on when the awaited backend call settles; in
    between, other calls start and go on.  What is left of a suspended call
    writes the state without reading the render the call was created in (of
    that render it only passes the utterance and the session id on to the
    backend, whose answers are given from outside), so the backend call it
    waits for identifies it. *)
Inductive Await :=
| AwaitCreateSession
| AwaitExecuteQuery
| AwaitGetSessionInfo.

#[global] Instance Await_eq_dec : EqDecision Await.
Proof. solve_decision. Defined.

(** [handleSendMessage] from the call to its first [await]; it yields no
    [await] when it returns at once. *)
Definition send_called (render : State) (props : ChatBotProps)
    (user_at : Stamp) : M (option Await) :=
  if trim_is_empty (input render) then mret None
  else
    setMessages (λ prev, prev ++ [userMessage render user_at]) ;;
    setInput "" ;;
    setIsProcessing true ;;
    mret (Some (if needs_session render props then AwaitCreateSession
                else AwaitExecuteQuery)).

(** [handleSendMessage] from the settlement of [createSession] on: up to the
    [await] of [executeQuery] when the session was created; through the
    inner catch clause, its [return] and the [finally] block when it was
    not. *)
Definition send_createSession_settled
    (createSession : Completion SessionData.t) (session_at : Stamp)
    : M (option Await) :=
  match createSession with
  | Normal sessionData =>
      setSessionId (Some (SessionData._id sessionData)) ;;
      setMessages (λ prev, prev ++ [session_created_message sessionData session_at]) ;;
      mret (Some AwaitExecuteQuery)
  | Throw _ =>
      try_finally
        (setMessages (λ prev, prev ++ [session_failed_message session_at]) ;;
         setIsProcessing false ;;
         mret None)
        (setIsProcessing false)
  end.

(** [handleSendMessage] from the settlement of [executeQuery] to its end. *)
Definition send_executeQuery_settled
    (executeQuery : Completion QueryResponse.t) (response_at : Stamp)
    (table_draws : nat → IdDraw) (error_at : Stamp) (fault : string)
    : M unit :=
  try_finally
    (try_catch
       (result ← await executeQuery;
        bot ← await (botMessage result response_at table_draws fault);
        setMessages (λ prev, prev ++ [bot]))
       (λ error,
          errorMessage ← await (query_error_message error error_at fault);
          setMessages (λ prev, prev ++ [errorMessage])))
    (setIsProcessing false).

(** [fetchSessionInfo] from the settlement of [getSessionInfo] to its end. *)
Definition info_getSessionInfo_settled
    (getSessionInfo : Completion SessionInfo.t) (at_ : Stamp) : M unit :=
  try_catch
    (info ← await getSessionInfo;
     setSessionInfo (Some info) ;;
     if SessionInfo.error info then
       setMessages (λ prev, prev ++ [session_error_message info at_])
     else mret ())
    (λ _, setSessionId None ;; setSessionInfo None).

(** The component between two occurrences: its state and the calls that are
    suspended, oldest first. *)
Record Async := mkAsync {
  current : State;
  in_flight : list Await;
}.

(** What happens to the component while submits run: the user types an
    utterance and sends the form, or the backend call that the [i]-th
    suspended call waits for settles.  Each occurrence carries what the
    code that it runs obtains from outside. *)
Inductive Occurrence :=
| Submits (typed : string) (user_at : Stamp)
| CreateSessionSettles (i : nat) (createSession : Completion SessionData.t)
    (session_at : Stamp)
| ExecuteQuerySettles (i : nat) (executeQuery : Completion QueryResponse.t)
    (response_at : Stamp) (table_draws : nat → IdDraw) (error_at : Stamp)
    (fault : string)
| GetSessionInfoSettles (i : nat) (getSessionInfo : Completion SessionInfo.t)
    (at_ : Stamp).

(** The [await] a piece of a call ends at, if it ends at one. *)
Definition suspended (c : Completion (option Await)) : option Await :=
  match c with
  | Normal next => next
  | Throw _ => None
  end.

(** The [i]-th suspended call goes on to its next [await], or ends. *)
Definition resumed (i : nat) (next : option Await) (calls : list Await)
    : list Await :=
  match next with
  | Some a => <[i := a]> calls
  | None => delete i calls
  end.

(** The render that follows an occurrence runs the effect on [sessionId]
    when the id differs from the one of the render before:
    [if (sessionId) fetchSessionInfo()], which suspends at its [await]. *)
Definition sessionId_effect_runs (before : State) (a : Async) : Async :=
  if bool_decide (sessionId (current a) = sessionId before) then a
  else if truthy_opt (sessionId (current a))
  then mkAsync (current a) (in_flight a ++ [AwaitGetSessionInfo])
  else a.

(** One occurrence.  A settlement is possible only for a call that is
    suspended at that backend call. *)
Definition occur (props : ChatBotProps) (o : Occurrence) (a : Async)
    : option Async :=
  match o with
  | Submits typed user_at =>
      let r := (setInput typed ;;
                dispatch (λ render, send_called render props user_at))
                 (current a) in
      Some (sessionId_effect_runs (current a)
              (mkAsync r.2 (in_flight a ++ option_list (suspended r.1))))
  | CreateSessionSettles i createSession session_at =>
      if decide (in_flight a !! i = Some AwaitCreateSession) then
        let r := send_createSession_settled createSession session_at
                   (current a) in
        Some (sessionId_effect_runs (current a)
                (mkAsync r.2 (resumed i (suspended r.1) (in_flight a))))
      else None
  | ExecuteQuerySettles i executeQuery response_at table_draws error_at fault =>
      if decide (in_flight a !! i = Some AwaitExecuteQuery) then
        let r := send_executeQuery_settled executeQuery response_at
                   table_draws error_at fault (current a) in
        Some (sessionId_effect_runs (current a)
                (mkAsync r.2 (delete i (in_flight a))))
      else None
  | GetSessionInfoSettles i getSessionInfo at_ =>
      if decide (in_flight a !! i = Some AwaitGetSessionInfo) then
        let r := info_getSessionInfo_settled getSessionInfo at_ (current a) in
        Some (sessionId_effect_runs (current a)
                (mkAsync r.2 (delete i (in_flight a))))
      else None
  end.

Fixpoint happen (props : ChatBotProps) (occurrences : list Occurrence)
    (a : Async) : option Async :=
  match occurrences with
  | [] => Some a
  | o :: rest => occur props o a ≫= happen props rest
  end.

(** The component as it is mounted. *)
Definition mounted (ts : N) : Async := mkAsync (initial_state ts) [].

(** The turns an occurrence appends to the transcript. *)
Definition appended (o : Occurrence) : list ChatMessage.t :=
  match o with
  | Submits typed user_at =>
      if trim_is_empty typed then []
      else [plain_message (pretty (Date_now user_at)) true typed
              (DateOfMs (new_Date user_at))]
  | CreateSessionSettles _ createSession session_at =>
      match createSession with
      | Normal sessionData => [session_created_message sessionData session_at]
      | Throw _ => [session_failed_message session_at]
      end
  | ExecuteQuerySettles _ executeQuery response_at table_draws error_at fault =>
      turn_of (reply_message executeQuery response_at table_draws error_at fault)
  | GetSessionInfoSettles _ getSessionInfo at_ =>
      match getSessionInfo with
      | Normal info =>
          if SessionInfo.error info then [session_error_message info at_]
          else []
      | Throw _ => []
      end
  end.

(** The occurrences of a run of successful submits: every utterance is not
    blank, every session that is asked for is created, and the resolver
    answers every query with something that becomes a message.  The fetch of
    the session information is no part of a submit, and settles either
    way. *)
Definition succeeds (o : Occurrence) : bool :=
  match o with
  | Submits typed _ => negb (trim_is_empty typed)
  | CreateSessionSettles _ createSession _ => is_normal createSession
  | ExecuteQuerySettles _ executeQuery response_at table_draws _ fault =>
      match executeQuery with
      | Normal result =>
          is_normal (botMessage result response_at table_draws fault)
      | Throw _ => false
      end
  | GetSessionInfoSettles _ _ _ => true
  end.

(** The submit calls of a run, the sessions created in it, the resolver
    calls that settled, and the warnings about a disconnected session. *)
Definition submit_calls (occurrences : list Occurrence) : nat :=
  sum_list_with (λ o, match o with Submits _ _ => 1 | _ => 0 end) occurrences.

Definition sessions_created (occurrences : list Occurrence) : nat :=
  sum_list_with
    (λ o, match o with CreateSessionSettles _ _ _ => 1 | _ => 0 end)
    occurrences.

Definition queries_settled (occurrences : list Occurrence) : nat :=
  sum_list_with
    (λ o, match o with ExecuteQuerySettles _ _ _ _ _ _ => 1 | _ => 0 end)
    occurrences.

Definition session_warnings (occurrences : list Occurrence) : nat :=
  sum_list_with
    (λ o, match o with
          | GetSessionInfoSettles _ (Normal info) _ =>
              if SessionInfo.error info then 1 else 0
          | _ => 0
          end)
    occurrences.

(** The submit calls in flight, and those of them that wait for their
    session. *)
Definition submits_in_flight (calls : list Await) : nat :=
  sum_list_with
    (λ w, match w with AwaitGetSessionInfo => 0 | _ => 1 end) calls.

Definition creations_in_flight (calls : list Await) : nat :=
  sum_list_with
    (λ w, match w with AwaitCreateSession => 1 | _ => 0 end) calls.

(** ** Events *)

(** The events that write the transcript, each with what its handler
    obtains from outside.  The effect on [autoSessionId] runs
    [handleSessionSelect] and is a [SessionSelect]. *)
Inductive Event :=
| Submit (typed : string) (io : SendIO.t)
| PageChange (messageId tableId : string) (newPage : Z)
    (getPaginatedResults : Completion PageResponse.t) (error_at : Stamp)
| SessionSelect (selectedSessionId : string) (io : SelectIO.t)
| SessionIdEffect (getSessionInfo : Completion SessionInfo.t) (at_ : Stamp)
| SessionCreated (newSessionId : string) (at_ : Stamp)
| NewChat (createSession : Completion SessionData.t) (welcome_at : N)
    (at_ : Stamp)
| RefreshConnection (activateWorkspace : Completion unit) (at_ : Stamp).

Definition handle (props : ChatBotProps) (ev : Event) : M unit :=
  match ev with
  | Submit typed io => submit props typed io
  | PageChange messageId tableId newPage getPaginatedResults error_at =>
      dispatch (λ render,
        handlePageChange render messageId tableId newPage
          getPaginatedResults error_at)
  | SessionSelect selectedSessionId io =>
      dispatch (λ render, handleSessionSelect render selectedSessionId io)
  | SessionIdEffect getSessionInfo at_ => sessionId_effect getSessionInfo at_
  | SessionCreated newSessionId at_ => handleSessionCreated newSessionId at_
  | NewChat createSession welcome_at at_ =>
      handleNewChat props createSession welcome_at at_
  | RefreshConnection activateWorkspace at_ =>
      handleRefreshConnection props activateWorkspace at_
  end.

Fixpoint run_events (props : ChatBotProps) (events : list Event) (s : State)
    : State :=
  match events with
  | [] => s
  | ev :: rest => run_events props rest (handle props ev s).2
  end.

(** ** Which results a turn holds *)

Definition holds_both (msg : ChatMessage.t) : bool :=
  match ChatMessage.sqlResult msg, ChatMessage.analysisResult msg with
  | Some _, Some _ => true
  | _, _ => false
  end.

(** A persisted message whose [query_result] carries both a non-empty [sql]
    and a [tables] array. *)
Definition persisted_both (msg : PersistedMessage.t) : bool :=
  match PersistedMessage.query_result msg with
  | Some qr =>
      truthy_opt (PersistedResult.sql qr)
      && match PersistedResult.tables qr with
         | Some _ => true
         | None => false
         end
  | None => false
  end.

(** The messages a session selection fetches, if it fetches any. *)
Definition fetched_messages (ev : Event) : list PersistedMessage.t :=
  match ev with
  | SessionSelect _ io =>
      match LoadIO.getSessionMessages (SelectIO.load io) with
      | Normal sessionMessages => sessionMessages
      | Throw _ => []
      end
  | _ => []
  end.

(** ** How a turn is displayed *)

(** The [isConversational] prop the message list passes to [Message]:
    [!message.isUser && message.query_type === 'conversational']. *)
Definition isConversational (message : ChatMessage.t) : bool :=
  negb (ChatMessage.isUser message)
  && match ChatMessage.query_type message with
     | Some q => String.eqb q "conversational"
     | None => false
     end.

(** ** Decimal digits, for reasoning about rendered numbers *)

Definition is_digit (c : ascii) : bool :=
  match c with
  | "0" | "1" | "2" | "3" | "4" | "5" | "6" | "7" | "8" | "9" => true
  | _ => false
  end%char.

Fixpoint all_digits (s : string) : bool :=
  match s with
  | EmptyString => true
  | String c rest => is_digit c && all_digits rest
  end.

(** Every turn of a list holds at most one of the two results. *)
Definition exclusive (turns : list ChatMessage.t) : Prop :=
  Forall (λ msg, holds_both msg = false) turns.

(** ** What the message list renders and how it wires page changes *)

(** [message.query_type === 'sql' && message.sqlResult]: the turn shows its
    SQL result block. *)
Definition renders_sql (message : ChatMessage.t) : bool :=
  match ChatMessage.query_type message, ChatMessage.sqlResult message with
  | Some q, Some _ => String.eqb q "sql"
  | _, _ => false
  end.

(** [message.query_type === 'analysis' && message.analysisResult]: the turn
    shows one result block per table. *)
Definition renders_analysis (message : ChatMessage.t) : bool :=
  match ChatMessage.query_type message, ChatMessage.analysisResult message with
  | Some q, Some _ => String.eqb q "analysis"
  | _, _ => false
  end.

(** The [onPageChange] of the SQL result block:
    [handlePageChange(message.id, message.sqlResult?.table_id || '', page)]. *)
Definition sql_onPageChange (render : State) (message : ChatMessage.t)
    (page : Z) (getPaginatedResults : Completion PageResponse.t)
    (error_at : Stamp) : M unit :=
  handlePageChange render (ChatMessage.id message)
    (or_else (ChatMessage.sqlResult message ≫= SqlResult.table_id) "")
    page getPaginatedResults error_at.

(** The [onPageChange] of the block of one table of an analysis:
    [handlePageChange(message.id, table.table_id || '', page)]. *)
Definition table_onPageChange (render : State) (message : ChatMessage.t)
    (table : TableInfo.t) (page : Z)
    (getPaginatedResults : Completion PageResponse.t) (error_at : Stamp)
    : M unit :=
  handlePageChange render (ChatMessage.id message)
    (or_else (TableInfo.table_id table) "")
    page getPaginatedResults error_at.


(** ** The state between two events *)

(** The transcript shows something and no request is marked as running. *)
Definition at_rest (s : State) : Prop :=
  messages s ≠ [] ∧ isProcessing s = false.

(** ** What a page change has to leave alone *)

(** The parts of a table that a page change does not address: its name,
    description, statement and row count. *)
Definition same_table_identity (after before : TableInfo.t) : Prop :=
  TableInfo.name after = TableInfo.name before
  ∧ TableInfo.description after = TableInfo.description before
  ∧ TableInfo.sql after = TableInfo.sql before
  ∧ TableInfo.row_count after = TableInfo.row_count before.

(** The parts of a turn that a page change does not address: who said what
    and when, the kind of answer, which results the turn holds, the
    statement and the error of an SQL result, the kind of an analysis and
    the identity of each of its tables. *)
Definition same_turn_identity (after before : ChatMessage.t) : Prop :=
  ChatMessage.id after = ChatMessage.id before
  ∧ ChatMessage.isUser after = ChatMessage.isUser before
  ∧ ChatMessage.text after = ChatMessage.text before
  ∧ ChatMessage.timestamp after = ChatMessage.timestamp before
  ∧ ChatMessage.query_type after = ChatMessage.query_type before
  ∧ option_Forall2
      (λ sr' sr,
         SqlResult.sql sr' = SqlResult.sql sr
         ∧ SqlResult.error sr' = SqlResult.error sr)
      (ChatMessage.sqlResult after) (ChatMessage.sqlResult before)
  ∧ option_Forall2
      (λ ar' ar,
         AnalysisResult.analysis_type ar' = AnalysisResult.analysis_type ar
         ∧ Forall2 same_table_identity
             (AnalysisResult.tables ar') (AnalysisResult.tables ar))
      (ChatMessage.analysisResult after) (ChatMessage.analysisResult before).

(** * The other components *)

(** ** Handlers over the state of any component *)

(** The handler monad of the chat component, for the state [S] of another
    component. *)
Definition ST (S A : Type) : Type := S → Completion A * S.

#[global] Instance ST_ret {S} : MRet (ST S) := λ A a s, (Normal a, s).

#[global] Instance ST_bind {S} : MBind (ST S) := λ A B k m s,
  match m s with
  | (Normal a, s') => k a s'
  | (Throw e, s') => (Throw e, s')
  end.

Definition throw {S A} (e : Thrown) : ST S A := λ s, (Throw e, s).

Definition gets {S A} (f : S → A) : ST S A := λ s, (Normal (f s), s).

Definition modify {S} (f : S → S) : ST S unit := λ s, (Normal (), f s).

(** [await p], with the settlement of [p] supplied by the caller. *)
Definition awaiting {S A} (settled : Completion A) : ST S A :=
  λ s, (settled, s).

(** [try { body } catch (error) { handler error }] *)
Definition catching {S A} (body : ST S A) (handler : Thrown → ST S A) : ST S A :=
  λ s, match body s with
       | (Normal a, s') => (Normal a, s')
       | (Throw e, s') => handler e s'
       end.

(** [try { body } finally { fin }] *)
Definition finally {S A} (body : ST S A) (fin : ST S unit) : ST S A :=
  λ s, match body s with
       | (c, s') =>
           match fin s' with
           | (Normal _, s'') => (c, s'')
           | (Throw e, s'') => (Throw e, s'')
           end
       end.

(** [s.split(sep)] for a separator of one character. *)
Fixpoint split_on (sep : ascii) (s : string) : list string :=
  match s with
  | EmptyString => [""]
  | String c rest =>
      if Ascii.eqb c sep then "" :: split_on sep rest
      else
        match split_on sep rest with
        | first :: others => String c first :: others
        | [] => [String c ""]
        end
  end.

From stdpp Require Import gmap.

(** ** Workspaces *)

Module DbConnection.
Record t := mk {
  db_name : string;
  username : string;
  password : string;
  host : string;
  port : string;
  db_type : string;
}.
End DbConnection.

Module Workspace.
Record t := mk {
  _id : string;
  name : string;
  description : option string;
  db_connection : DbConnection.t;
  created_at : string;
  updated_at : string;
}.
End Workspace.

(** ** The workspace form: [validateForm], [handleSubmit],
    [handleInputChange] *)

Module WorkspaceForm.

(** [formData] is an object that [handleInputChange] writes under computed
    keys: its string properties ([name], [description] and whatever key is
    written) are a map, and so are the properties of the nested
    [db_connection]. *)
Record FormData := mkFormData {
  props : gmap string string;
  db_connection : gmap string string;
}.

Record FormState := mkFormState {
  formData : FormData;
  loading : bool;
  errors : gmap string string;
}.

(** The argument of [useState] for [formData]. *)
Definition initialFormData (workspace : option Workspace.t) : FormData :=
  let db := Workspace.db_connection <$> workspace in
  mkFormData
    (<["name" := or_else (Workspace.name <$> workspace) ""]>
       (<["description" := or_else (workspace ≫= Workspace.description) ""]> ∅))
    (<["db_name" := or_else (DbConnection.db_name <$> db) ""]>
       (<["username" := or_else (DbConnection.username <$> db) ""]>
          (<["password" := or_else (DbConnection.password <$> db) ""]>
             (<["host" := or_else (DbConnection.host <$> db) "localhost"]>
                (<["port" := or_else (DbConnection.port <$> db) "5432"]>
                   (<["db_type" := or_else (DbConnection.db_type <$> db) "postgresql"]>
                      ∅)))))).

Definition initialState (workspace : option Workspace.t) : FormState :=
  mkFormState (initialFormData workspace) false ∅.

Definition setFormData (f : FormData → FormData) : ST FormState unit :=
  modify (λ s, mkFormState (f (formData s)) (loading s) (errors s)).

Definition setLoading (v : bool) : ST FormState unit :=
  modify (λ s, mkFormState (formData s) v (errors s)).

Definition setErrors (f : gmap string string → gmap string string)
    : ST FormState unit :=
  modify (λ s, mkFormState (formData s) (loading s) (f (errors s))).

(** Calling [trim] on a property that is missing raises a TypeError.  Its
    message is the engine's; V8's wording stands in for it, and no handler
    reads it. *)
Definition TypeError_trim : Thrown :=
  ErrorObject "Cannot read properties of undefined (reading 'trim')".

(** The value of a property that is about to be trimmed. *)
Definition property (object : gmap string string) (key : string)
    : Completion string :=
  match object !! key with
  | Some value => Normal value
  | None => Throw TypeError_trim
  end.

(** [/^\d+$/.test(s)]: one or more characters, all of them digits 0-9. *)
Definition is_number (s : string) : bool :=
  negb (String.eqb s "") && all_digits s.

(** [newErrors] grows by one assignment per failed test. *)
Definition required (key message value : string)
    (newErrors : gmap string string) : gmap string string :=
  if trim_is_empty value then <[key := message]> newErrors else newErrors.

Definition validateForm (render : FormState) : ST FormState bool :=
  name ← awaiting (property (props (formData render)) "name");
  let newErrors := required "name" "Workspace name is required" name ∅ in
  db_name ← awaiting (property (db_connection (formData render)) "db_name");
  let newErrors := required "db_name" "Database name is required" db_name newErrors in
  username ← awaiting (property (db_connection (formData render)) "username");
  let newErrors := required "username" "Username is required" username newErrors in
  host ← awaiting (property (db_connection (formData render)) "host");
  let newErrors := required "host" "Host is required" host newErrors in
  port ← awaiting (property (db_connection (formData render)) "port");
  let newErrors :=
    if trim_is_empty port then <["port" := "Port is required"]> newErrors
    else if negb (is_number port)
    then <["port" := "Port must be a number"]> newErrors
    else newErrors in
  setErrors (λ _, newErrors) ;;
  mret (Nat.eqb (size newErrors) 0).

(** [onSubmit] is the parent's callback: what it settles with may depend on
    the data it is given.  The catch block stores
    [error.message || 'Failed to save workspace']; reading the [message] of
    null or undefined raises a TypeError, whose message is the engine's and
    is given as [fault]. *)
Definition handleSubmit (render : FormState)
    (onSubmit : FormData → Completion unit) (fault : string)
    : ST FormState unit :=
  valid ← validateForm render;
  if negb valid then mret ()
  else
    finally
      (catching
         (setLoading true ;;
          awaiting (onSubmit (formData render)))
         (λ error,
            message ← awaiting (message_of error fault);
            setErrors (λ _,
              <["submit" := or_else message "Failed to save workspace"]> ∅)))
      (setLoading false).

(** [field.split('.')[1]]; a missing element is [undefined], which a
    computed key renders as 'undefined'. *)
Definition dbField (field : string) : string :=
  default "undefined" (split_on "." field !! 1).

(** [errors[field]] is truthy. *)
Definition has_error (errors : gmap string string) (field : string) : bool :=
  truthy_opt (errors !! field).

(** The handler is defined for every field but 'db_connection' itself: that
    call would put a string in the place of the nested object, which the
    form never does and [FormData] does not represent. *)
Definition handleInputChange (render : FormState) (field value : string)
    : option (ST FormState unit) :=
  if String.eqb field "db_connection" then None
  else
    Some
      ((if String.prefix "db_connection." field then
          setFormData (λ prev,
            mkFormData (props prev)
              (<[dbField field := value]> (db_connection prev)))
        else
          setFormData (λ prev,
            mkFormData (<[field := value]> (props prev)) (db_connection prev))) ;;
       if has_error (errors render) field
       then setErrors (λ prev, <[field := ""]> prev)
       else mret ()).

(** A sequence of edits, each made in the render that follows the one
    before. *)
Fixpoint type_in (edits : list (string * string)) (s : FormState)
    : option FormState :=
  match edits with
  | [] => Some s
  | (field, value) :: rest =>
      match handleInputChange s field value with
      | Some handler => type_in rest (handler s).2
      | None => None
      end
  end.

(** The five properties [validateForm] reads are there. *)
Definition readable (d : FormData) : Prop :=
  is_Some (props d !! "name")
  ∧ is_Some (db_connection d !! "db_name")
  ∧ is_Some (db_connection d !! "username")
  ∧ is_Some (db_connection d !! "host")
  ∧ is_Some (db_connection d !! "port").

(** What [validateForm] collects from the five values it reads. *)
Definition collected (name db_name username host port : string)
    : gmap string string :=
  let newErrors :=
    required "host" "Host is required" host
      (required "username" "Username is required" username
         (required "db_name" "Database name is required" db_name
            (required "name" "Workspace name is required" name ∅))) in
  if trim_is_empty port then <["port" := "Port is required"]> newErrors
  else if negb (is_number port)
       then <["port" := "Port must be a number"]> newErrors
       else newErrors.

End WorkspaceForm.

(** ** Connecting to a workspace: [handleConnectWorkspace] and the
    dashboard's [handleWorkspaceConnect] *)

(** A session as [listWorkspaceSessions] returns it. *)
Module Session.
Record t := mk {
  _id : string;
  name : string;
  description : option string;
  workspace_id : string;
  created_at : string;
  updated_at : string;
  message_count : option Z;
}.
End Session.

(** [Array.prototype.sort] with a comparison function.  The result of a
    comparison is a number or NaN ([None]), and NaN counts as 0.  The sort
    is stable; for a consistent comparison function its result is the one
    stable ordering, which inserting the elements from the right computes.
    With an inconsistent comparison function the order is left to the
    engine, and this is one of the orders it may produce. *)
Section Sort.
Context {A : Type}.
Variable comparefn : A → A → option Z.

Fixpoint sort_insert (x : A) (sorted : list A) : list A :=
  match sorted with
  | [] => [x]
  | y :: rest =>
      if (default 0 (comparefn x y) <=? 0)%Z then x :: y :: rest
      else y :: sort_insert x rest
  end.

Definition js_sort (l : list A) : list A := foldr sort_insert [] l.
End Sort.

Module Dashboard.

Record DashboardState := mkDashboardState {
  connectedWorkspace : option string;
  autoSessionId : option string;
  showWorkspaceManager : bool;
}.

(** The arguments of the [useState] calls. *)
Definition initialState : DashboardState := mkDashboardState None None true.

(** The state of the page together with what the workspace list keeps while
    it connects and what it has told the user through [alert]. *)
Record PageState := mkPageState {
  dashboard : DashboardState;
  connectingWorkspace : option string;
  alerts : list string;
}.

Definition setDashboard (f : DashboardState → DashboardState)
    : ST PageState unit :=
  modify (λ s, mkPageState (f (dashboard s)) (connectingWorkspace s) (alerts s)).

Definition setConnectingWorkspace (v : option string) : ST PageState unit :=
  modify (λ s, mkPageState (dashboard s) v (alerts s)).

Definition alert (message : string) : ST PageState unit :=
  modify (λ s, mkPageState (dashboard s) (connectingWorkspace s)
                 (alerts s ++ [message])).

(** [handleWorkspaceConnect(workspaceId, sessionId?)] of the page;
    [sessionId || null] drops an empty id. *)
Definition handleWorkspaceConnect (workspaceId : string)
    (sessionId : option string) : ST PageState unit :=
  setDashboard (λ d,
    mkDashboardState (Some workspaceId) (autoSessionId d)
      (showWorkspaceManager d)) ;;
  setDashboard (λ d,
    mkDashboardState (connectedWorkspace d)
      (if truthy_opt sessionId then sessionId else None)
      (showWorkspaceManager d)) ;;
  setDashboard (λ d,
    mkDashboardState (connectedWorkspace d) (autoSessionId d) false).

Definition handleBackToWorkspaces : ST PageState unit :=
  setDashboard (λ _, mkDashboardState None None true).

(** The props the page passes to the chat component. *)
Definition chat_props (d : DashboardState) : ChatBotProps :=
  mkProps (connectedWorkspace d) (autoSessionId d).

Section Connect.
(** [new Date(s).getTime()]: the time value of a date string, or NaN
    ([None]) when the string is not a date. *)
Variable Date_getTime : string → option Z.

(** [(a, b) => new Date(b.updated_at).getTime()
                - new Date(a.updated_at).getTime()] *)
Definition by_updated_at_desc (a b : Session.t) : option Z :=
  tb ← Date_getTime (Session.updated_at b);
  ta ← Date_getTime (Session.updated_at a);
  Some (tb - ta)%Z.

(** [sessions.sort(...)[0]] *)
Definition mostRecentSession (sessions : list Session.t) : option Session.t :=
  head (js_sort by_updated_at_desc sessions).

(** Reading [_id] of a missing first element raises a TypeError.  Its
    message is the engine's; V8's wording stands in for it, and no handler
    reads it. *)
Definition TypeError_id : Thrown :=
  ErrorObject "Cannot read properties of undefined (reading '_id')".

(** [handleConnectWorkspace] of the workspace list, with the page's
    callback as [onWorkspaceConnect]. *)
Definition handleConnectWorkspace
    (onWorkspaceConnect : string → option string → ST PageState unit)
    (workspaceId : string)
    (activateWorkspace : Completion unit)
    (listWorkspaceSessions : Completion (option (list Session.t)))
    : ST PageState unit :=
  finally
    (catching
       (setConnectingWorkspace (Some workspaceId) ;;
        awaiting activateWorkspace ;;
        catching
          (sessions ← awaiting listWorkspaceSessions;
           match sessions with
           | Some found =>
               if Nat.ltb 0 (length found) then
                 match mostRecentSession found with
                 | Some mostRecent =>
                     onWorkspaceConnect workspaceId
                       (Some (Session._id mostRecent))
                 | None => throw TypeError_id
                 end
               else onWorkspaceConnect workspaceId None
           | None => onWorkspaceConnect workspaceId None
           end)
          (λ _, onWorkspaceConnect workspaceId None))
       (λ _,
          alert "Failed to connect to database. Please check your connection settings."))
    (setConnectingWorkspace None).

(** The time value of a session, and that its date is one. *)
Definition time (s : Session.t) : Z :=
  default 0%Z (Date_getTime (Session.updated_at s)).

Definition parses (s : Session.t) : Prop :=
  is_Some (Date_getTime (Session.updated_at s)).
End Connect.

End Dashboard.

(** ** Authentication: [login], [register], [logout] and the check on
    mount *)

Module Auth.

Module User.
Record t := mk {
  id : string;
  email : string;
  first_name : option string;
  last_name : option string;
  is_admin : bool;
  is_active : bool;
}.
End User.

(** What a promise is rejected with, as far as the provider reads it: a
    value that is not null, with its [response?.data?.detail], or null or
    undefined. *)
Inductive Rejection :=
| Failure (detail : option string)
| NullishFailure.

(** How a call settles for the provider. *)
Inductive Settled (A : Type) :=
| Resolved (a : A)
| Rejected (err : Rejection).
Arguments Resolved {A} a.
Arguments Rejected {A} err.

(** The state of the provider, the token in [localStorage] and the paths
    pushed to the router. *)
Record World := mkWorld {
  user : option User.t;
  loading : bool;
  error : option string;
  auth_token : option string;
  pushed : list string;
}.

Definition setUser (v : option User.t) (w : World) : World :=
  mkWorld v (loading w) (error w) (auth_token w) (pushed w).
Definition setLoading (v : bool) (w : World) : World :=
  mkWorld (user w) v (error w) (auth_token w) (pushed w).
Definition setError (v : option string) (w : World) : World :=
  mkWorld (user w) (loading w) v (auth_token w) (pushed w).
Definition setItem (v : string) (w : World) : World :=
  mkWorld (user w) (loading w) (error w) (Some v) (pushed w).
Definition removeItem (w : World) : World :=
  mkWorld (user w) (loading w) (error w) None (pushed w).
Definition push (path : string) (w : World) : World :=
  mkWorld (user w) (loading w) (error w) (auth_token w) (pushed w ++ [path]).

(** [isAuthenticated: !!user] *)
Definition isAuthenticated (w : World) : bool :=
  match user w with
  | Some _ => true
  | None => false
  end.

(** The catch blocks of [login] and [register] up to [setError]: the detail
    of the rejection, when it has one, replaces the default message.
    Reading [err.response] of null or undefined raises a TypeError: the
    block is left before [setError], and the function's own promise is
    rejected with that TypeError, which has no [response]. *)
Definition report (default : string) (err : Rejection) (w : World)
    : Settled unit * World :=
  match err with
  | Failure detail => (Resolved (), setError (Some (or_else detail default)) w)
  | NullishFailure => (Rejected (Failure None), w)
  end.

(** [login]: [apiLogin] resolves with the access token.  The [finally]
    block runs on every exit. *)
Definition login (apiLogin : Settled string)
    (getCurrentUser : Settled User.t) (w : World) : Settled unit * World :=
  let w := setLoading true (setError None w) in
  let '(outcome, w) :=
    match apiLogin with
    | Resolved access_token =>
        let w := setItem access_token w in
        match getCurrentUser with
        | Resolved userData =>
            (Resolved (), push "/dashboard" (setUser (Some userData) w))
        | Rejected err => report "Failed to login" err w
        end
    | Rejected err => report "Failed to login" err w
    end in
  (outcome, setLoading false w).

(** [register]: after a successful registration it awaits [login]; its
    catch block ends with [setLoading(false)], and there is no [finally]. *)
Definition register (apiRegister : Settled unit) (apiLogin : Settled string)
    (getCurrentUser : Settled User.t) (w : World) : Settled unit * World :=
  let w := setLoading true (setError None w) in
  let failed err w :=
    match report "Failed to register" err w with
    | (Resolved _, w) => (Resolved (), setLoading false w)
    | (Rejected err', w) => (Rejected err', w)
    end in
  match apiRegister with
  | Resolved _ =>
      match login apiLogin getCurrentUser w with
      | (Resolved _, w) => (Resolved (), w)
      | (Rejected err, w) => failed err w
      end
  | Rejected err => failed err w
  end.

Definition logout (w : World) : World :=
  push "/" (setUser None (removeItem w)).

(** [loadUserFromToken], the effect that runs when the provider mounts. *)
Definition loadUserFromToken (getCurrentUser : Settled User.t) (w : World)
    : World :=
  if negb (truthy_opt (auth_token w)) then setLoading false w
  else
    match getCurrentUser with
    | Resolved userData => setLoading false (setUser (Some userData) w)
    | Rejected _ => setLoading false (removeItem w)
    end.

(** Loading the application: the provider starts from the arguments of its
    [useState] calls, the stored token and the router's history stay, and the
    effect runs. *)
Definition reload (getCurrentUser : Settled User.t) (w : World) : World :=
  loadUserFromToken getCurrentUser
    (mkWorld None true None (auth_token w) (pushed w)).

Inductive Action :=
| Login (apiLogin : Settled string) (getCurrentUser : Settled User.t)
| Register (apiRegister : Settled unit) (apiLogin : Settled string)
    (getCurrentUser : Settled User.t)
| Logout
| Reload (getCurrentUser : Settled User.t).

Definition act (a : Action) : World → World :=
  match a with
  | Login apiLogin getCurrentUser => λ w, (login apiLogin getCurrentUser w).2
  | Register apiRegister apiLogin getCurrentUser =>
      λ w, (register apiRegister apiLogin getCurrentUser w).2
  | Logout => logout
  | Reload getCurrentUser => reload getCurrentUser
  end.

Definition run (actions : list Action) (w : World) : World :=
  foldl (λ w a, act a w) w actions.

(** Whoever is authenticated has a token in the store. *)
Definition has_token (w : World) : Prop :=
  isAuthenticated w = true → is_Some (auth_token w).

End Auth.

(** ** The list of sessions: [fetchSessions], [handleCreateSession],
    [handleDeleteSession] *)

Module SessionsList.

Record ListState := mkListState {
  sessions : list Session.t;
  loading : bool;
  creating : bool;
  showCreateForm : bool;
  newSessionName : string;
  newSessionDescription : string;
}.

(** The arguments of the [useState] calls. *)
Definition initialState : ListState := mkListState [] true false false "" "".

Definition setSessions (v : list Session.t) : ST ListState unit :=
  modify (λ s, mkListState v (loading s) (creating s) (showCreateForm s)
                 (newSessionName s) (newSessionDescription s)).
Definition setLoading (v : bool) : ST ListState unit :=
  modify (λ s, mkListState (sessions s) v (creating s) (showCreateForm s)
                 (newSessionName s) (newSessionDescription s)).
Definition setCreating (v : bool) : ST ListState unit :=
  modify (λ s, mkListState (sessions s) (loading s) v (showCreateForm s)
                 (newSessionName s) (newSessionDescription s)).
Definition setShowCreateForm (v : bool) : ST ListState unit :=
  modify (λ s, mkListState (sessions s) (loading s) (creating s) v
                 (newSessionName s) (newSessionDescription s)).
Definition setNewSessionName (v : string) : ST ListState unit :=
  modify (λ s, mkListState (sessions s) (loading s) (creating s)
                 (showCreateForm s) v (newSessionDescription s)).
Definition setNewSessionDescription (v : string) : ST ListState unit :=
  modify (λ s, mkListState (sessions s) (loading s) (creating s)
                 (showCreateForm s) (newSessionName s) v).

Definition fetchSessions (listWorkspaceSessions : Completion (list Session.t))
    : ST ListState unit :=
  finally
    (catching
       (setLoading true ;;
        data ← awaiting listWorkspaceSessions;
        setSessions data)
       (λ _, mret ()))
    (setLoading false).

Definition handleCreateSession (render : ListState)
    (createSession : Completion SessionData.t)
    (listWorkspaceSessions : Completion (list Session.t))
    : ST ListState unit :=
  if trim_is_empty (newSessionName render) then mret ()
  else
    finally
      (catching
         (setCreating true ;;
          awaiting createSession ;;
          fetchSessions listWorkspaceSessions ;;
          setShowCreateForm false ;;
          setNewSessionName "" ;;
          setNewSessionDescription "")
         (λ _, mret ()))
      (setCreating false).

(** [confirmed] is the answer to [confirm('Are you sure ...')]. *)
Definition handleDeleteSession (confirmed : bool)
    (deleteSession : Completion unit)
    (listWorkspaceSessions : Completion (list Session.t))
    : ST ListState unit :=
  if negb confirmed then mret ()
  else
    catching
      (awaiting deleteSession ;;
       fetchSessions listWorkspaceSessions)
      (λ _, mret ()).

End SessionsList.

(** ** The profile menu: [displayName] and [avatarInitial] *)

(** [String.prototype.trimStart], [trimEnd] and [trim] on strings of bytes:
    the white space they remove is the one [trim_is_empty] recognises. *)
Fixpoint trimStart (s : string) : string :=
  match s with
  | EmptyString => ""
  | String c rest =>
      if is_ascii_space c then trimStart rest
      else
        match c, rest with
        | "194"%char, String "160"%char rest' => trimStart rest'
        | "225"%char, String "154"%char (String "128"%char rest') =>
            trimStart rest'
        | "226"%char, String "128"%char (String d rest') =>
            if is_e2_80_space d then trimStart rest' else s
        | "226"%char, String "129"%char (String "159"%char rest') =>
            trimStart rest'
        | "227"%char, String "128"%char (String "128"%char rest') =>
            trimStart rest'
        | "239"%char, String "187"%char (String "191"%char rest') =>
            trimStart rest'
        | _, _ => s
        end
  end.

Fixpoint trimEnd (s : string) : string :=
  match s with
  | EmptyString => ""
  | String c rest => if trim_is_empty s then "" else String c (trimEnd rest)
  end.

Definition trim (s : string) : string := trimEnd (trimStart s).

Module UserProfile.

(** The name the menu shows: the first and last name, trimmed, or without a
    first name the part of the email before the first '@'. *)
Definition displayName (user : Auth.User.t) : string :=
  if truthy_opt (Auth.User.first_name user) then
    trim (or_else (Auth.User.first_name user) "" +:+ " "
          +:+ or_else (Auth.User.last_name user) "")
  else
    match split_on "@" (Auth.User.email user) with
    | first :: _ => first
    | [] => ""
    end.

(** Calling [toUpperCase] on the missing first character of an empty string
    raises a TypeError.  Its message is the engine's; V8's wording stands in
    for it, and nothing reads it. *)
Definition TypeError_toUpperCase : Thrown :=
  ErrorObject "Cannot read properties of undefined (reading 'toUpperCase')".

Section Render.
(** [s => s[0].toUpperCase()] on a string that is not empty. *)
Variable upper_initial : string → string.

(** [displayName[0].toUpperCase()] *)
Definition avatarInitial (user : Auth.User.t) : Completion string :=
  if String.eqb (displayName user) "" then Throw TypeError_toUpperCase
  else Normal (upper_initial (displayName user)).

(** What the component computes before it renders: nothing without a user,
    else the display name and the initial. *)
Definition render (w : Auth.World) : Completion (option (string * string)) :=
  match Auth.user w with
  | None => Normal None
  | Some user =>
      match avatarInitial user with
      | Normal initial => Normal (Some (displayName user, initial))
      | Throw error => Throw error
      end
  end.
End Render.

End UserProfile.

(** * Example data *)

(** A transcript used by the examples: a user turn, an analysis turn with
    two tables and an SQL turn. *)
Definition page1 : PaginationInfo.t :=
  PaginationInfo.mk "t1" 1 3 57 20 (Some true) (Some false).
Definition page2 (tid : string) : PaginationInfo.t :=
  PaginationInfo.mk tid 2 3 57 20 (Some true) (Some true).
Definition tableA : TableInfo.t :=
  TableInfo.mk "before" "first period" "SELECT 1" (Some [JNum 1]) 1 (Some "a1") None.
Definition tableB : TableInfo.t :=
  TableInfo.mk "after" "second period" "SELECT 2" (Some [JNum 2]) 1 (Some "b2") None.
Definition user_turn : ChatMessage.t :=
  plain_message "1700000000000" true "compare both periods" (DateOfMs 1700000000000).
Definition analysis_turn : ChatMessage.t :=
  ChatMessage.mk "response-1700000000500" false "Here is the comparison"
    (DateOfMs 1700000000500) (Some "analysis") None
    (Some (AnalysisResult.mk [tableA; tableB] (Some "comparative"))).
Definition sql_turn : ChatMessage.t :=
  ChatMessage.mk "response-1700000000900" false "Revenue by month"
    (DateOfMs 1700000000900) (Some "sql")
    (Some (SqlResult.mk "SELECT month, revenue FROM sales" (Some [JNum 10])
             None (Some page1) (Some "t1")))
    None.
Definition demo_state : State :=
  mkState [welcome 0; user_turn; analysis_turn; sql_turn] "" false
    (Some "s1") None false None.
Definition demo_response : PageResponse.t :=
  PageResponse.mk (Some [JNum 30; JNum 40]) (Some (page2 "t9")).
Definition demo_stamp : Stamp := mkStamp 1700000001000 1700000001001.


(** A resolver answer with one SQL table, and the environment of a submit
    in which every call resolves. *)
Definition sql_response : QueryResponse.t :=
  QueryResponse.mk (Some "sql") (Some "Revenue by month") None
    (Some "SELECT month, revenue FROM sales") (Some [JNum 10]) None
    (Some page1) (Some "t1") None None.
(** What one engine says when [map] is read of undefined, and when
    [message] is read of null. *)
Definition engine_message : string :=
  "Cannot read properties of undefined (reading 'map')".
Definition engine_message_null : string :=
  "Cannot read properties of null (reading 'message')".
Definition demo_draws : nat → IdDraw :=
  λ _, mkIdDraw 1700000000500 "0.4fzyo82mvyr".
Definition demo_io (result : QueryResponse.t) : SendIO.t :=
  SendIO.mk (mkStamp 1700000000000 1700000000000)
    (Normal (SessionData.mk "s1" "Chat Session 11/14/2023, 10:13:20 PM"))
    (mkStamp 1700000000200 1700000000200)
    (Normal result)
    (mkStamp 1700000000500 1700000000500)
    demo_draws
    (mkStamp 1700000000600 1700000000600)
    engine_message.
Definition connected_props : ChatBotProps := mkProps (Some "w1") None.
Definition unconnected_props : ChatBotProps := mkProps None None.

(** An analysis answer whose two tables come without a [table_id]. *)
Definition bare_table (name : string) : TableInfo.t :=
  TableInfo.mk name "" "SELECT 1" (Some [JNum 1]) 1 None None.
Definition analysis_response : QueryResponse.t :=
  QueryResponse.mk (Some "analysis") (Some "Here is the comparison") None
    None None None None None
    (Some [bare_table "before"; bare_table "after"]) (Some "comparative").

(** An answer without a discriminant. *)
Definition untyped_response : QueryResponse.t :=
  QueryResponse.mk None (Some "I can only answer questions about your data.")
    None None None None None None None None.
Definition typing_state : State :=
  mkState [welcome 0] "hello there" false (Some "s1") None false None.

(** A persisted assistant message whose [query_result] carries both a
    statement and tables, and session selections that fetch it, fetch
    nothing, or fail to fetch. *)
Definition mixed_result : PersistedResult.t :=
  PersistedResult.mk false true false (Some "SELECT 1") (Some [JNum 1]) None
    None (Some [tableA; tableB]) (Some "comparative").
Definition mixed_message : PersistedMessage.t :=
  PersistedMessage.mk (Some "m1") "assistant" "Here is the comparison"
    (Some "2023-11-14T22:13:20Z") (Some mixed_result).
Definition demo_load_draws : nat → LoadDraw :=
  λ _, mkLoadDraw 1700000002000 "0.123" 1700000002000.
Definition select_io (fetched : Completion (list PersistedMessage.t))
    : SelectIO.t :=
  SelectIO.mk 1700000001500
    (LoadIO.mk fetched demo_load_draws
       (mkStamp 1700000002100 1700000002100) 1700000002100 1700000002100)
    (Normal (SessionInfo.mk false "" (Some "sales")))
    (mkStamp 1700000002200 1700000002200).
Definition not_found : Thrown :=
  ErrorObject "Request failed with status code 404".
Definition persisted_question : PersistedMessage.t :=
  PersistedMessage.mk (Some "m0") "user" "compare both periods"
    (Some "2023-11-14T22:13:00Z") None.
Definition persisted_answer : PersistedMessage.t :=
  PersistedMessage.mk (Some "m2") "assistant" "Revenue by month" None
    (Some (PersistedResult.mk false false false
             (Some "SELECT month, revenue FROM sales") (Some [JNum 10]) None
             (Some page1) None None)).

(** Runs of submits with a connected workspace.  In the first, two submits
    overlap: both are called before a session exists, so both create one;
    the second is answered first; and the information of the session that
    was created first comes back with the error flag.  In the second, one
    submit runs alone.  In the third, the fetch of the session information
    is rejected after the first submit, which clears the session id, and the
    second submit creates a session again. *)
Definition second_session : SessionData.t :=
  SessionData.mk "s2" "Chat Session 11/14/2023, 10:13:21 PM".
Definition first_session : SessionData.t :=
  SessionData.mk "s1" "Chat Session 11/14/2023, 10:13:20 PM".
Definition overlapping_submits : list Occurrence :=
  [Submits "show revenue by month" (mkStamp 1700000000000 1700000000000);
   Submits "and by week" (mkStamp 1700000000100 1700000000100);
   CreateSessionSettles 0 (Normal first_session)
     (mkStamp 1700000000200 1700000000200);
   CreateSessionSettles 1 (Normal second_session)
     (mkStamp 1700000000300 1700000000300);
   ExecuteQuerySettles 1 (Normal untyped_response)
     (mkStamp 1700000000400 1700000000400) demo_draws
     (mkStamp 1700000000400 1700000000400) engine_message;
   ExecuteQuerySettles 0 (Normal sql_response)
     (mkStamp 1700000000500 1700000000500) demo_draws
     (mkStamp 1700000000500 1700000000500) engine_message;
   GetSessionInfoSettles 0
     (Normal (SessionInfo.mk true "Session is no longer connected" None))
     (mkStamp 1700000000600 1700000000600)].
Definition one_submit : list Occurrence :=
  [Submits "show revenue by month" (mkStamp 1700000000000 1700000000000);
   CreateSessionSettles 0 (Normal first_session)
     (mkStamp 1700000000200 1700000000200);
   ExecuteQuerySettles 0 (Normal sql_response)
     (mkStamp 1700000000500 1700000000500) demo_draws
     (mkStamp 1700000000500 1700000000500) engine_message].
Definition submits_around_lost_session : list Occurrence :=
  one_submit
  ++ [GetSessionInfoSettles 0
        (Throw (ErrorObject "Request failed with status code 404"))
        (mkStamp 1700000000600 1700000000600);
      Submits "and by week" (mkStamp 1700000001000 1700000001000);
      CreateSessionSettles 0 (Normal second_session)
        (mkStamp 1700000001200 1700000001200);
      ExecuteQuerySettles 0 (Normal sql_response)
        (mkStamp 1700000001500 1700000001500) demo_draws
        (mkStamp 1700000001500 1700000001500) engine_message].

(** Environments of a submit in which the session cannot be created, or the
    resolver call is rejected. *)
Definition failing_create_io : SendIO.t :=
  SendIO.mk (mkStamp 1700000000000 1700000000000)
    (Throw not_found)
    (mkStamp 1700000000200 1700000000200)
    (Normal sql_response)
    (mkStamp 1700000000500 1700000000500)
    demo_draws
    (mkStamp 1700000000600 1700000000600)
    engine_message.
Definition failing_query_io : SendIO.t :=
  SendIO.mk (mkStamp 1700000000000 1700000000000)
    (Normal (SessionData.mk "s1" "Chat Session"))
    (mkStamp 1700000000200 1700000000200)
    (Throw (ErrorObject "Network Error"))
    (mkStamp 1700000000500 1700000000500)
    demo_draws
    (mkStamp 1700000000600 1700000000600)
    engine_message.
Definition nullish_query_io : SendIO.t :=
  SendIO.mk (mkStamp 1700000000000 1700000000000)
    (Normal (SessionData.mk "s1" "Chat Session"))
    (mkStamp 1700000000200 1700000000200)
    (Throw Nullish)
    (mkStamp 1700000000500 1700000000500)
    demo_draws
    (mkStamp 1700000000600 1700000000600)
    engine_message_null.
Definition fresh_typing_state : State :=
  mkState [welcome 0] " show revenue " false None None false None.
(** An analysis answer that lacks its [tables]. *)
Definition tableless_response : QueryResponse.t :=
  QueryResponse.mk (Some "analysis") (Some "Here is the comparison") None
    None None None None None None (Some "comparative").

(** An SQL answer whose table id comes in [pagination] only. *)
Definition paged_only_response : QueryResponse.t :=
  QueryResponse.mk (Some "sql") (Some "Revenue by month") None
    (Some "SELECT month, revenue FROM sales") (Some [JNum 10]) None
    (Some page1) None None None.
(** A turn that holds both kinds of result, as a session load can make it,
    in a transcript of its own. *)
Definition mixed_turn : ChatMessage.t :=
  ChatMessage.mk "m1" false "Here is the comparison"
    (DateOfString "2023-11-14T22:13:20Z") (Some "analysis")
    (Some (SqlResult.mk "SELECT 1" (Some [JNum 1]) None None None))
    (Some (AnalysisResult.mk [tableA; tableB] (Some "comparative"))).
Definition mixed_state : State :=
  mkState [mixed_turn] "" false (Some "s1") None false None.

(** A workspace as the list shows it, and a form state in which the user has
    typed a port with a trailing blank. *)
Definition sales_workspace : Workspace.t :=
  Workspace.mk "w1" "Sales" (Some "Sales database")
    (DbConnection.mk "sales" "reader" "secret" "db.example.org" "5432"
       "postgresql")
    "2023-11-01T10:00:00Z" "2023-11-14T22:13:20Z".
Definition spaced_port_workspace : Workspace.t :=
  Workspace.mk "w2" "Sales" None
    (DbConnection.mk "" "reader" "" "db.example.org" "5432 " "postgresql")
    "2023-11-01T10:00:00Z" "2023-11-14T22:13:20Z".

(** Three sessions of a workspace, the second and the third updated at the
    same time, and a clock that reads their dates. *)
Definition session_at (id updated : string) : Session.t :=
  Session.mk id ("Session " +:+ id) None "w1" "2023-11-01T10:00:00Z" updated None.
Definition demo_sessions : list Session.t :=
  [session_at "a" "2023-11-10T08:00:00Z";
   session_at "b" "2023-11-14T22:13:20Z";
   session_at "c" "2023-11-14T22:13:20Z"].
Definition demo_getTime (s : string) : option Z :=
  if String.eqb s "2023-11-10T08:00:00Z" then Some 1699603200000%Z
  else if String.eqb s "2023-11-14T22:13:20Z" then Some 1700000000000%Z
  else None.

Definition demo_user : Auth.User.t :=
  Auth.User.mk "u1" "ada@example.org" (Some "Ada") (Some "Lovelace") false true.
Definition visitor : Auth.World := Auth.mkWorld None true None None [].
Definition blank_named_user : Auth.User.t :=
  Auth.User.mk "u2" "grace@example.org" (Some " ") None false true.
(** * Properties *)

Example trim_is_empty_blank : trim_is_empty "  	 " = true.
Proof. reflexivity. Qed.
Example trim_is_empty_text : trim_is_empty "  show revenue " = false.
Proof. reflexivity. Qed.
Example trim_is_empty_nbsp :
  trim_is_empty (String "194" (String "160" " ")) = true.
Proof. reflexivity. Qed.

(** ** The three exits of [handlePageChange] *)

Section PageChangeExits.
Variables (render s : State) (messageId tableId : string) (newPage : Z).
Variable error_at : Stamp.

(** Without a session id or a table id the handler returns before it
    touches the state or the network. *)
Lemma handlePageChange_rejected settled :
  truthy_opt (sessionId render) = false ∨ truthy tableId = false →
  handlePageChange render messageId tableId newPage settled error_at s
  = (Normal (), s).
Proof.
  unfold handlePageChange. by intros [-> | ->]; rewrite ?orb_true_r.
Qed.

Hypothesis Hsession : truthy_opt (sessionId render) = true.
Hypothesis Htable : truthy tableId = true.

Lemma handlePageChange_resolved result :
  handlePageChange render messageId tableId newPage (Normal result) error_at s
  = (Normal (),
     mkState (map (update_message messageId tableId result) (messages s))
       (input s) false (sessionId s) (sessionInfo s) (showSessionsList s)
       (Some (PaginationState.mk messageId (currentTableId result tableId)
                newPage))).
Proof. unfold handlePageChange. by rewrite Hsession, Htable. Qed.

Lemma handlePageChange_caught error :
  handlePageChange render messageId tableId newPage (Throw error) error_at s
  = (Normal (),
     mkState (messages s ++ [pagination_error_message newPage error error_at])
       (input s) false (sessionId s) (sessionInfo s) (showSessionsList s)
       (paginationState s)).
Proof. unfold handlePageChange. by rewrite Hsession, Htable. Qed.
End PageChangeExits.

(** The transcript after a page change whose backend call resolved: either
    the old one (rejected call) or the old one mapped by [update_message]. *)
Lemma handlePageChange_messages render s messageId tableId newPage result error_at :
  messages (handlePageChange render messageId tableId newPage (Normal result)
              error_at s).2
  = messages s
  ∨ messages (handlePageChange render messageId tableId newPage (Normal result)
                error_at s).2
    = map (update_message messageId tableId result) (messages s).
Proof.
  destruct (truthy_opt (sessionId render)) eqn:Hs;
    [destruct (truthy tableId) eqn:Ht|].
  - right. by rewrite handlePageChange_resolved.
  - left. rewrite handlePageChange_rejected; auto.
  - left. rewrite handlePageChange_rejected; auto.
Qed.

(** ** Frame lemmas for [update_table] and [update_message] *)

Lemma update_table_other tableId result table :
  TableInfo.table_id table ≠ Some tableId →
  update_table tableId result table = table.
Proof.
  intros Hne. unfold update_table, table_id_is.
  destruct (TableInfo.table_id table) as [tid|]; [|done].
  destruct (String.eqb_spec tid tableId) as [->|]; [|done].
  by destruct Hne.
Qed.

Lemma update_table_hit tableId result table :
  TableInfo.table_id table = Some tableId →
  update_table tableId result table
  = TableInfo.mk (TableInfo.name table) (TableInfo.description table)
      (TableInfo.sql table) (PageResponse.data result)
      (TableInfo.row_count table) (Some (currentTableId result tableId))
      (PageResponse.pagination result).
Proof.
  intros Hid. unfold update_table, table_id_is.
  by rewrite Hid, String.eqb_refl.
Qed.

Lemma update_message_other messageId tableId result msg :
  ChatMessage.id msg ≠ messageId →
  update_message messageId tableId result msg = msg.
Proof.
  intros Hne. unfold update_message.
  by destruct (String.eqb_spec (ChatMessage.id msg) messageId).
Qed.

Lemma update_message_no_result messageId tableId result msg :
  ChatMessage.sqlResult msg = None →
  ChatMessage.analysisResult msg = None →
  update_message messageId tableId result msg = msg.
Proof.
  intros Hsql Han. unfold update_message. rewrite Hsql, Han.
  by destruct (String.eqb _ _).
Qed.

(** Whatever branch is taken, an [analysisResult] stays an [analysisResult]
    with its tables mapped by [update_table] or left alone. *)
Lemma update_message_analysis messageId tableId result msg ar :
  ChatMessage.analysisResult msg = Some ar →
  ∃ tables',
    ChatMessage.analysisResult (update_message messageId tableId result msg)
    = Some (AnalysisResult.mk tables' (AnalysisResult.analysis_type ar))
    ∧ (tables' = AnalysisResult.tables ar
       ∨ tables' = map (update_table tableId result) (AnalysisResult.tables ar)).
Proof.
  intros Har. unfold update_message.
  destruct (String.eqb _ _), (ChatMessage.sqlResult msg) eqn:Hsql;
    rewrite ?Har; simpl; rewrite ?Har; destruct ar; eauto.
Qed.

(** ** Claims about pagination *)

(** C1.  A page change whose backend call resolved keeps the transcript's
    length, leaves every turn whose id differs from the requested one as it
    was, and in a turn holding an [analysisResult] leaves every table whose
    [table_id] differs from the requested [tableId] as it was, at its
    position. *)
Theorem page_change_frame render s messageId tableId newPage result error_at i msg :
  messages s !! i = Some msg →
  let s' := (handlePageChange render messageId tableId newPage
               (Normal result) error_at s).2 in
  length (messages s') = length (messages s)
  ∧ (ChatMessage.id msg ≠ messageId → messages s' !! i = Some msg)
  ∧ (∀ ar, ChatMessage.analysisResult msg = Some ar →
       ∃ msg' ar',
         messages s' !! i = Some msg'
         ∧ ChatMessage.analysisResult msg' = Some ar'
         ∧ length (AnalysisResult.tables ar') = length (AnalysisResult.tables ar)
         ∧ ∀ j table,
             AnalysisResult.tables ar !! j = Some table →
             TableInfo.table_id table ≠ Some tableId →
             AnalysisResult.tables ar' !! j = Some table).
Proof.
  intros Hi s'. subst s'.
  destruct (handlePageChange_messages render s messageId tableId newPage
              result error_at) as [-> | ->].
  - split_and!; [done..|].
    intros ar Har. exists msg, ar. by split_and!.
  - split_and!.
    + by rewrite length_map.
    + intros Hne. rewrite list_lookup_fmap, Hi. simpl.
      by rewrite update_message_other.
    + intros ar Har.
      destruct (update_message_analysis messageId tableId result msg ar Har)
        as (tables' & Htables & Hcase).
      eexists _, _. split; [by rewrite list_lookup_fmap, Hi|].
      split; [exact Htables|]. simpl.
      destruct Hcase as [-> | ->]; [done|].
      split; [by rewrite length_map|].
      intros j table Hj Hne.
      rewrite list_lookup_fmap, Hj. simpl. by rewrite update_table_other.
Qed.

Lemma page_change_frame_witness :
  let s' := (handlePageChange demo_state "response-1700000000500" "a1" 2
               (Normal demo_response) demo_stamp demo_state).2 in
  length (messages s') = 4
  ∧ (ChatMessage.id analysis_turn ≠ "response-1700000000500" →
     messages s' !! 2 = Some analysis_turn)
  ∧ (∀ ar, ChatMessage.analysisResult analysis_turn = Some ar →
       ∃ msg' ar',
         messages s' !! 2 = Some msg'
         ∧ ChatMessage.analysisResult msg' = Some ar'
         ∧ length (AnalysisResult.tables ar') = length (AnalysisResult.tables ar)
         ∧ ∀ j table,
             AnalysisResult.tables ar !! j = Some table →
             TableInfo.table_id table ≠ Some "a1" →
             AnalysisResult.tables ar' !! j = Some table).
Proof.
  apply (page_change_frame demo_state demo_state "response-1700000000500" "a1"
           2 demo_response demo_stamp 2 analysis_turn).
  reflexivity.
Defined.

(** The sibling table of the example really is the same afterwards, while the
    addressed one carries the new page. *)
Example page_change_frame_demo :
  messages (handlePageChange demo_state "response-1700000000500" "a1" 2
              (Normal demo_response) demo_stamp demo_state).2
  = [welcome 0; user_turn;
     ChatMessage.mk "response-1700000000500" false "Here is the comparison"
       (DateOfMs 1700000000500) (Some "analysis") None
       (Some (AnalysisResult.mk
                [TableInfo.mk "before" "first period" "SELECT 1"
                   (Some [JNum 30; JNum 40]) 1 (Some "t9") (Some (page2 "t9"));
                 tableB]
                (Some "comparative")));
     sql_turn].
Proof. reflexivity. Qed.

(** C5.  A page change with a session id and a table id whose backend call
    resolves returns normally and appends nothing.  In every turn with the
    requested id that holds a [sqlResult], [data] and [pagination] become the
    response's and [table_id] becomes [currentTableId]; in a turn with the
    requested id that holds only an [analysisResult], the same happens to
    each table whose [table_id] is the requested one.  [currentTableId] is
    the response's [pagination.table_id] when that is a non-empty string and
    the caller's [tableId] otherwise; it is also the table id recorded in
    [paginationState]. *)
Theorem page_change_applies render s messageId tableId newPage result error_at :
  truthy_opt (sessionId render) = true →
  truthy tableId = true →
  ∃ s',
    handlePageChange render messageId tableId newPage (Normal result) error_at s
    = (Normal (), s')
    ∧ length (messages s') = length (messages s)
    ∧ (∀ i msg,
         messages s !! i = Some msg →
         ChatMessage.id msg = messageId →
         ∃ msg',
           messages s' !! i = Some msg'
           ∧ ChatMessage.id msg' = messageId
           ∧ (∀ sr, ChatMessage.sqlResult msg = Some sr →
                ChatMessage.sqlResult msg'
                = Some (SqlResult.mk (SqlResult.sql sr)
                          (PageResponse.data result) (SqlResult.error sr)
                          (PageResponse.pagination result)
                          (Some (currentTableId result tableId))))
           ∧ (ChatMessage.sqlResult msg = None →
              ∀ ar, ChatMessage.analysisResult msg = Some ar →
                ∃ ar',
                  ChatMessage.analysisResult msg' = Some ar'
                  ∧ ∀ j table,
                      AnalysisResult.tables ar !! j = Some table →
                      TableInfo.table_id table = Some tableId →
                      AnalysisResult.tables ar' !! j
                      = Some (TableInfo.mk (TableInfo.name table)
                                (TableInfo.description table)
                                (TableInfo.sql table)
                                (PageResponse.data result)
                                (TableInfo.row_count table)
                                (Some (currentTableId result tableId))
                                (PageResponse.pagination result))))
    ∧ (∀ p, PageResponse.pagination result = Some p →
         truthy (PaginationInfo.table_id p) = true →
         currentTableId result tableId = PaginationInfo.table_id p)
    ∧ ((∀ p, PageResponse.pagination result = Some p →
          truthy (PaginationInfo.table_id p) = false) →
       currentTableId result tableId = tableId)
    ∧ paginationState s'
      = Some (PaginationState.mk messageId (currentTableId result tableId)
                newPage).
Proof.
  intros Hs Ht. eexists. split; [by apply handlePageChange_resolved|].
  simpl. split_and!; [| | | |done].
  - by rewrite length_map.
  - intros i msg Hi Hid.
    exists (update_message messageId tableId result msg).
    split; [by rewrite list_lookup_fmap, Hi|].
    unfold update_message. rewrite Hid, String.eqb_refl.
    destruct (ChatMessage.sqlResult msg) as [sr|] eqn:Hsql.
    + simpl. split_and!; [done| |done]. by intros ? [= <-].
    + destruct (ChatMessage.analysisResult msg) as [ar|] eqn:Han.
      * simpl. split_and!; [done|done|].
        intros _ ? [= <-]. eexists. split; [done|]. simpl.
        intros j table Hj Htid.
        rewrite list_lookup_fmap, Hj. simpl.
        by rewrite update_table_hit.
      * split_and!; [done|done|]. intros _ ar. by rewrite Han.
  - intros p Hp Htr. unfold currentTableId. rewrite Hp. simpl. by rewrite Htr.
  - intros Hnone. unfold currentTableId.
    destruct (PageResponse.pagination result) as [p|]; [|done].
    simpl. by rewrite (Hnone p).
Qed.

Lemma page_change_applies_witness :
  truthy_opt (sessionId demo_state) = true
  ∧ truthy "t1" = true
  ∧ ∃ s',
      handlePageChange demo_state "response-1700000000900" "t1" 2
        (Normal demo_response) demo_stamp demo_state
      = (Normal (), s')
      ∧ length (messages s') = 4
      ∧ ∃ msg',
          messages s' !! 3 = Some msg'
          ∧ ChatMessage.sqlResult msg'
            = Some (SqlResult.mk "SELECT month, revenue FROM sales"
                      (Some [JNum 30; JNum 40]) None (Some (page2 "t9"))
                      (Some "t9")).
Proof.
  split; [reflexivity|]. split; [reflexivity|].
  destruct (page_change_applies demo_state demo_state "response-1700000000900"
              "t1" 2 demo_response demo_stamp eq_refl eq_refl)
    as (s' & Hrun & Hlen & Hturn & _).
  exists s'. split; [exact Hrun|]. split; [exact Hlen|].
  destruct (Hturn 3 sql_turn eq_refl eq_refl) as (msg' & Hmsg & _ & Hsql & _).
  exists msg'. split; [exact Hmsg|]. exact (Hsql _ eq_refl).
Defined.

(** C7.  A page change with a session id and a table id whose backend call
    is rejected returns normally with the old transcript plus exactly one
    assistant turn at the end; that turn holds no result and its text is
    "Error loading page <page>: <error>", and every earlier turn, with its
    rows, pagination and table ids, is left as it was. *)
Theorem page_change_failure render s messageId tableId newPage error error_at :
  truthy_opt (sessionId render) = true →
  truthy tableId = true →
  ∃ s' notice,
    handlePageChange render messageId tableId newPage (Throw error) error_at s
    = (Normal (), s')
    ∧ messages s' = messages s ++ [notice]
    ∧ ChatMessage.isUser notice = false
    ∧ ChatMessage.sqlResult notice = None
    ∧ ChatMessage.analysisResult notice = None
    ∧ ChatMessage.text notice
      = "Error loading page " +:+ pretty newPage +:+ ": "
        +:+ match error with
            | ErrorObject message => message
            | NonError | Nullish => "Unknown error"
            end
    ∧ (∀ i msg, messages s !! i = Some msg → messages s' !! i = Some msg)
    ∧ paginationState s' = paginationState s.
Proof.
  intros Hs Ht. eexists _, _.
  split; [by apply handlePageChange_caught|]. simpl.
  split_and!; try done.
  intros i msg Hi. by apply lookup_app_l_Some.
Qed.

Lemma page_change_failure_witness :
  truthy_opt (sessionId demo_state) = true
  ∧ truthy "t1" = true
  ∧ ∃ s' notice,
      handlePageChange demo_state "response-1700000000900" "t1" 2
        (Throw (ErrorObject "Request failed with status code 404"))
        demo_stamp demo_state
      = (Normal (), s')
      ∧ messages s' = messages demo_state ++ [notice]
      ∧ ChatMessage.text notice
        = "Error loading page 2: Request failed with status code 404".
Proof.
  split; [reflexivity|]. split; [reflexivity|].
  destruct (page_change_failure demo_state demo_state "response-1700000000900"
              "t1" 2 (ErrorObject "Request failed with status code 404")
              demo_stamp eq_refl eq_refl)
    as (s' & notice & Hrun & Hmsgs & _ & _ & _ & Htext & _).
  exists s', notice. split; [exact Hrun|]. split; [exact Hmsgs|].
  exact Htext.
Defined.

(** C10.  When the backend call of a page change resolves, a turn with the
    requested id that holds neither a [sqlResult] nor an [analysisResult]
    stays as it is, without any result; and when this is so for every turn
    with the requested id, the whole transcript stays as it is. *)
Theorem page_change_adds_no_result render s messageId tableId newPage result error_at :
  let s' := (handlePageChange render messageId tableId newPage
               (Normal result) error_at s).2 in
  (∀ i msg,
     messages s !! i = Some msg →
     ChatMessage.sqlResult msg = None →
     ChatMessage.analysisResult msg = None →
     messages s' !! i = Some msg)
  ∧ ((∀ msg, msg ∈ messages s →
        ChatMessage.id msg = messageId →
        ChatMessage.sqlResult msg = None
        ∧ ChatMessage.analysisResult msg = None) →
     messages s' = messages s).
Proof.
  intros s'. subst s'.
  destruct (handlePageChange_messages render s messageId tableId newPage
              result error_at) as [-> | ->]; [done|].
  split.
  - intros i msg Hi Hsql Han. rewrite list_lookup_fmap, Hi. simpl.
    by rewrite update_message_no_result.
  - intros Hall. rewrite <-(map_id (messages s)) at 2.
    apply map_ext_in. intros msg Hin%list_elem_of_In.
    destruct (String.eqb_spec (ChatMessage.id msg) messageId) as [Hid|Hne].
    + destruct (Hall msg Hin Hid). by apply update_message_no_result.
    + by apply update_message_other.
Qed.

(** The user turn of the example is addressed by a page change that the
    backend answers: nothing in the transcript changes. *)
Lemma page_change_adds_no_result_witness :
  messages (handlePageChange demo_state "1700000000000" "a1" 2
              (Normal demo_response) demo_stamp demo_state).2
  = messages demo_state.
Proof.
  apply page_change_adds_no_result.
  intros msg Hin Hid.
  repeat (apply elem_of_cons in Hin as [-> | Hin]; [by split + discriminate|]).
  by apply elem_of_nil in Hin.
Defined.

(** ** The exits of [handleSendMessage] *)

Lemma handleSendMessage_blank render props io s :
  trim_is_empty (input render) = true →
  handleSendMessage render props io s = (Normal (), s).
Proof. unfold handleSendMessage. by intros ->. Qed.

(** The only fault of [botMessage] is the TypeError of the missing
    [tables]. *)
Lemma botMessage_fault result at_ draws fault error :
  botMessage result at_ draws fault = Throw error → error = ErrorObject fault.
Proof.
  unfold botMessage. repeat case_match; by intros [= <-].
Qed.

(** Every other run appends [sent_turns], and ends as [send_outcome]
    says. *)
Lemma handleSendMessage_run render props io s :
  trim_is_empty (input render) = false →
  handleSendMessage render props io s
  = (send_outcome render props io,
     mkState (messages s ++ sent_turns render props io) "" false
       (session_after render props io s) (sessionInfo s)
       (showSessionsList s) (paginationState s)).
Proof.
  intros Hblank.
  unfold handleSendMessage, send_outcome, sent_turns, session_after, reply_of,
    reply_message, auto_create_session.
  rewrite Hblank.
  destruct (needs_session render props);
    [destruct (SendIO.createSession io) as [sessionData|]|];
    destruct (SendIO.executeQuery io) as [result|[]];
    try destruct (botMessage result _ _ _) as [bot|[]] eqn:Hbot;
    cbv [mbind M_bind mret M_ret try_finally try_catch await setMessages
         setInput setIsProcessing setSessionId messages input isProcessing
         sessionId sessionInfo showSessionsList paginationState fst snd
         query_error_message message_of turn_of is_normal negb andb];
    rewrite ?Hbot; simpl;
    by rewrite <-?app_assoc.
Qed.

Lemma submit_run props typed io s :
  trim_is_empty typed = false →
  submit props typed io s
  = (send_outcome s props io,
     mkState (messages s ++ sent_turns (setInput typed s).2 props io) "" false
       (session_after s props io s) (sessionInfo s)
       (showSessionsList s) (paginationState s)).
Proof.
  intros Hblank. unfold submit, dispatch.
  cbv [mbind M_bind]. simpl.
  by rewrite handleSendMessage_run.
Qed.

(** ** Calls in flight *)

(** The pieces of [handleSendMessage], run one after the other with nothing
    in between, are the handler. *)
Lemma handleSendMessage_in_pieces render props io s :
  handleSendMessage render props io s
  = let called := send_called render props (SendIO.user_at io) s in
    match suspended called.1 with
    | None => (Normal (), called.2)
    | Some AwaitCreateSession =>
        let created :=
          send_createSession_settled (SendIO.createSession io)
            (SendIO.session_at io) called.2 in
        match suspended created.1 with
        | None => (Normal (), created.2)
        | Some _ =>
            send_executeQuery_settled (SendIO.executeQuery io)
              (SendIO.response_at io) (SendIO.table_draws io)
              (SendIO.error_at io) (SendIO.fault_message io) created.2
        end
    | Some _ =>
        send_executeQuery_settled (SendIO.executeQuery io)
          (SendIO.response_at io) (SendIO.table_draws io)
          (SendIO.error_at io) (SendIO.fault_message io) called.2
    end.
Proof.
  unfold handleSendMessage, send_called, send_createSession_settled,
    send_executeQuery_settled, auto_create_session.
  destruct (trim_is_empty (input render)); [done|].
  destruct (needs_session render props);
    [destruct (SendIO.createSession io) as [sessionData|]|];
    try destruct (SendIO.executeQuery io) as [result|[]];
    try destruct (botMessage result _ _ _) as [bot|[]] eqn:Hbot;
    cbv [mbind M_bind mret M_ret try_finally try_catch await setMessages
         setInput setIsProcessing setSessionId suspended fst snd
         query_error_message message_of];
    by rewrite ?Hbot.
Qed.

(** Likewise for [fetchSessionInfo]. *)
Lemma fetchSessionInfo_in_pieces render settled at_ s :
  fetchSessionInfo render settled at_ s
  = if truthy_opt (sessionId render)
    then info_getSessionInfo_settled settled at_ s
    else (Normal (), s).
Proof. unfold fetchSessionInfo. by destruct (truthy_opt (sessionId render)). Qed.

Lemma current_sessionId_effect_runs before a :
  current (sessionId_effect_runs before a) = current a.
Proof. unfold sessionId_effect_runs. by repeat case_match. Qed.

(** The effect suspends at most one call, a fetch of the session
    information. *)
Lemma in_flight_sessionId_effect_runs before a :
  in_flight (sessionId_effect_runs before a) = in_flight a
  ∨ in_flight (sessionId_effect_runs before a)
    = in_flight a ++ [AwaitGetSessionInfo].
Proof. unfold sessionId_effect_runs. repeat case_match; auto. Qed.

Lemma in_flight_sessionId_effect_same before a :
  sessionId (current a) = sessionId before →
  in_flight (sessionId_effect_runs before a) = in_flight a.
Proof. unfold sessionId_effect_runs. intros ->. by rewrite bool_decide_eq_true_2. Qed.

(** What each piece does to the state. *)
Lemma send_called_run render props user_at s :
  trim_is_empty (input render) = false →
  send_called render props user_at s
  = (Normal (Some (if needs_session render props then AwaitCreateSession
                   else AwaitExecuteQuery)),
     mkState (messages s ++ [userMessage render user_at]) "" true
       (sessionId s) (sessionInfo s) (showSessionsList s) (paginationState s)).
Proof. unfold send_called. by intros ->. Qed.

Lemma send_createSession_settled_run createSession session_at s :
  send_createSession_settled createSession session_at s
  = match createSession with
    | Normal sessionData =>
        (Normal (Some AwaitExecuteQuery),
         mkState (messages s ++ [session_created_message sessionData session_at])
           (input s) (isProcessing s) (Some (SessionData._id sessionData))
           (sessionInfo s) (showSessionsList s) (paginationState s))
    | Throw _ =>
        (Normal None,
         mkState (messages s ++ [session_failed_message session_at])
           (input s) false (sessionId s) (sessionInfo s)
           (showSessionsList s) (paginationState s))
    end.
Proof. by destruct createSession. Qed.

Lemma send_executeQuery_settled_run executeQuery response_at table_draws
    error_at fault s :
  (send_executeQuery_settled executeQuery response_at table_draws error_at
     fault s).2
  = mkState
      (messages s
       ++ turn_of (reply_message executeQuery response_at table_draws
                     error_at fault))
      (input s) false (sessionId s) (sessionInfo s) (showSessionsList s)
      (paginationState s).
Proof.
  unfold send_executeQuery_settled, reply_message.
  destruct executeQuery as [result|[]];
    try destruct (botMessage result _ _ _) as [bot|[]] eqn:Hbot;
    cbv [mbind M_bind mret M_ret try_finally try_catch await setMessages
         setIsProcessing fst snd query_error_message message_of turn_of];
    rewrite ?Hbot; simpl; by rewrite ?app_nil_r.
Qed.

Lemma info_getSessionInfo_settled_run getSessionInfo at_ s :
  info_getSessionInfo_settled getSessionInfo at_ s
  = (Normal (),
     match getSessionInfo with
     | Normal info =>
         mkState (if SessionInfo.error info
                  then messages s ++ [session_error_message info at_]
                  else messages s)
           (input s) (isProcessing s) (sessionId s) (Some info)
           (showSessionsList s) (paginationState s)
     | Throw _ =>
         mkState (messages s) (input s) (isProcessing s) None None
           (showSessionsList s) (paginationState s)
     end).
Proof.
  unfold info_getSessionInfo_settled.
  destruct getSessionInfo as [info|]; [|done].
  by destruct (SessionInfo.error info) eqn:Herr;
    cbv [try_catch mbind M_bind await setSessionInfo]; rewrite Herr.
Qed.

(** Every occurrence appends its turns to the transcript, and does nothing
    else to it. *)
Lemma occur_messages props o a a' :
  occur props o a = Some a' →
  messages (current a') = messages (current a) ++ appended o.
Proof.
  destruct o as [typed user_at|i createSession session_at
                 |i executeQuery response_at table_draws error_at fault
                 |i getSessionInfo at_]; simpl.
  - intros [= <-]. rewrite current_sessionId_effect_runs. simpl.
    unfold dispatch. cbv [mbind M_bind setInput]. simpl.
    destruct (trim_is_empty typed) eqn:Hblank.
    + unfold send_called. simpl. rewrite Hblank. simpl. by rewrite app_nil_r.
    + by rewrite send_called_run.
  - case_decide; [|done]. intros [= <-].
    rewrite current_sessionId_effect_runs. simpl.
    rewrite send_createSession_settled_run. by destruct createSession.
  - case_decide; [|done]. intros [= <-].
    rewrite current_sessionId_effect_runs. simpl.
    by rewrite send_executeQuery_settled_run.
  - case_decide; [|done]. intros [= <-].
    rewrite current_sessionId_effect_runs. simpl.
    rewrite info_getSessionInfo_settled_run. simpl.
    destruct getSessionInfo as [info|]; simpl; [|by rewrite app_nil_r].
    destruct (SessionInfo.error info); [done|by rewrite app_nil_r].
Qed.

Lemma happen_messages props occurrences : ∀ a a',
  happen props occurrences a = Some a' →
  messages (current a') = messages (current a) ++ flat_map appended occurrences.
Proof.
  induction occurrences as [|o rest IH]; intros a a' Hrun; simpl in *.
  - injection Hrun as <-. by rewrite app_nil_r.
  - destruct (occur props o a) as [a1|] eqn:Hone; [|done]. simpl in Hrun.
    rewrite (IH _ _ Hrun), (occur_messages _ _ _ _ Hone).
    by rewrite <-app_assoc.
Qed.

(** What each occurrence makes of the component. *)
Lemma occur_submits props typed user_at a :
  trim_is_empty typed = false →
  occur props (Submits typed user_at) a
  = Some (mkAsync
            (mkState
               (messages (current a)
                ++ [plain_message (pretty (Date_now user_at)) true typed
                      (DateOfMs (new_Date user_at))])
               "" true (sessionId (current a)) (sessionInfo (current a))
               (showSessionsList (current a)) (paginationState (current a)))
            (in_flight a
             ++ [if needs_session (current a) props then AwaitCreateSession
                 else AwaitExecuteQuery])).
Proof.
  intros Hblank. cbn [occur].
  unfold dispatch. cbv [mbind M_bind setInput]. cbn [fst snd].
  rewrite send_called_run by done. cbn [fst snd suspended option_list].
  unfold sessionId_effect_runs. cbn [current sessionId].
  by rewrite bool_decide_eq_true_2.
Qed.

Lemma occur_createSession_resolves props i sessionData session_at a :
  in_flight a !! i = Some AwaitCreateSession →
  occur props (CreateSessionSettles i (Normal sessionData) session_at) a
  = Some (mkAsync
            (mkState
               (messages (current a)
                ++ [session_created_message sessionData session_at])
               (input (current a)) (isProcessing (current a))
               (Some (SessionData._id sessionData)) (sessionInfo (current a))
               (showSessionsList (current a)) (paginationState (current a)))
            (<[i := AwaitExecuteQuery]> (in_flight a)
             ++ (if bool_decide (Some (SessionData._id sessionData)
                                 = sessionId (current a))
                 then []
                 else if truthy (SessionData._id sessionData)
                      then [AwaitGetSessionInfo] else []))).
Proof.
  intros Hi. cbn [occur]. rewrite decide_True by done.
  rewrite send_createSession_settled_run. cbn [fst snd suspended resumed].
  unfold sessionId_effect_runs. cbn [current in_flight sessionId truthy_opt].
  case_bool_decide; [by rewrite app_nil_r|].
  destruct (truthy _); [done|by rewrite app_nil_r].
Qed.

Lemma occur_executeQuery_settles props i executeQuery response_at table_draws
    error_at fault a :
  in_flight a !! i = Some AwaitExecuteQuery →
  occur props
    (ExecuteQuerySettles i executeQuery response_at table_draws error_at fault)
    a
  = Some (mkAsync
            (mkState
               (messages (current a)
                ++ turn_of (reply_message executeQuery response_at table_draws
                              error_at fault))
               (input (current a)) false (sessionId (current a))
               (sessionInfo (current a)) (showSessionsList (current a))
               (paginationState (current a)))
            (delete i (in_flight a))).
Proof.
  intros Hi. cbn [occur]. rewrite decide_True by done.
  rewrite send_executeQuery_settled_run.
  unfold sessionId_effect_runs. cbn [current sessionId].
  by rewrite bool_decide_eq_true_2.
Qed.

Lemma occur_getSessionInfo_settles props i getSessionInfo at_ a :
  in_flight a !! i = Some AwaitGetSessionInfo →
  occur props (GetSessionInfoSettles i getSessionInfo at_) a
  = Some (mkAsync
            (info_getSessionInfo_settled getSessionInfo at_ (current a)).2
            (delete i (in_flight a))).
Proof.
  intros Hi. cbn [occur]. rewrite decide_True by done.
  rewrite info_getSessionInfo_settled_run. cbn [snd].
  unfold sessionId_effect_runs. cbn [current in_flight].
  destruct getSessionInfo as [info|error]; cbn [sessionId].
  - by rewrite bool_decide_eq_true_2.
  - by case_bool_decide.
Qed.

(** A submit that runs alone, from its call to its end, is the event
    [Submit]; and when it created a session, the fetch of the session
    information that follows it is the event [SessionIdEffect]. *)
Lemma happen_submit_alone props typed io s :
  trim_is_empty typed = false →
  needs_session s props = false →
  happen props
    [Submits typed (SendIO.user_at io);
     ExecuteQuerySettles 0 (SendIO.executeQuery io) (SendIO.response_at io)
       (SendIO.table_draws io) (SendIO.error_at io) (SendIO.fault_message io)]
    (mkAsync s [])
  = Some (mkAsync (run_events props [Submit typed io] s) []).
Proof.
  intros Hblank Hneeds. cbn [happen run_events handle].
  rewrite occur_submits by done. cbn [mbind option_bind current in_flight app].
  rewrite Hneeds, occur_executeQuery_settles by done.
  cbn [mbind option_bind current in_flight].
  rewrite submit_run by done.
  unfold sent_turns, session_after, userMessage, reply_of.
  change (needs_session _ props) with (needs_session s props).
  rewrite Hneeds. simpl. by rewrite <-app_assoc.
Qed.

Lemma happen_submit_with_session props typed io sessionData getSessionInfo
    at_ s :
  trim_is_empty typed = false →
  needs_session s props = true →
  SendIO.createSession io = Normal sessionData →
  truthy (SessionData._id sessionData) = true →
  happen props
    [Submits typed (SendIO.user_at io);
     CreateSessionSettles 0 (SendIO.createSession io) (SendIO.session_at io);
     ExecuteQuerySettles 0 (SendIO.executeQuery io) (SendIO.response_at io)
       (SendIO.table_draws io) (SendIO.error_at io) (SendIO.fault_message io);
     GetSessionInfoSettles 0 getSessionInfo at_]
    (mkAsync s [])
  = Some (mkAsync
            (run_events props
               [Submit typed io; SessionIdEffect getSessionInfo at_] s)
            []).
Proof.
  intros Hblank Hneeds Hcreate Hid.
  assert (Some (SessionData._id sessionData) ≠ sessionId s) as Hnew.
  { intros Heq. unfold needs_session in Hneeds. rewrite <-Heq in Hneeds.
    simpl in Hneeds. by rewrite Hid in Hneeds. }
  cbn [happen run_events handle].
  rewrite occur_submits by done. cbn [mbind option_bind current in_flight app].
  rewrite Hneeds, Hcreate, occur_createSession_resolves by done.
  cbn [mbind option_bind current in_flight sessionId].
  rewrite bool_decide_eq_false_2, Hid by done.
  cbn [insert list_insert app].
  rewrite occur_executeQuery_settles by done.
  cbn [mbind option_bind current in_flight delete list_delete].
  rewrite occur_getSessionInfo_settles by done.
  cbn [mbind option_bind current in_flight delete list_delete].
  rewrite submit_run by done.
  unfold sessionId_effect, dispatch. rewrite fetchSessionInfo_in_pieces.
  unfold sent_turns, session_after, userMessage, reply_of.
  change (needs_session _ props) with (needs_session s props).
  rewrite Hneeds, Hcreate. cbn [snd sessionId truthy_opt]. rewrite Hid.
  rewrite !info_getSessionInfo_settled_run. simpl.
  by rewrite <-!app_assoc.
Qed.

(** Counting over a list of suspended calls. *)
Lemma sum_list_with_delete {A} (f : A → nat) (l : list A) i x :
  l !! i = Some x →
  sum_list_with f (delete i l) + f x = sum_list_with f l.
Proof.
  revert i. induction l as [|y l IH]; intros [|i] Hi; simplify_eq/=; [lia|].
  specialize (IH _ Hi). lia.
Qed.

Lemma sum_list_with_insert {A} (f : A → nat) (l : list A) i x y :
  l !! i = Some x →
  sum_list_with f (<[i := y]> l) + f x = sum_list_with f l + f y.
Proof.
  revert i. induction l as [|z l IH]; intros [|i] Hi; simplify_eq/=; [lia|].
  specialize (IH _ Hi). lia.
Qed.

(** One successful occurrence: a submit call joins the calls in flight, the
    settlement of its resolver call takes it away, and a call that waits for
    its session leaves that state only when the session is created. *)
Lemma occur_counts props o a a' :
  occur props o a = Some a' →
  succeeds o = true →
  submit_calls [o] + submits_in_flight (in_flight a)
  = queries_settled [o] + submits_in_flight (in_flight a')
  ∧ creations_in_flight (in_flight a)
    ≤ sessions_created [o] + creations_in_flight (in_flight a').
Proof.
  unfold submit_calls, queries_settled, sessions_created, submits_in_flight,
    creations_in_flight.
  destruct o as [typed user_at|i createSession session_at
                 |i executeQuery response_at table_draws error_at fault
                 |i getSessionInfo at_]; simpl.
  - intros [= <-] Hok%negb_true_iff.
    rewrite in_flight_sessionId_effect_same; simpl.
    + unfold dispatch. cbv [mbind M_bind setInput]. simpl.
      rewrite send_called_run by done. simpl.
      rewrite !sum_list_with_app. simpl.
      destruct (needs_session _ props); lia.
    + unfold dispatch. cbv [mbind M_bind setInput]. simpl.
      by rewrite send_called_run.
  - case_decide as Hi; [|done]. intros [= <-] Hok.
    destruct createSession as [sessionData|]; [|done].
    rewrite send_createSession_settled_run. simpl.
    pose proof (sum_list_with_insert
                  (λ w, match w with AwaitGetSessionInfo => 0 | _ => 1 end)
                  _ _ _ AwaitExecuteQuery Hi) as Hsub.
    pose proof (sum_list_with_insert
                  (λ w, match w with AwaitCreateSession => 1 | _ => 0 end)
                  _ _ _ AwaitExecuteQuery Hi) as Hcre.
    simpl in Hsub, Hcre.
    destruct (in_flight_sessionId_effect_runs (current a)
                (mkAsync
                   (mkState
                      (messages (current a)
                       ++ [session_created_message sessionData session_at])
                      (input (current a)) (isProcessing (current a))
                      (Some (SessionData._id sessionData))
                      (sessionInfo (current a)) (showSessionsList (current a))
                      (paginationState (current a)))
                   (<[i:=AwaitExecuteQuery]> (in_flight a)))) as [-> | ->];
      simpl; rewrite ?sum_list_with_app; simpl; lia.
  - case_decide as Hi; [|done]. intros [= <-] Hok.
    rewrite in_flight_sessionId_effect_same; simpl;
      [|by rewrite send_executeQuery_settled_run].
    pose proof (sum_list_with_delete
                  (λ w, match w with AwaitGetSessionInfo => 0 | _ => 1 end)
                  _ _ _ Hi) as Hsub.
    pose proof (sum_list_with_delete
                  (λ w, match w with AwaitCreateSession => 1 | _ => 0 end)
                  _ _ _ Hi) as Hcre.
    simpl in Hsub, Hcre. lia.
  - case_decide as Hi; [|done]. intros [= <-] _.
    rewrite info_getSessionInfo_settled_run. simpl.
    pose proof (sum_list_with_delete
                  (λ w, match w with AwaitGetSessionInfo => 0 | _ => 1 end)
                  _ _ _ Hi) as Hsub.
    pose proof (sum_list_with_delete
                  (λ w, match w with AwaitCreateSession => 1 | _ => 0 end)
                  _ _ _ Hi) as Hcre.
    simpl in Hsub, Hcre.
    match goal with
    | |- context [sessionId_effect_runs ?b ?x] =>
        destruct (in_flight_sessionId_effect_runs b x) as [-> | ->]
    end; simpl; rewrite ?sum_list_with_app; simpl; lia.
Qed.

Lemma happen_counts props occurrences : ∀ a a',
  happen props occurrences a = Some a' →
  Forall (λ o, succeeds o = true) occurrences →
  submit_calls occurrences + submits_in_flight (in_flight a)
  = queries_settled occurrences + submits_in_flight (in_flight a')
  ∧ creations_in_flight (in_flight a)
    ≤ sessions_created occurrences + creations_in_flight (in_flight a').
Proof.
  induction occurrences as [|o rest IH]; intros a a' Hrun Hok; simpl in *.
  - injection Hrun as <-. unfold submit_calls, queries_settled,
      sessions_created. simpl. lia.
  - destruct (occur props o a) as [a1|] eqn:Hone; [|done]. simpl in Hrun.
    apply Forall_cons in Hok as [Ho Hrest].
    destruct (IH _ _ Hrun Hrest) as [Hsub Hcre].
    destruct (occur_counts _ _ _ _ Hone Ho) as [Hsub1 Hcre1].
    unfold submit_calls, queries_settled, sessions_created in *.
    simpl in *. lia.
Qed.

(** A successful occurrence appends one turn, except that the session
    information appends one only with its warning. *)
Lemma appended_length occurrences :
  Forall (λ o, succeeds o = true) occurrences →
  length (flat_map appended occurrences)
  = submit_calls occurrences + sessions_created occurrences
    + queries_settled occurrences + session_warnings occurrences.
Proof.
  unfold submit_calls, sessions_created, queries_settled, session_warnings.
  induction 1 as [|o rest Ho _ IH]; [done|].
  cbn [flat_map sum_list_with]. rewrite length_app, IH.
  destruct o as [typed user_at|i createSession session_at
                 |i executeQuery response_at table_draws error_at fault
                 |i getSessionInfo at_]; simpl in *.
  - apply negb_true_iff in Ho. rewrite Ho. simpl. lia.
  - destruct createSession; [simpl; lia|done].
  - destruct executeQuery as [result|]; [|done].
    unfold reply_message.
    destruct (botMessage result _ _ _); [simpl; lia|done].
  - destruct getSessionInfo as [info|]; [|simpl; lia].
    destruct (SessionInfo.error info); simpl; lia.
Qed.

(** Without a workspace no session is created, so the session id stays
    unset, the effect never fetches, and only resolver calls are awaited. *)
Lemma happen_unconnected props occurrences : ∀ a a',
  truthy_opt (workspaceId props) = false →
  happen props occurrences a = Some a' →
  sessionId (current a) = None →
  Forall (λ w, w = AwaitExecuteQuery) (in_flight a) →
  sessions_created occurrences = 0 ∧ session_warnings occurrences = 0.
Proof.
  intros a a' Hw. revert a a'.
  unfold sessions_created, session_warnings.
  induction occurrences as [|o rest IH]; intros a a' Hrun Hid Hall; [done|].
  simpl in Hrun.
  destruct (occur props o a) as [a1|] eqn:Hone; [|done]. simpl in Hrun.
  assert (∀ i w, in_flight a !! i = Some w → w = AwaitExecuteQuery) as Hlook.
  { intros i w Hi. by eapply Forall_lookup_1 in Hall. }
  destruct o as [typed user_at|i createSession session_at
                 |i executeQuery response_at table_draws error_at fault
                 |i getSessionInfo at_]; simpl in Hone |- *.
  - injection Hone as <-. eapply IH; [done| |].
    + rewrite current_sessionId_effect_runs. simpl.
      unfold dispatch, send_called. cbv [mbind M_bind setInput]. simpl.
      by destruct (trim_is_empty typed).
    + rewrite in_flight_sessionId_effect_same; simpl.
      * unfold dispatch, send_called, needs_session.
        cbv [mbind M_bind setInput]. simpl. rewrite Hw, andb_false_r.
        destruct (trim_is_empty typed); simpl;
          [by rewrite app_nil_r|].
        apply Forall_app; split; [done|by repeat constructor].
      * unfold dispatch, send_called. cbv [mbind M_bind setInput]. simpl.
        by destruct (trim_is_empty typed).
  - case_decide as Hi; [|done]. by apply Hlook in Hi.
  - case_decide as Hi; [|done]. injection Hone as <-. eapply IH; [done| |].
    + rewrite current_sessionId_effect_runs. simpl.
      by rewrite send_executeQuery_settled_run.
    + rewrite in_flight_sessionId_effect_same; simpl;
        [|by rewrite send_executeQuery_settled_run].
      by apply Forall_delete.
  - case_decide as Hi; [|done]. by apply Hlook in Hi.
Qed.

(** C3, as the component has it.  Take any run of successful submit calls
    from the mounted component, overlapping or not, together with the
    fetches of the session information that the effect on the session id
    starts, in a component that is given no session to resume.  The
    transcript is the welcome turn followed by the turns that the calls and
    the completions appended, in the order in which the calls and the
    completions happened: a call appends its user turn, the completion of
    [createSession] the notice of the created session, the completion of
    [executeQuery] the assistant turn, and the completion of
    [getSessionInfo] a warning when the information carries the error flag.
    Once every submit has completed, the length is 1 + 2N plus the number of
    sessions created plus the number of warnings.  It is 1 + 2N without a
    connected workspace, and at least 2 + 2N with one as soon as there is a
    submit. *)
Theorem submits_transcript_length props occurrences ts after :
  truthy_opt (autoSessionId props) = false →
  happen props occurrences (mounted ts) = Some after →
  Forall (λ o, succeeds o = true) occurrences →
  submits_in_flight (in_flight after) = 0 →
  messages (current after) = welcome ts :: flat_map appended occurrences
  ∧ length (messages (current after))
    = 1 + 2 * submit_calls occurrences + sessions_created occurrences
      + session_warnings occurrences
  ∧ (truthy_opt (workspaceId props) = false →
     length (messages (current after)) = 1 + 2 * submit_calls occurrences)
  ∧ (truthy_opt (workspaceId props) = true →
     0 < submit_calls occurrences →
     2 + 2 * submit_calls occurrences ≤ length (messages (current after))).
Proof.
  intros _ Hrun Hok Hdone.
  pose proof (happen_messages _ _ _ _ Hrun) as Hmsgs. simpl in Hmsgs.
  destruct (happen_counts _ _ _ _ Hrun Hok) as [Hsub _]. simpl in Hsub.
  assert (length (messages (current after))
          = 1 + 2 * submit_calls occurrences + sessions_created occurrences
            + session_warnings occurrences) as Hlen.
  { rewrite Hmsgs. cbn [length app]. rewrite (appended_length _ Hok).
    rewrite Hdone in Hsub. lia. }
  split_and!; [done|done| |].
  - intros Hw.
    destruct (happen_unconnected props occurrences (mounted ts) after)
      as [Hcre Hwarn]; [done..|by constructor|].
    lia.
  - intros Hw Hcalls.
    destruct occurrences as [|o rest]; [by inversion Hcalls|].
    unfold mounted in Hrun. simpl in Hrun.
    destruct (occur props o _) as [a1|] eqn:Hone; [|done].
    simpl in Hrun. apply Forall_cons in Hok as [Ho Hrest].
    destruct o as [typed user_at|i createSession session_at
                   |i executeQuery response_at table_draws error_at fault
                   |i getSessionInfo at_]; simpl in Hone;
      try done.
    injection Hone as <-.
    destruct (happen_counts _ _ _ _ Hrun Hrest) as [_ Hcre].
    revert Hcre.
    rewrite in_flight_sessionId_effect_same; simpl.
    + unfold dispatch. cbv [mbind M_bind setInput]. simpl.
      rewrite send_called_run by (by apply negb_true_iff).
      unfold needs_session. simpl. rewrite Hw. simpl.
      assert (creations_in_flight (in_flight after) = 0) as ->.
      { clear -Hdone. unfold submits_in_flight, creations_in_flight in *.
        induction (in_flight after) as [|[] l IH]; simpl in *; try done.
        by apply IH. }
      clear Hrun. intros Hcre. rewrite Hlen.
      unfold creations_in_flight, sessions_created, submit_calls in *.
      cbn [sum_list_with] in *. lia.
    + unfold dispatch. cbv [mbind M_bind setInput]. simpl.
      by rewrite send_called_run by (by apply negb_true_iff).
Qed.

Lemma submits_transcript_length_witness :
  ∃ after,
    happen connected_props overlapping_submits (mounted 0) = Some after
    ∧ length (messages (current after)) = 1 + 2 * 2 + 2 + 1
    ∧ (ChatMessage.text <$> messages (current after))
      = [welcome_text;
         "show revenue by month";
         "and by week";
         ok_mark +:+ " Created new session: Chat Session 11/14/2023, 10:13:20 PM";
         ok_mark +:+ " Created new session: Chat Session 11/14/2023, 10:13:21 PM";
         "I can only answer questions about your data.";
         "Revenue by month";
         warn_mark +:+ " Session is no longer connected"].
Proof.
  destruct (happen connected_props overlapping_submits (mounted 0))
    as [after|] eqn:Hrun; [|by vm_compute in Hrun].
  exists after. split; [done|].
  destruct (submits_transcript_length connected_props overlapping_submits 0
              after eq_refl Hrun)
    as (Hmsgs & Hlen & _).
  - repeat constructor.
  - vm_compute in Hrun. by injection Hrun as <-.
  - split; [exact Hlen|]. rewrite Hmsgs. reflexivity.
Defined.

(** With a connected workspace, one successful submit makes a transcript of
    four turns, not three; and two successful submits, the second called
    after the fetch of the session information was rejected, make one of
    seven turns, with two sessions created. *)
Lemma submits_length_counterexample :
  Forall (λ o, succeeds o = true) one_submit
  ∧ ((λ after, (in_flight after, length (messages (current after))))
       <$> happen connected_props one_submit (mounted 0))
    = Some ([AwaitGetSessionInfo], 4)
  ∧ 4 ≠ 1 + 2 * submit_calls one_submit
  ∧ ((λ after, ChatMessage.text <$> messages (current after))
       <$> happen connected_props one_submit (mounted 0))
    = Some [welcome_text;
            "show revenue by month";
            ok_mark +:+ " Created new session: Chat Session 11/14/2023, 10:13:20 PM";
            "Revenue by month"]
  ∧ Forall (λ o, succeeds o = true) submits_around_lost_session
  ∧ ((λ after, (in_flight after, length (messages (current after))))
       <$> happen connected_props submits_around_lost_session (mounted 0))
    = Some ([AwaitGetSessionInfo], 7)
  ∧ 7 ≠ 1 + 2 * submit_calls submits_around_lost_session
  ∧ 7 ≠ 2 + 2 * submit_calls submits_around_lost_session.
Proof.
  split_and!; try reflexivity; try discriminate; repeat constructor.
Qed.

(** ** The assistant turn of a submit *)

(** When the resolver answers and the answer becomes a message, that message
    is the last turn after the submit. *)
Lemma handleSendMessage_replied render props io s result bot :
  trim_is_empty (input render) = false →
  (needs_session render props = true →
   is_normal (SendIO.createSession io) = true) →
  SendIO.executeQuery io = Normal result →
  botMessage result (SendIO.response_at io) (SendIO.table_draws io)
    (SendIO.fault_message io) = Normal bot →
  ∃ s' earlier,
    handleSendMessage render props io s = (Normal (), s')
    ∧ messages s' = earlier ++ [bot].
Proof.
  intros Hblank Hcreate Hquery Hbot.
  rewrite handleSendMessage_run by done.
  unfold send_outcome, sent_turns, reply_of, reply_message.
  rewrite Hquery, Hbot.
  destruct (needs_session render props).
  - destruct (SendIO.createSession io) as [sessionData|];
      [|by discriminate Hcreate].
    eexists _, (messages s ++ [_; _]). split; [done|].
    simpl. by rewrite <-app_assoc.
  - eexists _, (messages s ++ [_]). split; [done|].
    simpl. by rewrite <-app_assoc.
Qed.

(** ** Rendered numbers and synthesized table ids *)

Lemma pretty_N_char_digit x : is_digit (pretty_N_char x) = true.
Proof. unfold pretty_N_char. by repeat case_match. Qed.

Lemma pretty_N_go_digits x : ∀ s,
  all_digits s = true → all_digits (pretty_N_go x s) = true.
Proof.
  induction (N.lt_wf_0 x) as [x _ IH]; intros s Hs.
  assert (x = 0 ∨ 0 < x)%N as [->|Hpos] by lia.
  - by rewrite pretty_N_go_0.
  - rewrite pretty_N_go_step by done. apply IH.
    + by apply N.div_lt.
    + simpl. by rewrite pretty_N_char_digit.
Qed.

Lemma pretty_N_digits (n : N) : all_digits (pretty n) = true.
Proof.
  unfold pretty, pretty_N. case_decide; [done|].
  by apply pretty_N_go_digits.
Qed.

Lemma string_app_nil x : "" +:+ x = x.
Proof. reflexivity. Qed.

Lemma string_app_cons c a x : String c a +:+ x = String c (a +:+ x).
Proof. reflexivity. Qed.

(** A run of digits followed by a dash determines where the dash is. *)
Lemma digits_dash_split a : ∀ b x y,
  all_digits a = true →
  all_digits b = true →
  a +:+ "-" +:+ x = b +:+ "-" +:+ y →
  a = b ∧ x = y.
Proof.
  induction a as [|c a IH]; intros [|d b] x y Ha Hb Heq;
    rewrite ?string_app_cons, ?string_app_nil in Heq.
  - by injection Heq as ->.
  - injection Heq as <- _. by simpl in Hb.
  - injection Heq as -> _. by simpl in Ha.
  - injection Heq as -> Heq.
    simpl in Ha, Hb.
    apply andb_true_iff in Ha as [_ Ha]. apply andb_true_iff in Hb as [_ Hb].
    destruct (IH b x y Ha Hb Heq) as [-> ->]. done.
Qed.

(** Two synthesized ids coincide exactly when the clock readings and the
    kept parts of the random draws coincide. *)
Lemma synthesized_table_id_eq d1 d2 :
  synthesized_table_id d1 = synthesized_table_id d2
  ↔ draw_now d1 = draw_now d2
    ∧ substring 2 7 (draw_random36 d1) = substring 2 7 (draw_random36 d2).
Proof.
  unfold synthesized_table_id. split.
  - intros Heq. apply (inj (String.app "table-")) in Heq.
    apply digits_dash_split in Heq as [Hnow Hrand];
      [|apply pretty_N_digits..].
    split; [|done]. by apply (inj pretty).
  - by intros [-> ->].
Qed.

Lemma synthesized_table_id_truthy d : truthy (synthesized_table_id d) = true.
Proof. done. Qed.

Lemma tablesWithIds_lookup draws tables i table :
  tables !! i = Some table →
  tablesWithIds draws tables !! i = Some (with_table_id draws i table).
Proof.
  intros Hi. unfold tablesWithIds. by rewrite list_lookup_imap, Hi.
Qed.

(** C6, as the handler has it.  When the resolver answers with
    [query_type] 'analysis' and a list of tables, the assistant turn that
    ends the submit holds one table per table of the answer, each with a
    non-empty [table_id]: the answer's own when that was a non-empty string,
    and otherwise the id made of the clock reading and of the random draw of
    that table.  Two made-up ids are equal exactly when their clock readings
    and the kept parts of their random draws are equal; nothing else keeps
    them apart. *)
Theorem analysis_tables_get_ids render props io s result tables :
  trim_is_empty (input render) = false →
  (needs_session render props = true →
   is_normal (SendIO.createSession io) = true) →
  SendIO.executeQuery io = Normal result →
  query_type_is result "analysis" = true →
  QueryResponse.tables result = Some tables →
  ∃ s' earlier bot ar,
    handleSendMessage render props io s = (Normal (), s')
    ∧ messages s' = earlier ++ [bot]
    ∧ ChatMessage.sqlResult bot = None
    ∧ ChatMessage.analysisResult bot = Some ar
    ∧ length (AnalysisResult.tables ar) = length tables
    ∧ (∀ i table,
         tables !! i = Some table →
         ∃ table' tid,
           AnalysisResult.tables ar !! i = Some table'
           ∧ TableInfo.table_id table' = Some tid
           ∧ truthy tid = true
           ∧ (truthy_opt (TableInfo.table_id table) = true →
              TableInfo.table_id table = Some tid)
           ∧ (truthy_opt (TableInfo.table_id table) = false →
              tid = synthesized_table_id (SendIO.table_draws io i)))
    ∧ (∀ d1 d2,
         synthesized_table_id d1 = synthesized_table_id d2
         ↔ draw_now d1 = draw_now d2
           ∧ substring 2 7 (draw_random36 d1) = substring 2 7 (draw_random36 d2)).
Proof.
  intros Hblank Hcreate Hquery Htype Htables.
  assert (query_type_is result "sql" = false) as Hsql.
  { unfold query_type_is in *.
    destruct (QueryResponse.query_type result) as [q|]; [|done].
    apply String.eqb_eq in Htype as ->. done. }
  edestruct (handleSendMessage_replied render props io s result)
    as (s' & earlier & Hrun & Hmsgs); [done..| |].
  { unfold botMessage. by rewrite Hsql, Htype, Htables. }
  eexists s', earlier, _,
    (AnalysisResult.mk (tablesWithIds (SendIO.table_draws io) tables)
       (QueryResponse.analysis_type result)).
  split; [exact Hrun|]. split; [exact Hmsgs|].
  simpl. split_and!; [done|done| | |].
  - unfold tablesWithIds. by rewrite length_imap.
  - intros i table Hi.
    eexists _, _. split; [by apply tablesWithIds_lookup|]. simpl.
    split; [done|].
    unfold or_else, truthy_opt.
    destruct (TableInfo.table_id table) as [tid|]; simpl.
    + destruct (truthy tid) eqn:Htid; split_and!; done.
    + split_and!; done.
  - apply synthesized_table_id_eq.
Qed.

Lemma analysis_tables_get_ids_witness :
  trim_is_empty (input typing_state) = false
  ∧ ∃ s' earlier bot ar,
      handleSendMessage typing_state connected_props
        (demo_io analysis_response) typing_state
      = (Normal (), s')
      ∧ messages s' = earlier ++ [bot]
      ∧ ChatMessage.analysisResult bot = Some ar
      ∧ length (AnalysisResult.tables ar) = 2.
Proof.
  split; [reflexivity|].
  destruct (analysis_tables_get_ids typing_state connected_props
              (demo_io analysis_response) typing_state analysis_response
              [bare_table "before"; bare_table "after"]
              eq_refl (λ H, eq_refl) eq_refl eq_refl eq_refl)
    as (s' & earlier & bot & ar & Hrun & Hmsgs & _ & Har & Hlen & _).
  exists s', earlier, bot, ar. by split_and!.
Defined.

(** An analysis answer with two tables that lack a [table_id], handled
    within one millisecond with equal random draws: both tables get the same
    id. *)
Lemma synthesized_ids_counterexample :
  ∃ ar,
    ChatMessage.analysisResult
      <$> last (messages (handleSendMessage typing_state connected_props
                            (demo_io analysis_response) typing_state).2)
    = Some (Some ar)
    ∧ TableInfo.table_id <$> AnalysisResult.tables ar
      = [Some "table-1700000000500-4fzyo82"; Some "table-1700000000500-4fzyo82"].
Proof. eexists. split; reflexivity. Qed.

(** C8, as the handler has it.  When the resolver's answer has a
    [query_type] that is neither 'sql' nor 'analysis' (in particular a missing
    or an unknown one), the assistant turn that ends the submit holds neither
    a [sqlResult] nor an [analysisResult]; its [query_type] is the answer's,
    as received; its text is the answer's [text] when that is a non-empty
    string, else its [message], else 'Query executed successfully.'; and it
    is displayed as conversational only when the answer's [query_type] is
    'conversational'. *)
Theorem unclassified_response_turn render props io s result :
  trim_is_empty (input render) = false →
  (needs_session render props = true →
   is_normal (SendIO.createSession io) = true) →
  SendIO.executeQuery io = Normal result →
  query_type_is result "sql" = false →
  query_type_is result "analysis" = false →
  ∃ s' earlier bot,
    handleSendMessage render props io s = (Normal (), s')
    ∧ messages s' = earlier ++ [bot]
    ∧ ChatMessage.isUser bot = false
    ∧ ChatMessage.sqlResult bot = None
    ∧ ChatMessage.analysisResult bot = None
    ∧ ChatMessage.query_type bot = QueryResponse.query_type result
    ∧ ChatMessage.text bot
      = or_else (QueryResponse.text result)
          (or_else (QueryResponse.message result) "Query executed successfully.")
    ∧ (∀ t, QueryResponse.text result = Some t → truthy t = true →
         ChatMessage.text bot = t)
    ∧ isConversational bot = query_type_is result "conversational".
Proof.
  intros Hblank Hcreate Hquery Hsql Han.
  edestruct (handleSendMessage_replied render props io s result)
    as (s' & earlier & Hrun & Hmsgs); [done..| |].
  { unfold botMessage. by rewrite Hsql, Han. }
  eexists s', earlier, _. split; [exact Hrun|]. split; [exact Hmsgs|].
  simpl. split_and!; try done.
  intros t Ht Htruthy. unfold responseMessage, or_else. by rewrite Ht, Htruthy.
Qed.

Lemma unclassified_response_turn_witness :
  trim_is_empty (input typing_state) = false
  ∧ ∃ s' earlier bot,
      handleSendMessage typing_state connected_props
        (demo_io untyped_response) typing_state
      = (Normal (), s')
      ∧ messages s' = earlier ++ [bot]
      ∧ ChatMessage.query_type bot = None
      ∧ ChatMessage.text bot = "I can only answer questions about your data.".
Proof.
  split; [reflexivity|].
  destruct (unclassified_response_turn typing_state connected_props
              (demo_io untyped_response) typing_state untyped_response
              eq_refl (λ H, eq_refl) eq_refl eq_refl eq_refl)
    as (s' & earlier & bot & Hrun & Hmsgs & _ & _ & _ & Htype & _ & Htext & _).
  exists s', earlier, bot. split_and!; [done|done|done|].
  by apply Htext.
Defined.

(** An answer without [query_type]: the turn's [query_type] stays missing and
    the turn is not displayed as conversational. *)
Lemma unclassified_counterexample :
  ∃ bot,
    last (messages (handleSendMessage typing_state connected_props
                      (demo_io untyped_response) typing_state).2)
    = Some bot
    ∧ ChatMessage.query_type bot = None
    ∧ ChatMessage.query_type bot ≠ Some "conversational"
    ∧ isConversational bot = false.
Proof. eexists. split_and!; [reflexivity|reflexivity|discriminate|reflexivity]. Qed.

(** ** Loading a session *)

Section LoadExits.
Variables (sid : string) (io : LoadIO.t) (s : State).

Lemma loadSessionMessages_empty :
  LoadIO.getSessionMessages io = Normal [] →
  loadSessionMessages sid io s
  = (Normal (),
     mkState [welcome (LoadIO.welcome_at io);
              loaded_empty_message (LoadIO.notice_at io)]
       (input s) (isProcessing s) (sessionId s) (sessionInfo s)
       (showSessionsList s) (paginationState s)).
Proof. unfold loadSessionMessages, try_catch. by intros ->. Qed.

Lemma loadSessionMessages_some msg sessionMessages :
  LoadIO.getSessionMessages io = Normal (msg :: sessionMessages) →
  loadSessionMessages sid io s
  = (Normal (),
     mkState (imap (convert_message (LoadIO.draws io)) (msg :: sessionMessages)
              ++ [loaded_message (S (length sessionMessages))
                    (LoadIO.notice_at io)])
       (input s) (isProcessing s) (sessionId s) (sessionInfo s)
       (showSessionsList s) (paginationState s)).
Proof.
  unfold loadSessionMessages, try_catch. intros ->.
  cbv [mbind M_bind await]. rewrite length_imap. done.
Qed.

Lemma loadSessionMessages_failed error :
  LoadIO.getSessionMessages io = Throw error →
  loadSessionMessages sid io s
  = (Normal (),
     mkState [error_loading_message (LoadIO.failed_at io)]
       (input s) (isProcessing s) (sessionId s) (sessionInfo s)
       (showSessionsList s) (paginationState s)).
Proof. unfold loadSessionMessages, try_catch. by intros ->. Qed.
End LoadExits.

(** C4, as the loader has it.  Loading a session without persisted messages
    returns normally and leaves exactly two turns: the welcome turn followed
    by the notice 'Session loaded (no previous messages)'.  Whatever the
    fetch does, the loader leaves at least one turn. *)
Theorem load_empty_session sid io s :
  LoadIO.getSessionMessages io = Normal [] →
  ∃ s',
    loadSessionMessages sid io s = (Normal (), s')
    ∧ messages s'
      = [plain_message "welcome" false welcome_text
           (DateOfMs (LoadIO.welcome_at io));
         plain_message ("system-" +:+ pretty (Date_now (LoadIO.notice_at io)))
           false (ok_mark +:+ " Session loaded (no previous messages)")
           (DateOfMs (new_Date (LoadIO.notice_at io)))]
    ∧ length (messages s') = 2
    ∧ ∀ sid' io' s0, messages (loadSessionMessages sid' io' s0).2 ≠ [].
Proof.
  intros Hfetch. eexists. split; [by apply loadSessionMessages_empty|].
  simpl. split_and!; [done..|].
  intros sid' io' s0.
  destruct (LoadIO.getSessionMessages io') as [[|msg rest]|error] eqn:Hio.
  - by rewrite loadSessionMessages_empty.
  - erewrite loadSessionMessages_some by done. simpl. done.
  - by erewrite loadSessionMessages_failed.
Qed.

Lemma load_empty_session_witness :
  LoadIO.getSessionMessages (SelectIO.load (select_io (Normal []))) = Normal []
  ∧ ∃ s',
      loadSessionMessages "s1" (SelectIO.load (select_io (Normal [])))
        (initial_state 0)
      = (Normal (), s')
      ∧ length (messages s') = 2.
Proof.
  split; [reflexivity|].
  destruct (load_empty_session "s1" (SelectIO.load (select_io (Normal [])))
              (initial_state 0) eq_refl)
    as (s' & Hrun & _ & Hlen & _).
  exists s'. by split.
Defined.

(** Loading a session without messages leaves two turns, not one. *)
Lemma load_empty_counterexample :
  length (messages (loadSessionMessages "s1"
                      (SelectIO.load (select_io (Normal [])))
                      (initial_state 0)).2)
  ≠ 1
  ∧ (ChatMessage.text <$>
       messages (loadSessionMessages "s1"
                   (SelectIO.load (select_io (Normal [])))
                   (initial_state 0)).2)
    = [welcome_text; ok_mark +:+ " Session loaded (no previous messages)"]
  ∧ (ChatMessage.text <$>
       messages (handle connected_props
                   (SessionSelect "s1" (select_io (Normal [])))
                   (initial_state 0)).2)
    = [welcome_text; ok_mark +:+ " Session loaded (no previous messages)"].
Proof. split_and!; [discriminate|reflexivity|reflexivity]. Qed.

(** ** Session information *)

Section InfoExits.
Variables (render s : State) (at_ : Stamp).

Lemma fetchSessionInfo_no_session settled :
  truthy_opt (sessionId render) = false →
  fetchSessionInfo render settled at_ s = (Normal (), s).
Proof. unfold fetchSessionInfo. by intros ->. Qed.

Hypothesis Hsession : truthy_opt (sessionId render) = true.

Lemma fetchSessionInfo_resolved info :
  fetchSessionInfo render (Normal info) at_ s
  = (Normal (),
     mkState (if SessionInfo.error info
              then messages s ++ [session_error_message info at_]
              else messages s)
       (input s) (isProcessing s) (sessionId s) (Some info)
       (showSessionsList s) (paginationState s)).
Proof.
  unfold fetchSessionInfo. rewrite Hsession.
  by destruct (SessionInfo.error info) eqn:Herr;
    cbv [negb try_catch mbind M_bind await setSessionInfo]; rewrite Herr.
Qed.

Lemma fetchSessionInfo_caught error :
  fetchSessionInfo render (Throw error) at_ s
  = (Normal (),
     mkState (messages s) (input s) (isProcessing s) None None
       (showSessionsList s) (paginationState s)).
Proof. unfold fetchSessionInfo. by rewrite Hsession. Qed.
End InfoExits.

Lemma fetchSessionInfo_returns render settled at_ s :
  (fetchSessionInfo render settled at_ s).1 = Normal ().
Proof.
  destruct (truthy_opt (sessionId render)) eqn:Hs.
  - destruct settled as [info|error].
    + by rewrite fetchSessionInfo_resolved.
    + by rewrite fetchSessionInfo_caught.
  - by rewrite fetchSessionInfo_no_session.
Qed.

Lemma loadSessionMessages_returns sid io s :
  (loadSessionMessages sid io s).1 = Normal ().
Proof.
  destruct (LoadIO.getSessionMessages io) as [[|msg rest]|error] eqn:Hio.
  - by rewrite loadSessionMessages_empty.
  - by erewrite loadSessionMessages_some.
  - by erewrite loadSessionMessages_failed.
Qed.

(** [handleSessionSelect] is the loader run on the state with the selected
    id, the list closed and the placeholder, followed by the render's
    [fetchSessionInfo]. *)
Lemma handleSessionSelect_unfold render selected io s :
  handleSessionSelect render selected io s
  = fetchSessionInfo render (SelectIO.getSessionInfo io) (SelectIO.info_at io)
      (loadSessionMessages selected (SelectIO.load io)
         (mkState [loading_message (SelectIO.loading_at io)] (input s)
            (isProcessing s) (Some selected) (sessionInfo s) false
            (paginationState s))).2.
Proof.
  unfold handleSessionSelect.
  cbv [mbind M_bind setSessionId setShowSessionsList setMessages].
  simpl.
  pose proof (loadSessionMessages_returns selected (SelectIO.load io)
    (mkState [loading_message (SelectIO.loading_at io)] (input s)
       (isProcessing s) (Some selected) (sessionInfo s) false
       (paginationState s))) as Hret.
  destruct (loadSessionMessages _ _ _) as [[[]|error] s1]; [done|].
  by simpl in Hret.
Qed.




(** ** At most one result per turn *)

Lemma holds_both_update_message messageId tableId result msg :
  holds_both (update_message messageId tableId result msg) = holds_both msg.
Proof.
  unfold update_message, holds_both.
  destruct (String.eqb _ _); [|done].
  by destruct (ChatMessage.sqlResult msg) eqn:Hsql,
    (ChatMessage.analysisResult msg) eqn:Han; simpl; rewrite ?Hsql, ?Han.
Qed.

Lemma holds_both_botMessage result at_ draws fault bot :
  botMessage result at_ draws fault = Normal bot → holds_both bot = false.
Proof.
  unfold botMessage.
  destruct (query_type_is result "sql"); [by intros [= <-]|].
  destruct (query_type_is result "analysis"); [|by intros [= <-]].
  destruct (QueryResponse.tables result); [by intros [= <-]|done].
Qed.

(** A converted message holds both results exactly when the persisted
    result carries both a statement and tables. *)
Lemma holds_both_convert_message draws i msg :
  holds_both (convert_message draws i msg) = persisted_both msg.
Proof.
  unfold holds_both, convert_message, persisted_both, persisted_sqlResult,
    persisted_analysisResult. simpl.
  destruct (PersistedMessage.query_result msg) as [qr|]; [|done].
  destruct (truthy_opt (PersistedResult.sql qr)); [|done].
  by destruct (PersistedResult.tables qr).
Qed.

Lemma exclusive_app turns more :
  exclusive turns → exclusive more → exclusive (turns ++ more).
Proof. unfold exclusive. intros. by apply Forall_app. Qed.

Lemma exclusive_sent_turns render props io :
  exclusive (sent_turns render props io).
Proof.
  assert (exclusive (turn_of (reply_of io))) as Hreply.
  { unfold reply_of, reply_message, query_error_message, message_of.
    destruct (SendIO.executeQuery io) as [result|[]];
      try destruct (botMessage result _ _ _) as [bot|[]] eqn:Hbot;
      repeat constructor.
    by eapply holds_both_botMessage. }
  unfold sent_turns.
  destruct (needs_session render props);
    [destruct (SendIO.createSession io)|];
    repeat (apply Forall_cons; split; [done|]); done.
Qed.

Lemma exclusive_converted draws sessionMessages :
  (∀ msg, msg ∈ sessionMessages → persisted_both msg = false) →
  exclusive (imap (convert_message draws) sessionMessages).
Proof.
  intros Hnone. apply Forall_lookup. intros i msg.
  rewrite list_lookup_imap.
  destruct (sessionMessages !! i) as [persisted|] eqn:Hi; [|done].
  intros [= <-]. rewrite holds_both_convert_message.
  apply Hnone. by eapply list_elem_of_lookup_2.
Qed.

Lemma exclusive_fetchSessionInfo render settled at_ s :
  exclusive (messages s) →
  exclusive (messages (fetchSessionInfo render settled at_ s).2).
Proof.
  intros Hs.
  destruct (truthy_opt (sessionId render)) eqn:Hr.
  - destruct settled as [info|error].
    + rewrite fetchSessionInfo_resolved by done. simpl.
      destruct (SessionInfo.error info); [|done].
      apply exclusive_app; [done|]. by repeat constructor.
    + by rewrite fetchSessionInfo_caught.
  - by rewrite fetchSessionInfo_no_session.
Qed.

Lemma exclusive_loadSessionMessages sid io s :
  (∀ msg sessionMessages,
     LoadIO.getSessionMessages io = Normal sessionMessages →
     msg ∈ sessionMessages → persisted_both msg = false) →
  exclusive (messages (loadSessionMessages sid io s).2).
Proof.
  intros Hnone.
  destruct (LoadIO.getSessionMessages io) as [[|msg rest]|error] eqn:Hio.
  - rewrite loadSessionMessages_empty by done. by repeat constructor.
  - erewrite loadSessionMessages_some by done. cbn [snd messages].
    apply exclusive_app; [|by repeat constructor].
    apply (exclusive_converted _ (msg :: rest)). intros. by eapply Hnone.
  - erewrite loadSessionMessages_failed by done. by repeat constructor.
Qed.

(** Every event keeps the property, provided the messages it fetches do not
    carry both kinds of result. *)
Lemma exclusive_handle props ev s :
  (∀ msg, msg ∈ fetched_messages ev → persisted_both msg = false) →
  exclusive (messages s) →
  exclusive (messages (handle props ev s).2).
Proof.
  intros Hfetched Hs. destruct ev; simpl in *.
  - destruct (trim_is_empty typed) eqn:Hblank.
    + unfold submit, dispatch. cbv [mbind M_bind]. simpl.
      by rewrite handleSendMessage_blank.
    + rewrite submit_run by done. simpl.
      apply exclusive_app; [done|]. apply exclusive_sent_turns.
  - unfold dispatch.
    destruct (truthy_opt (sessionId s)) eqn:Hsid;
      [destruct (truthy tableId) eqn:Htid|].
    + destruct getPaginatedResults as [result|error].
      * rewrite handlePageChange_resolved by done. simpl.
        unfold exclusive in *. apply Forall_fmap.
        eapply Forall_impl; [done|]. intros msg Hmsg. simpl.
        by rewrite holds_both_update_message.
      * rewrite handlePageChange_caught by done. simpl.
        apply exclusive_app; [done|]. by repeat constructor.
    + rewrite handlePageChange_rejected; auto.
    + rewrite handlePageChange_rejected; auto.
  - unfold dispatch. rewrite handleSessionSelect_unfold.
    apply exclusive_fetchSessionInfo, exclusive_loadSessionMessages.
    intros msg sessionMessages Hio Hin. apply Hfetched. by rewrite Hio.
  - unfold sessionId_effect, dispatch. by apply exclusive_fetchSessionInfo.
  - apply exclusive_app; [done|]. by repeat constructor.
  - unfold handleNewChat.
    destruct (truthy_opt (workspaceId props)); [|done].
    destruct createSession; [|done]. by repeat constructor.
  - unfold handleRefreshConnection.
    destruct (truthy_opt (workspaceId props)); [|done].
    destruct activateWorkspace; simpl;
      (apply exclusive_app; [done|by repeat constructor]).
Qed.

Lemma exclusive_run_events props events : ∀ s,
  (∀ ev msg, ev ∈ events → msg ∈ fetched_messages ev →
     persisted_both msg = false) →
  exclusive (messages s) →
  exclusive (messages (run_events props events s)).
Proof.
  induction events as [|ev rest IH]; intros s Hfetched Hs; [done|].
  simpl. apply IH.
  - intros ev' msg Hin. apply Hfetched. by right.
  - apply exclusive_handle; [|done]. intros msg. apply Hfetched. by left.
Qed.

Lemma holds_both_true msg :
  holds_both msg = true
  ↔ is_Some (ChatMessage.sqlResult msg)
    ∧ is_Some (ChatMessage.analysisResult msg).
Proof.
  unfold holds_both.
  destruct (ChatMessage.sqlResult msg), (ChatMessage.analysisResult msg);
    split; try done; intros [[? [=]] [? [=]]] || (intros _; split; eauto).
Qed.

Lemma holds_both_false msg :
  holds_both msg = false
  ↔ ¬ (is_Some (ChatMessage.sqlResult msg)
       ∧ is_Some (ChatMessage.analysisResult msg)).
Proof.
  rewrite <-holds_both_true. by destruct (holds_both msg).
Qed.

(** C2, as the handlers have it.  A turn converted from a persisted message
    holds both a [sqlResult] and an [analysisResult] exactly when the
    persisted [query_result] carries both a non-empty [sql] and a [tables]
    array.  The turns appended by a submit never hold both.  Hence, after any
    sequence of events from the initial state in which no fetched message
    carries both, every turn of the transcript holds at most one of the
    two. *)
Theorem one_result_per_turn props events ts :
  (∀ ev persisted,
     ev ∈ events → persisted ∈ fetched_messages ev →
     persisted_both persisted = false) →
  (∀ msg,
     msg ∈ messages (run_events props events (initial_state ts)) →
     ¬ (is_Some (ChatMessage.sqlResult msg)
        ∧ is_Some (ChatMessage.analysisResult msg)))
  ∧ (∀ render io msg,
       msg ∈ sent_turns render props io →
       ¬ (is_Some (ChatMessage.sqlResult msg)
          ∧ is_Some (ChatMessage.analysisResult msg)))
  ∧ (∀ draws i persisted,
       is_Some (ChatMessage.sqlResult (convert_message draws i persisted))
       ∧ is_Some (ChatMessage.analysisResult (convert_message draws i persisted))
       ↔ persisted_both persisted = true).
Proof.
  intros Hfetched. split_and!.
  - intros msg Hin. apply holds_both_false.
    assert (exclusive (messages (run_events props events (initial_state ts))))
      as Hall.
    { apply exclusive_run_events; [done|]. by repeat constructor. }
    unfold exclusive in Hall. rewrite Forall_forall in Hall. by apply Hall.
  - intros render io msg Hin. apply holds_both_false.
    pose proof (exclusive_sent_turns render props io) as Hall.
    unfold exclusive in Hall. rewrite Forall_forall in Hall. by apply Hall.
  - intros draws i persisted.
    by rewrite <-holds_both_true, holds_both_convert_message.
Qed.

Lemma one_result_per_turn_witness :
  Forall (λ msg, ¬ (is_Some (ChatMessage.sqlResult msg)
                    ∧ is_Some (ChatMessage.analysisResult msg)))
    (messages (run_events connected_props
                 [Submit "show revenue by month" (demo_io sql_response);
                  SessionSelect "s1"
                    (select_io (Normal [persisted_question; persisted_answer]));
                  PageChange "m2" "t1" 2 (Normal demo_response) demo_stamp]
                 (initial_state 0))).
Proof.
  apply Forall_forall.
  refine (proj1 (one_result_per_turn connected_props _ 0 _)).
  intros ev persisted Hev Hin.
  repeat (apply elem_of_cons in Hev as [-> | Hev];
          [simpl in Hin;
           repeat (apply elem_of_cons in Hin as [-> | Hin]; [reflexivity|]);
           by apply elem_of_nil in Hin|]).
  by apply elem_of_nil in Hev.
Defined.

(** Selecting a session whose persisted answer carries both a statement and
    tables: the converted turn holds both results. *)
Lemma one_result_counterexample :
  ∃ msg,
    messages (run_events connected_props
                [SessionSelect "s1" (select_io (Normal [mixed_message]))]
                (initial_state 0)) !! 0
    = Some msg
    ∧ ChatMessage.sqlResult msg
      = Some (SqlResult.mk "SELECT 1" (Some [JNum 1]) None None None)
    ∧ ChatMessage.analysisResult msg
      = Some (AnalysisResult.mk [tableA; tableB] (Some "comparative")).
Proof. eexists. split_and!; reflexivity. Qed.

(** * Further properties of the chat component *)

(** ** Which fault leaves a handler *)

Lemma handlePageChange_returns render messageId tableId newPage settled error_at s :
  (handlePageChange render messageId tableId newPage settled error_at s).1
  = Normal ().
Proof.
  destruct (truthy_opt (sessionId render)) eqn:Hs;
    [destruct (truthy tableId) eqn:Ht|].
  - destruct settled as [result|error].
    + by rewrite handlePageChange_resolved.
    + by rewrite handlePageChange_caught.
  - rewrite handlePageChange_rejected; auto.
  - rewrite handlePageChange_rejected; auto.
Qed.

(** A submit ends with a fault exactly when it reaches the resolver call
    and that call is rejected with null or undefined. *)
Lemma send_outcome_fault render props io :
  send_outcome render props io
  = if (if needs_session render props
        then is_normal (SendIO.createSession io) else true)
       && rejected_nullish (SendIO.executeQuery io)
    then Throw (ErrorObject (SendIO.fault_message io))
    else Normal ().
Proof.
  unfold send_outcome, reply_of, reply_message, query_error_message,
    message_of.
  destruct (needs_session render props);
    [destruct (SendIO.createSession io)|];
    destruct (SendIO.executeQuery io) as [result|[]];
    try (destruct (botMessage result _ _ _) as [bot|error] eqn:Hbot;
         [|apply botMessage_fault in Hbot as ->]);
    done.
Qed.

Lemma handleSessionSelect_returns render selected io s :
  (handleSessionSelect render selected io s).1 = Normal ().
Proof. rewrite handleSessionSelect_unfold. apply fetchSessionInfo_returns. Qed.

(** The one fault that leaves a handler.  A submit that reaches the resolver
    call (the utterance is not blank and the session it needs, if any, was
    created) and whose resolver call is rejected with null or undefined ends
    with the TypeError that its catch block raises when it reads the
    [message] of that value.  Every other event, whatever its backend calls
    do, ends normally: its rejections are caught by the handler that awaited
    them. *)
Theorem only_nullish_rejection_escapes props ev s :
  (handle props ev s).1
  = match ev with
    | Submit typed io =>
        if negb (trim_is_empty typed)
           && (if needs_session s props
               then is_normal (SendIO.createSession io) else true)
           && rejected_nullish (SendIO.executeQuery io)
        then Throw (ErrorObject (SendIO.fault_message io))
        else Normal ()
    | _ => Normal ()
    end.
Proof.
  destruct ev; simpl.
  - destruct (trim_is_empty typed) eqn:Hblank.
    + unfold submit, dispatch. cbv [mbind M_bind]. simpl.
      by rewrite handleSendMessage_blank.
    + rewrite submit_run by done. simpl. apply send_outcome_fault.
  - apply handlePageChange_returns.
  - apply handleSessionSelect_returns.
  - apply fetchSessionInfo_returns.
  - done.
  - unfold handleNewChat.
    destruct (truthy_opt (workspaceId props)); [|done].
    by destruct createSession.
  - unfold handleRefreshConnection.
    destruct (truthy_opt (workspaceId props)); [|done].
    by destruct activateWorkspace.
Qed.

(** ** The transcript is never empty and the processing flag is reset *)

Lemma at_rest_fetchSessionInfo render settled at_ s :
  at_rest s → at_rest (fetchSessionInfo render settled at_ s).2.
Proof.
  intros [Hne Hp].
  destruct (truthy_opt (sessionId render)) eqn:Hr.
  - destruct settled as [info|error].
    + rewrite fetchSessionInfo_resolved by done. split; [|done]. simpl.
      destruct (SessionInfo.error info); [|done].
      by destruct (messages s).
    + by rewrite fetchSessionInfo_caught.
  - by rewrite fetchSessionInfo_no_session.
Qed.

Lemma at_rest_loadSessionMessages sid io s :
  isProcessing s = false → at_rest (loadSessionMessages sid io s).2.
Proof.
  intros Hp.
  destruct (LoadIO.getSessionMessages io) as [[|msg rest]|error] eqn:Hio.
  - by rewrite loadSessionMessages_empty.
  - erewrite loadSessionMessages_some by done. by split.
  - by erewrite loadSessionMessages_failed.
Qed.

Lemma at_rest_handle props ev s : at_rest s → at_rest (handle props ev s).2.
Proof.
  intros [Hne Hp]. destruct ev; simpl.
  - destruct (trim_is_empty typed) eqn:Hblank.
    + unfold submit, dispatch. cbv [mbind M_bind]. simpl.
      by rewrite handleSendMessage_blank.
    + rewrite submit_run by done. split; [|done]. simpl.
      by destruct (messages s).
  - unfold dispatch.
    destruct (truthy_opt (sessionId s)) eqn:Hsid;
      [destruct (truthy tableId) eqn:Htid|].
    + destruct getPaginatedResults as [result|error].
      * rewrite handlePageChange_resolved by done. split; [|done]. simpl.
        by destruct (messages s).
      * rewrite handlePageChange_caught by done. split; [|done]. simpl.
        by destruct (messages s).
    + rewrite handlePageChange_rejected; auto. by split.
    + rewrite handlePageChange_rejected; auto. by split.
  - unfold dispatch. rewrite handleSessionSelect_unfold.
    by apply at_rest_fetchSessionInfo, at_rest_loadSessionMessages.
  - unfold sessionId_effect, dispatch. by apply at_rest_fetchSessionInfo.
  - split; [|done]. simpl. by destruct (messages s).
  - unfold handleNewChat.
    destruct (truthy_opt (workspaceId props)); [|by split].
    destruct createSession; by split.
  - unfold handleRefreshConnection.
    destruct (truthy_opt (workspaceId props)); [|by split].
    destruct activateWorkspace; (split; [|done]); simpl;
      by destruct (messages s).
Qed.

(** After any sequence of events from the initial state, whatever the
    backend did, the transcript holds at least one turn and the processing
    flag is off. *)
Theorem transcript_never_empty props events ts :
  messages (run_events props events (initial_state ts)) ≠ []
  ∧ isProcessing (run_events props events (initial_state ts)) = false.
Proof.
  assert (∀ s, at_rest s → at_rest (run_events props events s)) as Hrun.
  { induction events as [|ev rest IH]; intros s Hs; [done|].
    simpl. by apply IH, at_rest_handle. }
  by apply Hrun.
Qed.

(** ** Submits that do not reach an answer *)

(** When a submit needs a session and the session cannot be created, the
    handler stops there: the transcript gains the user's turn and the notice
    of the failure, the session id stays unset, and the settlement of the
    resolver call has no influence on the outcome. *)
Theorem session_creation_failure_aborts render props io s error :
  trim_is_empty (input render) = false →
  needs_session render props = true →
  SendIO.createSession io = Throw error →
  handleSendMessage render props io s
  = (Normal (),
     mkState
       (messages s
        ++ [plain_message (pretty (Date_now (SendIO.user_at io))) true
              (input render) (DateOfMs (new_Date (SendIO.user_at io)));
            plain_message ("error-" +:+ pretty (Date_now (SendIO.session_at io)))
              false
              (fail_mark +:+ " Failed to create session. Please try connecting to the workspace again.")
              (DateOfMs (new_Date (SendIO.session_at io)))])
       "" false (sessionId s) (sessionInfo s) (showSessionsList s)
       (paginationState s))
  ∧ ∀ answer response_at draws error_at fault,
      handleSendMessage render props
        (SendIO.mk (SendIO.user_at io) (SendIO.createSession io)
           (SendIO.session_at io) answer response_at draws error_at fault) s
      = handleSendMessage render props io s.
Proof.
  intros Hblank Hneeds Hcreate. split.
  - rewrite handleSendMessage_run by done.
    unfold send_outcome, sent_turns, session_after.
    by rewrite Hneeds, Hcreate.
  - intros answer response_at draws error_at fault.
    rewrite !handleSendMessage_run by done.
    unfold send_outcome, sent_turns, session_after. simpl.
    by rewrite Hneeds, Hcreate.
Qed.

Lemma session_creation_failure_aborts_witness :
  trim_is_empty (input fresh_typing_state) = false
  ∧ needs_session fresh_typing_state connected_props = true
  ∧ (ChatMessage.text <$>
       messages (handleSendMessage fresh_typing_state connected_props
                   failing_create_io fresh_typing_state).2)
    = [welcome_text; " show revenue ";
       fail_mark +:+ " Failed to create session. Please try connecting to the workspace again."].
Proof.
  split; [reflexivity|]. split; [reflexivity|].
  rewrite (proj1 (session_creation_failure_aborts fresh_typing_state
                    connected_props failing_create_io fresh_typing_state
                    not_found eq_refl eq_refl eq_refl)).
  reflexivity.
Defined.

(** When the resolver call is rejected with something that is neither null
    nor undefined, the submit ends normally and the transcript ends with one
    assistant turn 'Error: <message>', where the message is the error's own
    when it has a non-empty one and 'Failed to execute query' otherwise.
    When the call is rejected with null or undefined, the catch block faults
    while it builds that turn: nothing reports the failure, the transcript
    ends with what was appended before the call, and the handler ends with
    the TypeError.  In both cases the [finally] block resets the processing
    flag, and a session created on the way is kept. *)
Theorem resolver_failure_turn render props io s error :
  trim_is_empty (input render) = false →
  (needs_session render props = true →
   is_normal (SendIO.createSession io) = true) →
  SendIO.executeQuery io = Throw error →
  let before_reply :=
    messages s
    ++ plain_message (pretty (Date_now (SendIO.user_at io))) true
         (input render) (DateOfMs (new_Date (SendIO.user_at io)))
       :: match SendIO.createSession io with
          | Normal sessionData =>
              if needs_session render props
              then [session_created_message sessionData (SendIO.session_at io)]
              else []
          | Throw _ => []
          end in
  ∃ outcome s',
    handleSendMessage render props io s = (outcome, s')
    ∧ match error with
      | Nullish =>
          outcome = Throw (ErrorObject (SendIO.fault_message io))
          ∧ messages s' = before_reply
      | ErrorObject _ | NonError =>
          outcome = Normal ()
          ∧ messages s'
            = before_reply
              ++ [plain_message
                    ("error-" +:+ pretty (Date_now (SendIO.error_at io)))
                    false
                    ("Error: "
                     +:+ match error with
                         | ErrorObject message =>
                             if truthy message then message
                             else "Failed to execute query"
                         | _ => "Failed to execute query"
                         end)
                    (DateOfMs (new_Date (SendIO.error_at io)))]
      end
    ∧ input s' = ""
    ∧ isProcessing s' = false
    ∧ sessionId s' = session_after render props io s.
Proof.
  intros Hblank Hcreate Hquery before_reply. subst before_reply.
  rewrite handleSendMessage_run by done.
  eexists _, _. split; [done|]. simpl.
  unfold send_outcome, sent_turns, reply_of, reply_message,
    query_error_message, message_of. rewrite Hquery.
  destruct (needs_session render props).
  - destruct (SendIO.createSession io) as [sessionData|];
      [|by discriminate Hcreate].
    destruct error; simpl; split_and!; try done;
      by rewrite <-app_assoc.
  - destruct (SendIO.createSession io) as [sessionData|];
      destruct error; simpl; split_and!; try done;
      by rewrite <-app_assoc.
Qed.

Lemma resolver_failure_turn_witness :
  trim_is_empty (input fresh_typing_state) = false
  ∧ (∃ outcome s',
       handleSendMessage fresh_typing_state connected_props failing_query_io
         fresh_typing_state
       = (outcome, s')
       ∧ outcome = Normal ()
       ∧ (ChatMessage.text <$> messages s')
         = [welcome_text; " show revenue ";
            ok_mark +:+ " Created new session: Chat Session";
            "Error: Network Error"])
  ∧ ∃ outcome s',
      handleSendMessage fresh_typing_state connected_props nullish_query_io
        fresh_typing_state
      = (outcome, s')
      ∧ outcome = Throw (ErrorObject engine_message_null)
      ∧ (ChatMessage.text <$> messages s')
        = [welcome_text; " show revenue ";
           ok_mark +:+ " Created new session: Chat Session"].
Proof.
  split; [reflexivity|]. split.
  - destruct (resolver_failure_turn fresh_typing_state connected_props
                failing_query_io fresh_typing_state
                (ErrorObject "Network Error") eq_refl (λ _, eq_refl) eq_refl)
      as (outcome & s' & Hrun & [Hout Hmsgs] & _).
    exists outcome, s'. split; [exact Hrun|]. split; [exact Hout|].
    rewrite Hmsgs. reflexivity.
  - destruct (resolver_failure_turn fresh_typing_state connected_props
                nullish_query_io fresh_typing_state Nullish
                eq_refl (λ _, eq_refl) eq_refl)
      as (outcome & s' & Hrun & [Hout Hmsgs] & _).
    exists outcome, s'. split; [exact Hrun|]. split; [exact Hout|].
    rewrite Hmsgs. reflexivity.
Defined.

(** An answer of type 'analysis' whose [tables] is null or undefined is not
    shown as an answer: mapping the missing list raises a TypeError, and the
    submit ends normally with the error turn of that fault, whose text is
    'Error: ' followed by the message the engine gave the TypeError (by
    'Failed to execute query' were that message empty); the turn holds no
    result. *)
Theorem analysis_without_tables_is_error render props io s result :
  trim_is_empty (input render) = false →
  (needs_session render props = true →
   is_normal (SendIO.createSession io) = true) →
  SendIO.executeQuery io = Normal result →
  query_type_is result "analysis" = true →
  QueryResponse.tables result = None →
  ∃ s' earlier,
    handleSendMessage render props io s = (Normal (), s')
    ∧ messages s'
      = earlier
        ++ [plain_message ("error-" +:+ pretty (Date_now (SendIO.error_at io)))
              false
              ("Error: "
               +:+ (if truthy (SendIO.fault_message io)
                    then SendIO.fault_message io
                    else "Failed to execute query"))
              (DateOfMs (new_Date (SendIO.error_at io)))].
Proof.
  intros Hblank Hcreate Hquery Htype Htables.
  assert (query_type_is result "sql" = false) as Hsql.
  { unfold query_type_is in *.
    destruct (QueryResponse.query_type result) as [q|]; [|done].
    apply String.eqb_eq in Htype as ->. done. }
  rewrite handleSendMessage_run by done.
  unfold send_outcome, sent_turns, reply_of, reply_message, botMessage,
    query_error_message, message_of.
  rewrite Hquery, Hsql, Htype, Htables.
  destruct (needs_session render props).
  - destruct (SendIO.createSession io) as [sessionData|];
      [|by discriminate Hcreate].
    eexists _, (messages s ++ [_; _]). split; [done|]. simpl.
    by rewrite <-app_assoc.
  - eexists _, (messages s ++ [_]). split; [done|]. simpl.
    by rewrite <-app_assoc.
Qed.

Lemma analysis_without_tables_is_error_witness :
  trim_is_empty (input typing_state) = false
  ∧ ∃ s' earlier,
      handleSendMessage typing_state connected_props
        (demo_io tableless_response) typing_state
      = (Normal (), s')
      ∧ messages s'
        = earlier
          ++ [plain_message "error-1700000000600" false
                ("Error: " +:+ engine_message)
                (DateOfMs 1700000000600)].
Proof.
  split; [reflexivity|].
  destruct (analysis_without_tables_is_error typing_state connected_props
              (demo_io tableless_response) typing_state tableless_response
              eq_refl (λ _, eq_refl) eq_refl eq_refl eq_refl)
    as (s' & earlier & Hrun & Hmsgs).
  exists s', earlier. split; [exact Hrun|exact Hmsgs].
Defined.

(** ** What a submit does to the transcript, whatever the backend does *)

Lemma reply_of_assistant io :
  Forall (λ msg, ChatMessage.isUser msg = false) (turn_of (reply_of io)).
Proof.
  unfold reply_of, reply_message, query_error_message, message_of.
  destruct (SendIO.executeQuery io) as [result|[]];
    try destruct (botMessage result _ _ _) as [bot|[]] eqn:Hbot;
    repeat constructor.
  unfold botMessage in Hbot.
  destruct (query_type_is result "sql"); [by injection Hbot as <-|].
  destruct (query_type_is result "analysis"); [|by injection Hbot as <-].
  destruct (QueryResponse.tables result); [by injection Hbot as <-|done].
Qed.

(** A submit only appends.  With a blank utterance it changes nothing at
    all.  Otherwise it clears the input, resets the processing flag and
    appends the user's turn, which carries the utterance as typed (not
    trimmed), followed by at most two turns that are not the user's: at
    least one when the handler ends normally, which it does unless the
    resolver call is rejected with null or undefined. *)
Theorem submit_only_appends render props io s :
  ∃ outcome s' appended,
    handleSendMessage render props io s = (outcome, s')
    ∧ messages s' = messages s ++ appended
    ∧ (trim_is_empty (input render) = true → outcome = Normal () ∧ s' = s)
    ∧ (trim_is_empty (input render) = false →
       input s' = ""
       ∧ isProcessing s' = false
       ∧ ∃ replies,
           appended
           = plain_message (pretty (Date_now (SendIO.user_at io))) true
               (input render) (DateOfMs (new_Date (SendIO.user_at io)))
             :: replies
           ∧ (length replies ≤ 2)%nat
           ∧ Forall (λ msg, ChatMessage.isUser msg = false) replies
           ∧ (outcome = Normal () → (1 ≤ length replies)%nat)
           ∧ (rejected_nullish (SendIO.executeQuery io) = false →
              outcome = Normal ())).
Proof.
  destruct (trim_is_empty (input render)) eqn:Hblank.
  - exists (Normal ()), s, []. rewrite handleSendMessage_blank by done.
    rewrite app_nil_r. by split_and!.
  - eexists _, _, _. rewrite handleSendMessage_run by done.
    split; [done|]. split; [done|]. split; [done|]. intros _.
    split; [done|]. split; [done|]. unfold sent_turns, userMessage.
    eexists. split; [done|].
    pose proof (reply_of_assistant io) as Hreply.
    rewrite send_outcome_fault.
    assert (length (turn_of (reply_of io)) ≤ 1
            ∧ (rejected_nullish (SendIO.executeQuery io) = false →
               length (turn_of (reply_of io)) = 1)) as [Hle Hone].
    { unfold reply_of, reply_message, query_error_message, message_of.
      destruct (SendIO.executeQuery io) as [result|[]];
        try (destruct (botMessage result _ _ _) as [bot|error] eqn:Hbot;
             [|apply botMessage_fault in Hbot as ->]);
        simpl; split; done || lia. }
    destruct (rejected_nullish (SendIO.executeQuery io)) eqn:Hq;
      destruct (needs_session render props);
      [destruct (SendIO.createSession io)| |
       destruct (SendIO.createSession io)|]; simpl;
      (split_and!;
       [lia
       |by repeat (apply Forall_cons; split; [done|])
       |done || (intros _; try specialize (Hone eq_refl); lia)
       |done]).
Qed.

(** ** Page changes *)

Lemma update_table_idempotent tableId result table :
  update_table tableId result (update_table tableId result table)
  = update_table tableId result table.
Proof.
  destruct (table_id_is tableId table) eqn:Hhit; unfold update_table.
  - rewrite Hhit. simpl. by case_match.
  - by repeat rewrite Hhit.
Qed.

Lemma update_message_idempotent messageId tableId result msg :
  update_message messageId tableId result
    (update_message messageId tableId result msg)
  = update_message messageId tableId result msg.
Proof.
  destruct msg as [id isUser text timestamp query_type [sr|] [ar|]];
    unfold update_message; simpl;
    destruct (String.eqb id messageId) eqn:Hid; simpl; rewrite ?Hid; try done.
  do 3 f_equal. rewrite map_map. apply map_ext.
  intros table. apply update_table_idempotent.
Qed.

(** Answering the same page request twice with the same page leaves the
    state as the first answer left it: no turn is duplicated and no table is
    changed a second time, also when the backend has replaced the table
    id. *)
Theorem page_change_idempotent render render' s messageId tableId newPage
    result error_at error_at' :
  truthy_opt (sessionId render) = true →
  truthy_opt (sessionId render') = true →
  truthy tableId = true →
  let s1 := (handlePageChange render messageId tableId newPage
               (Normal result) error_at s).2 in
  handlePageChange render' messageId tableId newPage (Normal result)
    error_at' s1
  = (Normal (), s1).
Proof.
  intros Hs Hs' Ht s1. subst s1.
  rewrite !handlePageChange_resolved by done. simpl.
  do 2 f_equal. rewrite map_map. apply map_ext.
  intros msg. apply update_message_idempotent.
Qed.

Lemma page_change_idempotent_witness :
  truthy_opt (sessionId demo_state) = true
  ∧ truthy "a1" = true
  ∧ handlePageChange demo_state "response-1700000000500" "a1" 2
      (Normal demo_response) demo_stamp
      (handlePageChange demo_state "response-1700000000500" "a1" 2
         (Normal demo_response) demo_stamp demo_state).2
    = (Normal (),
       (handlePageChange demo_state "response-1700000000500" "a1" 2
          (Normal demo_response) demo_stamp demo_state).2).
Proof.
  split; [reflexivity|]. split; [reflexivity|].
  apply (page_change_idempotent demo_state demo_state demo_state
           "response-1700000000500" "a1" 2 demo_response demo_stamp demo_stamp
           eq_refl eq_refl eq_refl).
Defined.

Lemma update_table_identity tableId result table :
  same_table_identity (update_table tableId result table) table.
Proof.
  unfold update_table. by destruct (table_id_is tableId table).
Qed.

Lemma same_turn_identity_refl msg : same_turn_identity msg msg.
Proof.
  unfold same_turn_identity. split_and!; try done.
  - by destruct (ChatMessage.sqlResult msg); constructor.
  - destruct (ChatMessage.analysisResult msg); constructor.
    split; [done|]. by apply Forall_Forall2_diag, Forall_true.
Qed.

Lemma update_message_identity messageId tableId result msg :
  same_turn_identity (update_message messageId tableId result msg) msg.
Proof.
  unfold update_message.
  destruct (String.eqb _ _); [|apply same_turn_identity_refl].
  destruct (ChatMessage.sqlResult msg) as [sr|] eqn:Hsql.
  - unfold same_turn_identity. simpl. rewrite Hsql.
    split_and!; try done; [by constructor|].
    destruct (ChatMessage.analysisResult msg); constructor.
    split; [done|]. by apply Forall_Forall2_diag, Forall_true.
  - destruct (ChatMessage.analysisResult msg) as [ar|] eqn:Han.
    + unfold same_turn_identity. simpl. rewrite Hsql, Han.
      split_and!; try done; [by constructor|].
      constructor. split; [done|]. simpl.
      apply Forall2_fmap_l, Forall_Forall2_diag, Forall_forall.
      intros table _. apply update_table_identity.
    + apply same_turn_identity_refl.
Qed.

(** A page change that the backend answers keeps, turn by turn and table by
    table, everything but the rows, the pagination and the table id: the
    turns stay in place with their id, author, text, time and kind; a turn
    holds a result afterwards exactly when it held one before; statements,
    errors, table names, descriptions and row counts are as they were. *)
Theorem page_change_keeps_identity render s messageId tableId newPage result error_at :
  Forall2 same_turn_identity
    (messages (handlePageChange render messageId tableId newPage
                 (Normal result) error_at s).2)
    (messages s).
Proof.
  destruct (handlePageChange_messages render s messageId tableId newPage
              result error_at) as [-> | ->].
  - apply Forall_Forall2_diag, Forall_forall.
    intros msg _. apply same_turn_identity_refl.
  - apply Forall2_fmap_l, Forall_Forall2_diag, Forall_forall.
    intros msg _. apply update_message_identity.
Qed.

(** ** Which results are displayed *)

(** No turn displays both an SQL block and analysis blocks.  A turn made
    from a resolver answer displays exactly what it holds: the SQL block when
    it holds an SQL result, the analysis blocks when it holds an analysis. *)
Theorem fresh_answer_shows_what_it_holds result at_ draws fault bot :
  botMessage result at_ draws fault = Normal bot →
  (renders_sql bot = true ↔ is_Some (ChatMessage.sqlResult bot))
  ∧ (renders_analysis bot = true ↔ is_Some (ChatMessage.analysisResult bot))
  ∧ ∀ message,
      ¬ (renders_sql message = true ∧ renders_analysis message = true).
Proof.
  intros Hbot.
  assert (∀ message,
            ¬ (renders_sql message = true ∧ renders_analysis message = true))
    as Hnever.
  { intros message [Hsql Han]. unfold renders_sql, renders_analysis in *.
    destruct (ChatMessage.query_type message) as [q|]; [|done].
    destruct (ChatMessage.sqlResult message); [|done].
    destruct (ChatMessage.analysisResult message); [|done].
    apply String.eqb_eq in Hsql as ->. done. }
  unfold botMessage, query_type_is in Hbot.
  unfold renders_sql, renders_analysis.
  destruct (QueryResponse.query_type result) as [q|] eqn:Hq;
    [destruct (String.eqb q "sql") eqn:Hsql;
     [|destruct (String.eqb q "analysis") eqn:Han;
       [destruct (QueryResponse.tables result); [|done]|]]|];
    injection Hbot as <-; simpl; rewrite ?Hq, ?Hsql, ?Han;
    (split_and!; [| |done]);
    split; first [done | by eauto | by intros [? [=]]].
Qed.

Lemma fresh_answer_shows_what_it_holds_witness :
  ∃ bot,
    botMessage analysis_response demo_stamp demo_draws engine_message
    = Normal bot
    ∧ renders_analysis bot = true
    ∧ renders_sql bot = false.
Proof.
  eexists. split; [reflexivity|].
  destruct (fresh_answer_shows_what_it_holds analysis_response demo_stamp
              demo_draws engine_message _ eq_refl) as (_ & Han & _).
  split; [|reflexivity].
  apply Han. simpl. eauto.
Defined.

(** A turn restored from a persisted message displays its SQL block only
    when the persisted result is neither flagged conversational nor flagged
    as a multi-query or why-analysis, and its analysis blocks only when it is
    not flagged conversational and is flagged as one of the latter two.  So a
    result that the turn holds stays hidden when the flags say otherwise; in
    particular a result flagged conversational is never displayed. *)
Theorem restored_turn_rendering draws i persisted qr :
  PersistedMessage.query_result persisted = Some qr →
  renders_sql (convert_message draws i persisted)
  = negb (PersistedResult.is_conversational qr)
    && negb (PersistedResult.is_multi_query qr || PersistedResult.is_why_analysis qr)
    && truthy_opt (PersistedResult.sql qr)
  ∧ renders_analysis (convert_message draws i persisted)
    = negb (PersistedResult.is_conversational qr)
      && (PersistedResult.is_multi_query qr || PersistedResult.is_why_analysis qr)
      && bool_decide (is_Some (PersistedResult.tables qr))
  ∧ (is_Some (ChatMessage.sqlResult (convert_message draws i persisted))
     ↔ truthy_opt (PersistedResult.sql qr) = true)
  ∧ (is_Some (ChatMessage.analysisResult (convert_message draws i persisted))
     ↔ is_Some (PersistedResult.tables qr)).
Proof.
  intros Hqr.
  unfold renders_sql, renders_analysis, convert_message. simpl.
  unfold persisted_query_type, persisted_sqlResult, persisted_analysisResult.
  rewrite Hqr.
  destruct (PersistedResult.is_conversational qr),
    (PersistedResult.is_multi_query qr), (PersistedResult.is_why_analysis qr),
    (truthy_opt (PersistedResult.sql qr)), (PersistedResult.tables qr);
    simpl; split_and!; try done;
    split; (done || eauto || by intros [? [=]]).
Qed.

Lemma restored_turn_rendering_witness :
  PersistedMessage.query_result mixed_message = Some mixed_result
  ∧ renders_sql (convert_message demo_load_draws 0 mixed_message) = false
  ∧ renders_analysis (convert_message demo_load_draws 0 mixed_message) = true
  ∧ is_Some (ChatMessage.sqlResult (convert_message demo_load_draws 0 mixed_message)).
Proof.
  split; [reflexivity|].
  destruct (restored_turn_rendering demo_load_draws 0 mixed_message
              mixed_result eq_refl) as (Hsql & Han & Hheld & _).
  split; [exact Hsql|]. split; [exact Han|]. by apply Hheld.
Defined.

(** ** Page requests as the result blocks issue them *)

(** The table id of a turn made from an SQL answer is the answer's top-level
    [table_id]; the id inside the answer's [pagination] is not consulted.
    When the top-level id is missing or empty, every page request of the
    turn's result block is dropped before any call: the state stays as it
    is, whatever the backend would have answered. *)
Theorem fresh_sql_turn_paging result at_ draws fault bot render page settled
    error_at s :
  query_type_is result "sql" = true →
  botMessage result at_ draws fault = Normal bot →
  (ChatMessage.sqlResult bot ≫= SqlResult.table_id)
  = QueryResponse.table_id result
  ∧ (truthy_opt (QueryResponse.table_id result) = false →
     sql_onPageChange render bot page settled error_at s = (Normal (), s)).
Proof.
  intros Hsql Hbot. unfold botMessage in Hbot. rewrite Hsql in Hbot.
  injection Hbot as <-. split; [done|].
  intros Hid. unfold sql_onPageChange. simpl.
  apply handlePageChange_rejected. right.
  unfold or_else, truthy_opt in *.
  destruct (QueryResponse.table_id result) as [tid|]; [|done].
  by rewrite Hid.
Qed.

Lemma fresh_sql_turn_paging_witness :
  query_type_is paged_only_response "sql" = true
  ∧ ∃ bot,
      botMessage paged_only_response demo_stamp demo_draws engine_message
      = Normal bot
      ∧ (SqlResult.pagination <$> ChatMessage.sqlResult bot)
        = Some (Some page1)
      ∧ sql_onPageChange demo_state bot 2 (Normal demo_response) demo_stamp
          demo_state
        = (Normal (), demo_state).
Proof.
  split; [reflexivity|]. eexists. split; [reflexivity|].
  split; [reflexivity|].
  apply (fresh_sql_turn_paging paged_only_response demo_stamp demo_draws
           engine_message _ demo_state 2 (Normal demo_response) demo_stamp demo_state
           eq_refl eq_refl).
  reflexivity.
Defined.

(** The table id of a turn restored from a persisted SQL result is the id
    inside the persisted [pagination].  When the persisted result has no
    pagination, or one with an empty id, every page request of the turn's
    result block is dropped before any call. *)
Theorem restored_sql_turn_paging draws i persisted qr render page settled error_at s :
  PersistedMessage.query_result persisted = Some qr →
  truthy_opt (PersistedResult.sql qr) = true →
  (ChatMessage.sqlResult (convert_message draws i persisted)
     ≫= SqlResult.table_id)
  = PaginationInfo.table_id <$> PersistedResult.pagination qr
  ∧ ((∀ p, PersistedResult.pagination qr = Some p →
        truthy (PaginationInfo.table_id p) = false) →
     sql_onPageChange render (convert_message draws i persisted) page settled
       error_at s
     = (Normal (), s)).
Proof.
  intros Hqr Hsql.
  assert (ChatMessage.sqlResult (convert_message draws i persisted)
            ≫= SqlResult.table_id
          = PaginationInfo.table_id <$> PersistedResult.pagination qr) as Hid.
  { unfold convert_message, persisted_sqlResult. simpl.
    by rewrite Hqr, Hsql. }
  split; [done|]. intros Hnone.
  unfold sql_onPageChange. rewrite Hid.
  apply handlePageChange_rejected. right.
  destruct (PersistedResult.pagination qr) as [p|]; [|done].
  simpl. by rewrite (Hnone p).
Qed.

Lemma restored_sql_turn_paging_witness :
  truthy_opt (PersistedResult.sql mixed_result) = true
  ∧ sql_onPageChange demo_state
      (convert_message demo_load_draws 0 mixed_message) 2
      (Normal demo_response) demo_stamp demo_state
    = (Normal (), demo_state).
Proof.
  split; [reflexivity|].
  apply (restored_sql_turn_paging demo_load_draws 0 mixed_message mixed_result
           demo_state 2 (Normal demo_response) demo_stamp demo_state
           eq_refl eq_refl).
  intros p [=].
Defined.

(** A page request issued by the block of a table reaches that table when
    the turn holds no SQL result and the table has a non-empty id: with a
    session and an answering backend the table at that position then carries
    the answer's rows and pagination.  A table without an id cannot be paged:
    its requests are dropped before any call. *)
Theorem table_paging_reaches_its_table render s i msg ar j table page result error_at :
  messages s !! i = Some msg →
  ChatMessage.sqlResult msg = None →
  ChatMessage.analysisResult msg = Some ar →
  AnalysisResult.tables ar !! j = Some table →
  (truthy_opt (TableInfo.table_id table) = false →
   ∀ settled,
     table_onPageChange render msg table page settled error_at s
     = (Normal (), s))
  ∧ (truthy_opt (TableInfo.table_id table) = true →
     truthy_opt (sessionId render) = true →
     ∃ s' msg' ar',
       table_onPageChange render msg table page (Normal result) error_at s
       = (Normal (), s')
       ∧ messages s' !! i = Some msg'
       ∧ ChatMessage.analysisResult msg' = Some ar'
       ∧ AnalysisResult.tables ar' !! j
         = Some (TableInfo.mk (TableInfo.name table)
                   (TableInfo.description table) (TableInfo.sql table)
                   (PageResponse.data result) (TableInfo.row_count table)
                   (Some (currentTableId result
                            (default "" (TableInfo.table_id table))))
                   (PageResponse.pagination result))).
Proof.
  intros Hi Hsql Han Hj. split.
  - intros Hid settled. unfold table_onPageChange.
    apply handlePageChange_rejected. right.
    unfold or_else, truthy_opt in *.
    destruct (TableInfo.table_id table) as [tid|]; [|done]. by rewrite Hid.
  - intros Hid Hs. unfold table_onPageChange.
    destruct (TableInfo.table_id table) as [tid|] eqn:Htid; [|done].
    simpl in Hid. unfold or_else. rewrite Hid.
    rewrite handlePageChange_resolved by done.
    eexists _, _, _. split; [done|]. simpl.
    split; [by rewrite list_lookup_fmap, Hi|].
    unfold update_message. rewrite String.eqb_refl, Hsql, Han. simpl.
    split; [done|]. simpl.
    rewrite list_lookup_fmap, Hj. simpl.
    by rewrite update_table_hit.
Qed.

Lemma table_paging_reaches_its_table_witness :
  ∃ s' msg' ar',
    table_onPageChange demo_state analysis_turn tableB 2
      (Normal demo_response) demo_stamp demo_state
    = (Normal (), s')
    ∧ messages s' !! 2 = Some msg'
    ∧ ChatMessage.analysisResult msg' = Some ar'
    ∧ AnalysisResult.tables ar' !! 1
      = Some (TableInfo.mk "after" "second period" "SELECT 2"
                (Some [JNum 30; JNum 40]) 1 (Some "t9") (Some (page2 "t9"))).
Proof.
  apply (proj2 (table_paging_reaches_its_table demo_state demo_state 2
                  analysis_turn _ 1 tableB 2 demo_response demo_stamp
                  eq_refl eq_refl eq_refl eq_refl));
    reflexivity.
Defined.

(** A turn that holds both an SQL result and an analysis (a session load
    can restore one) displays the tables of the analysis when its kind is
    'analysis'.  A page request issued by the block of one of these tables is
    not applied to the table: the answer replaces the rows, the pagination
    and the table id of the turn's SQL result, which is not displayed, and
    the analysis stays as it was. *)
Theorem paging_a_table_of_a_mixed_turn render s i msg sr ar table page result error_at :
  messages s !! i = Some msg →
  ChatMessage.sqlResult msg = Some sr →
  ChatMessage.analysisResult msg = Some ar →
  table ∈ AnalysisResult.tables ar →
  truthy_opt (TableInfo.table_id table) = true →
  truthy_opt (sessionId render) = true →
  ∃ s' msg',
    table_onPageChange render msg table page (Normal result) error_at s
    = (Normal (), s')
    ∧ messages s' !! i = Some msg'
    ∧ ChatMessage.analysisResult msg' = Some ar
    ∧ ChatMessage.sqlResult msg'
      = Some (SqlResult.mk (SqlResult.sql sr) (PageResponse.data result)
                (SqlResult.error sr) (PageResponse.pagination result)
                (Some (currentTableId result
                         (default "" (TableInfo.table_id table))))).
Proof.
  intros Hi Hsql Han _ Hid Hs. unfold table_onPageChange.
  destruct (TableInfo.table_id table) as [tid|] eqn:Htid; [|done].
  simpl in Hid. unfold or_else. rewrite Hid.
  rewrite handlePageChange_resolved by done.
  eexists _, _. split; [done|]. simpl.
  split; [by rewrite list_lookup_fmap, Hi|].
  unfold update_message. by rewrite String.eqb_refl, Hsql.
Qed.

Lemma paging_a_table_of_a_mixed_turn_witness :
  renders_analysis mixed_turn = true
  ∧ ∃ s' msg',
      table_onPageChange mixed_state mixed_turn tableA 2
        (Normal demo_response) demo_stamp mixed_state
      = (Normal (), s')
      ∧ messages s' !! 0 = Some msg'
      ∧ ChatMessage.analysisResult msg'
        = Some (AnalysisResult.mk [tableA; tableB] (Some "comparative"))
      ∧ ChatMessage.sqlResult msg'
        = Some (SqlResult.mk "SELECT 1" (Some [JNum 30; JNum 40]) None
                  (Some (page2 "t9")) (Some "t9")).
Proof.
  split; [reflexivity|].
  apply (paging_a_table_of_a_mixed_turn mixed_state mixed_state 0 mixed_turn
           _ _ tableA 2 demo_response demo_stamp
           eq_refl eq_refl eq_refl);
    [by left|reflexivity|reflexivity].
Defined.

(** ** Loading and starting sessions *)

(** Loading a session that has messages replaces the transcript by one turn
    per persisted message, in the persisted order, followed by the notice
    'Loaded <n> messages from session'.  Each turn carries the content of its
    message, is a user turn exactly when the role is 'user', and keeps the
    persisted id when there is one.  The session id is not touched. *)
Theorem load_converts_in_order sid io s sessionMessages :
  LoadIO.getSessionMessages io = Normal sessionMessages →
  sessionMessages ≠ [] →
  ∃ s',
    loadSessionMessages sid io s = (Normal (), s')
    ∧ length (messages s') = length sessionMessages + 1
    ∧ (∀ i persisted,
         sessionMessages !! i = Some persisted →
         ∃ turn,
           messages s' !! i = Some turn
           ∧ ChatMessage.text turn = PersistedMessage.content persisted
           ∧ ChatMessage.isUser turn
             = String.eqb (PersistedMessage.role persisted) "user"
           ∧ (truthy_opt (PersistedMessage._id persisted) = true →
              Some (ChatMessage.id turn) = PersistedMessage._id persisted))
    ∧ messages s' !! length sessionMessages
      = Some (plain_message
                ("system-" +:+ pretty (Date_now (LoadIO.notice_at io))) false
                (ok_mark +:+ " Loaded " +:+ pretty (length sessionMessages)
                 +:+ " messages from session")
                (DateOfMs (new_Date (LoadIO.notice_at io))))
    ∧ sessionId s' = sessionId s.
Proof.
  intros Hio Hne. destruct sessionMessages as [|msg rest]; [done|].
  erewrite loadSessionMessages_some by done.
  eexists. split; [done|]. cbn [messages sessionId].
  split_and!.
  - rewrite length_app, length_imap. done.
  - intros i persisted Hi.
    exists (convert_message (LoadIO.draws io) i persisted).
    split.
    + rewrite lookup_app_l by (rewrite length_imap; by eapply lookup_lt_Some).
      by rewrite list_lookup_imap, Hi.
    + split_and!; [done|done|].
      unfold convert_message, or_else, truthy_opt. simpl.
      destruct (PersistedMessage._id persisted) as [pid|]; [|done].
      by intros ->.
  - rewrite lookup_app_r by (by rewrite length_imap).
    rewrite length_imap, Nat.sub_diag. done.
  - done.
Qed.

Lemma load_converts_in_order_witness :
  ∃ s',
    loadSessionMessages "s1"
      (SelectIO.load (select_io (Normal [persisted_question; persisted_answer])))
      demo_state
    = (Normal (), s')
    ∧ (ChatMessage.text <$> messages s')
      = ["compare both periods"; "Revenue by month";
         ok_mark +:+ " Loaded 2 messages from session"]
    ∧ (ChatMessage.isUser <$> messages s') = [true; false; false].
Proof.
  destruct (load_converts_in_order "s1"
              (SelectIO.load (select_io (Normal [persisted_question; persisted_answer])))
              demo_state [persisted_question; persisted_answer] eq_refl)
    as (s' & Hrun & _); [done|].
  exists s'. split; [exact Hrun|].
  injection Hrun as <-. split; reflexivity.
Defined.

(** Starting a new chat fails silently: without a connected workspace, or
    when the session cannot be created, nothing changes and no turn tells.
    When the session is created, the transcript is replaced by the welcome
    turn and the notice of the new session, and the new id becomes the
    session id. *)
Theorem new_chat_outcomes props createSession welcome_at at_ s :
  (truthy_opt (workspaceId props) = false ∨ is_normal createSession = false →
   handleNewChat props createSession welcome_at at_ s = (Normal (), s))
  ∧ (truthy_opt (workspaceId props) = true →
     ∀ sessionData,
       createSession = Normal sessionData →
       handleNewChat props createSession welcome_at at_ s
       = (Normal (),
          mkState
            [plain_message "welcome" false welcome_text (DateOfMs welcome_at);
             plain_message ("system-" +:+ pretty (Date_now at_)) false
               (ok_mark +:+ " Started new chat session: "
                +:+ SessionData.name sessionData)
               (DateOfMs (new_Date at_))]
            (input s) (isProcessing s)
            (Some (SessionData._id sessionData)) (sessionInfo s)
            (showSessionsList s) (paginationState s))).
Proof.
  unfold handleNewChat. split.
  - intros [-> | Hfail]; [by destruct s|].
    destruct (truthy_opt (workspaceId props)); [|by destruct s].
    destruct createSession; [done|by destruct s].
  - intros -> sessionData ->. done.
Qed.



(** * The workspace form *)

Module WorkspaceFormFacts.
Import WorkspaceForm.

Lemma digits_not_blank s :
  s ≠ "" → all_digits s = true → trim_is_empty s = false.
Proof.
  destruct s as [|c rest]; [done|]. intros _ Hd. simpl in Hd.
  apply andb_true_iff in Hd as [Hc _].
  destruct c as [[] [] [] [] [] [] [] []]; try discriminate Hc; reflexivity.
Qed.

Lemma is_number_iff port :
  trim_is_empty port = false ∧ is_number port = true
  ↔ port ≠ "" ∧ all_digits port = true.
Proof.
  unfold is_number. split.
  - intros [Hb Hnum]. apply andb_true_iff in Hnum as [Hne Hdig].
    split; [|done]. by intros ->.
  - intros [Hne Hdig]. split; [by apply digits_not_blank|].
    rewrite Hdig. by destruct port.
Qed.

Lemma required_empty key message value newErrors :
  required key message value newErrors = ∅
  ↔ trim_is_empty value = false ∧ newErrors = ∅.
Proof.
  unfold required. destruct (trim_is_empty value); split.
  - intros H. by apply insert_non_empty in H.
  - by intros [[=] _].
  - done.
  - by intros [_ ?].
Qed.

Lemma required_lookup key message value newErrors k :
  required key message value newErrors !! k
  = if decide (key = k)
    then if trim_is_empty value then Some message else newErrors !! k
    else newErrors !! k.
Proof.
  unfold required. destruct (trim_is_empty value); case_decide; subst;
    by rewrite ?lookup_insert_eq, ?lookup_insert_ne.
Qed.

Section Reading.
Variables (render : FormState) (name db_name username host port : string).
Hypothesis Hname : props (formData render) !! "name" = Some name.
Hypothesis Hdb_name : db_connection (formData render) !! "db_name" = Some db_name.
Hypothesis Husername : db_connection (formData render) !! "username" = Some username.
Hypothesis Hhost : db_connection (formData render) !! "host" = Some host.
Hypothesis Hport : db_connection (formData render) !! "port" = Some port.

Lemma validateForm_run s :
  validateForm render s
  = (Normal (Nat.eqb (size (collected name db_name username host port)) 0),
     mkFormState (formData s) (loading s)
       (collected name db_name username host port)).
Proof.
  unfold validateForm, property. cbv [mbind ST_bind awaiting].
  by rewrite Hname, Hdb_name, Husername, Hhost, Hport.
Qed.
End Reading.

Lemma collected_empty name db_name username host port :
  collected name db_name username host port = ∅
  ↔ trim_is_empty name = false ∧ trim_is_empty db_name = false
    ∧ trim_is_empty username = false ∧ trim_is_empty host = false
    ∧ port ≠ "" ∧ all_digits port = true.
Proof.
  rewrite <-is_number_iff. unfold collected.
  destruct (trim_is_empty port).
  - split; [intros H; by apply insert_non_empty in H|by intros (_&_&_&_&[=]&_)].
  - destruct (is_number port); simpl.
    + rewrite !required_empty. tauto.
    + split; [intros H; by apply insert_non_empty in H|by intros (_&_&_&_&_&[=])].
Qed.

Lemma collected_keys name db_name username host port k :
  is_Some (collected name db_name username host port !! k) →
  k ∈ ["name"; "db_name"; "username"; "host"; "port"].
Proof.
  assert (is_Some
            (required "host" "Host is required" host
               (required "username" "Username is required" username
                  (required "db_name" "Database name is required" db_name
                     (required "name" "Workspace name is required" name ∅)))
             !! k) →
          k ∈ ["name"; "db_name"; "username"; "host"; "port"]) as Hfour.
  { rewrite !required_lookup, lookup_empty.
    repeat case_decide; subst; intros [? Hsome]; try discriminate Hsome;
      by repeat constructor. }
  unfold collected.
  destruct (trim_is_empty port); [|destruct (negb (is_number port))];
    [| |done];
    (destruct (decide (k = "port")) as [->|Hk];
     [by repeat constructor|by rewrite lookup_insert_ne]).
Qed.

Lemma collected_valid name db_name username host port :
  Nat.eqb (size (collected name db_name username host port)) 0 = true
  ↔ collected name db_name username host port = ∅.
Proof. rewrite Nat.eqb_eq. apply map_size_empty_iff. Qed.

(** [validateForm] accepts a form exactly when its name, database name,
    user name and host contain something other than white space and its
    port is a non-empty string of digits 0-9 (so a port with a blank around
    it is refused).  The password, the description and the database type are
    not looked at.  The errors it stores are keyed by 'name', 'db_name',
    'username', 'host' and 'port' only, and the port carries 'Port is
    required' when blank and 'Port must be a number' otherwise. *)
Theorem validateForm_verdict render s name db_name username host port :
  props (formData render) !! "name" = Some name →
  db_connection (formData render) !! "db_name" = Some db_name →
  db_connection (formData render) !! "username" = Some username →
  db_connection (formData render) !! "host" = Some host →
  db_connection (formData render) !! "port" = Some port →
  ∃ valid newErrors,
    validateForm render s
    = (Normal valid, mkFormState (formData s) (loading s) newErrors)
    ∧ (valid = true ↔ newErrors = ∅)
    ∧ (valid = true
       ↔ trim_is_empty name = false ∧ trim_is_empty db_name = false
         ∧ trim_is_empty username = false ∧ trim_is_empty host = false
         ∧ port ≠ "" ∧ all_digits port = true)
    ∧ (∀ k, is_Some (newErrors !! k) →
         k ∈ ["name"; "db_name"; "username"; "host"; "port"])
    ∧ newErrors !! "port"
      = if trim_is_empty port then Some "Port is required"
        else if is_number port then None
        else Some "Port must be a number".
Proof.
  intros Hn Hd Hu Hh Hp. eexists _, _.
  split; [by eapply validateForm_run|].
  split; [apply collected_valid|].
  split; [rewrite collected_valid; apply collected_empty|].
  split; [apply collected_keys|].
  unfold collected.
  destruct (trim_is_empty port); [by rewrite lookup_insert_eq|].
  destruct (is_number port); simpl; [|by rewrite lookup_insert_eq].
  rewrite !required_lookup. by repeat case_decide.
Qed.
Lemma initialFormData_lookups workspace :
  props (initialFormData workspace) !! "name"
  = Some (or_else (Workspace.name <$> workspace) "")
  ∧ db_connection (initialFormData workspace) !! "db_name"
    = Some (or_else (DbConnection.db_name <$> (Workspace.db_connection <$> workspace)) "")
  ∧ db_connection (initialFormData workspace) !! "username"
    = Some (or_else (DbConnection.username <$> (Workspace.db_connection <$> workspace)) "")
  ∧ db_connection (initialFormData workspace) !! "host"
    = Some (or_else (DbConnection.host <$> (Workspace.db_connection <$> workspace)) "localhost")
  ∧ db_connection (initialFormData workspace) !! "port"
    = Some (or_else (DbConnection.port <$> (Workspace.db_connection <$> workspace)) "5432").
Proof.
  unfold initialFormData. cbn [props db_connection].
  split_and!; by simplify_map_eq.
Qed.

Lemma validateForm_verdict_witness :
  ∃ valid newErrors,
    validateForm (initialState (Some spaced_port_workspace))
      (initialState (Some spaced_port_workspace))
    = (Normal valid,
       mkFormState (formData (initialState (Some spaced_port_workspace)))
         false newErrors)
    ∧ newErrors !! "port" = Some "Port must be a number"
    ∧ ∀ k, is_Some (newErrors !! k) →
           k ∈ ["name"; "db_name"; "username"; "host"; "port"].
Proof.
  destruct (initialFormData_lookups (Some spaced_port_workspace))
    as (Hn & Hd & Hu & Hh & Hp).
  destruct (validateForm_verdict (initialState (Some spaced_port_workspace))
              (initialState (Some spaced_port_workspace))
              "Sales" "" "reader" "db.example.org" "5432 " Hn Hd Hu Hh Hp)
    as (valid & newErrors & Hrun & _ & _ & Hkeys & Hport).
  exists valid, newErrors. split; [exact Hrun|]. split; [exact Hport|exact Hkeys].
Defined.

(** ** Typing into the form *)

Lemma handleInputChange_run render field value s :
  field ≠ "db_connection" →
  ∃ handler,
    handleInputChange render field value = Some handler
    ∧ handler s
      = (Normal (),
         mkFormState
           (if String.prefix "db_connection." field
            then mkFormData (props (formData s))
                   (<[dbField field := value]> (db_connection (formData s)))
            else mkFormData (<[field := value]> (props (formData s)))
                   (db_connection (formData s)))
           (loading s)
           (if has_error (errors render) field
            then <[field := ""]> (errors s) else errors s)).
Proof.
  intros Hne. unfold handleInputChange.
  destruct (String.eqb_spec field "db_connection") as [->|_]; [done|].
  eexists. split; [done|].
  by destruct (String.prefix "db_connection." field),
    (has_error (errors render) field).
Qed.

Lemma readable_handleInputChange render field value s handler :
  handleInputChange render field value = Some handler →
  readable (formData s) → readable (formData (handler s).2).
Proof.
  intros Hh Hr.
  destruct (String.eqb_spec field "db_connection") as [->|Hne];
    [by unfold handleInputChange in Hh|].
  destruct (handleInputChange_run render field value s Hne)
    as (handler' & Hh' & Hrun).
  rewrite Hh in Hh'. injection Hh' as <-. rewrite Hrun. simpl.
  destruct Hr as (Hn & Hd & Hu & Hho & Hp).
  destruct (String.prefix "db_connection." field); unfold readable; simpl;
    rewrite ?lookup_insert_is_Some'; split_and!; tauto.
Qed.

(** Whatever the user types into the form of a new or of an existing
    workspace, the five properties that [validateForm] reads stay in place,
    so validation never faults: it returns its verdict and stores its
    errors. *)
Theorem typing_keeps_form_readable workspace edits s' :
  type_in edits (initialState workspace) = Some s' →
  readable (formData s')
  ∧ ∃ valid newErrors,
      validateForm s' s'
      = (Normal valid, mkFormState (formData s') (loading s') newErrors).
Proof.
  assert (∀ s, readable (formData s) → type_in edits s = Some s' →
               readable (formData s')) as Hkeep.
  { induction edits as [|[field value] rest IH]; intros s Hr Hrun; simpl in Hrun.
    - by injection Hrun as <-.
    - destruct (handleInputChange s field value) as [handler|] eqn:Hh; [|done].
      eapply IH; [|done]. by eapply readable_handleInputChange. }
  intros Hrun.
  assert (readable (formData s')) as Hr.
  { eapply Hkeep; [|done].
    destruct (initialFormData_lookups workspace) as (Hn & Hd & Hu & Hh & Hp).
    unfold readable, initialState. cbn [formData].
    rewrite Hn, Hd, Hu, Hh, Hp. split_and!; eauto. }
  split; [done|].
  destruct Hr as ([name Hn] & [db_name Hd] & [username Hu] & [host Hh] & [port Hp]).
  eexists _, _. by eapply validateForm_run.
Qed.

Lemma typing_keeps_form_readable_witness :
  ∃ s',
    type_in [("db_connection.port", "5433"); ("name", "Sales EU");
             ("db_connection.sslmode", "require")]
      (initialState (Some sales_workspace))
    = Some s'
    ∧ readable (formData s').
Proof.
  eexists. split; [reflexivity|].
  eapply (typing_keeps_form_readable (Some sales_workspace)
            [("db_connection.port", "5433"); ("name", "Sales EU");
             ("db_connection.sslmode", "require")]).
  reflexivity.
Defined.
(** ** Submitting the form *)

(** A form that validation refuses is not submitted: the errors are stored,
    the loading flag is left alone and the parent's callback has no
    influence.  A form that validation accepts is handed to the callback as
    it was typed (nothing is trimmed); afterwards the loading flag is off.
    The errors are then empty when the callback resolved, and hold the single
    entry 'submit' (the error's message when it has a non-empty one, else
    'Failed to save workspace') when it was rejected with something that is
    neither null nor undefined.  When it was rejected with null or
    undefined, the catch block faults before it stores anything: the errors
    stay empty and the handler ends with the TypeError. *)
Theorem handleSubmit_outcomes render onSubmit fault s name db_name username
    host port :
  props (formData render) !! "name" = Some name →
  db_connection (formData render) !! "db_name" = Some db_name →
  db_connection (formData render) !! "username" = Some username →
  db_connection (formData render) !! "host" = Some host →
  db_connection (formData render) !! "port" = Some port →
  let accepted :=
    trim_is_empty name = false ∧ trim_is_empty db_name = false
    ∧ trim_is_empty username = false ∧ trim_is_empty host = false
    ∧ port ≠ "" ∧ all_digits port = true in
  (¬ accepted →
   ∃ newErrors,
     newErrors ≠ ∅
     ∧ ∀ onSubmit' fault',
         handleSubmit render onSubmit' fault' s
         = (Normal (), mkFormState (formData s) (loading s) newErrors))
  ∧ (accepted →
     handleSubmit render onSubmit fault s
     = match onSubmit (formData render) with
       | Normal _ => (Normal (), mkFormState (formData s) false ∅)
       | Throw (ErrorObject message) =>
           (Normal (),
            mkFormState (formData s) false
              (<["submit" := if truthy message then message
                             else "Failed to save workspace"]> ∅))
       | Throw NonError =>
           (Normal (),
            mkFormState (formData s) false
              (<["submit" := "Failed to save workspace"]> ∅))
       | Throw Nullish =>
           (Throw (ErrorObject fault), mkFormState (formData s) false ∅)
       end).
Proof.
  intros Hn Hd Hu Hh Hp accepted. subst accepted.
  rewrite <-collected_empty.
  unfold handleSubmit. cbv [mbind ST_bind].
  rewrite (validateForm_run render name db_name username host port) by done.
  split.
  - intros Hrefused.
    exists (collected name db_name username host port). split; [done|].
    intros onSubmit' fault'.
    destruct (Nat.eqb _ 0) eqn:Hvalid; [|done].
    by apply collected_valid in Hvalid.
  - intros Haccepted.
    pose proof (proj2 (collected_valid name db_name username host port)
                  Haccepted) as ->.
    rewrite Haccepted. simpl.
    unfold finally, catching, awaiting, setLoading, setErrors, modify,
      message_of.
    cbv [mbind ST_bind]. simpl.
    destruct (onSubmit (formData render)) as [[]|[message| |]]; simpl; try done.
Qed.

Lemma handleSubmit_outcomes_witness :
  handleSubmit (initialState (Some sales_workspace))
    (λ _, Throw (ErrorObject "Workspace name already exists"))
    engine_message_null
    (initialState (Some sales_workspace))
  = (Normal (),
     mkFormState (formData (initialState (Some sales_workspace))) false
       (<["submit" := "Workspace name already exists"]> ∅))
  ∧ handleSubmit (initialState (Some sales_workspace))
      (λ _, Throw Nullish) engine_message_null
      (initialState (Some sales_workspace))
    = (Throw (ErrorObject engine_message_null),
       mkFormState (formData (initialState (Some sales_workspace))) false ∅).
Proof.
  destruct (initialFormData_lookups (Some sales_workspace))
    as (Hn & Hd & Hu & Hh & Hp).
  split.
  - apply (proj2 (handleSubmit_outcomes (initialState (Some sales_workspace))
                    (λ _, Throw (ErrorObject "Workspace name already exists"))
                    engine_message_null
                    (initialState (Some sales_workspace))
                    "Sales" "sales" "reader" "db.example.org" "5432"
                    Hn Hd Hu Hh Hp)).
    by split_and!.
  - apply (proj2 (handleSubmit_outcomes (initialState (Some sales_workspace))
                    (λ _, Throw Nullish) engine_message_null
                    (initialState (Some sales_workspace))
                    "Sales" "sales" "reader" "db.example.org" "5432"
                    Hn Hd Hu Hh Hp)).
    by split_and!.
Defined.

(** ** Which errors typing clears *)

(** After a validation, typing into a field of the connection (the fields
    the form names 'db_connection.<key>') changes that field and leaves
    every stored error as it is: the errors of the connection are stored
    under the bare key, which the handler does not look up, so the message
    under the field stays until the next validation.  Typing into the name
    replaces the error of the name by the empty string. *)
Theorem typing_clears_only_name_error render s name db_name username host port value :
  props (formData render) !! "name" = Some name →
  db_connection (formData render) !! "db_name" = Some db_name →
  db_connection (formData render) !! "username" = Some username →
  db_connection (formData render) !! "host" = Some host →
  db_connection (formData render) !! "port" = Some port →
  let s1 := (validateForm render s).2 in
  (∀ field,
     String.prefix "db_connection." field = true →
     ∃ handler,
       handleInputChange s1 field value = Some handler
       ∧ (handler s1).1 = Normal ()
       ∧ errors (handler s1).2 = errors s1
       ∧ db_connection (formData (handler s1).2) !! dbField field = Some value)
  ∧ ∃ handler,
      handleInputChange s1 "name" value = Some handler
      ∧ errors (handler s1).2
        = (if trim_is_empty name then <["name" := ""]> (errors s1)
           else errors s1)
      ∧ props (formData (handler s1).2) !! "name" = Some value.
Proof.
  intros Hn Hd Hu Hh Hp s1. subst s1.
  rewrite (validateForm_run render name db_name username host port) by done.
  cbn [snd]. split.
  - intros field Hprefix.
    assert (field ≠ "db_connection") as Hne by (by intros ->).
    destruct (handleInputChange_run
                (mkFormState (formData s) (loading s)
                   (collected name db_name username host port))
                field value
                (mkFormState (formData s) (loading s)
                   (collected name db_name username host port)) Hne)
      as (handler & Hh' & Hrun).
    exists handler. split; [done|]. rewrite Hrun, Hprefix. cbn.
    assert (collected name db_name username host port !! field = None) as Hnone.
    { apply eq_None_not_Some. intros Hsome%collected_keys.
      repeat (apply elem_of_cons in Hsome as [-> | Hsome]; [done|]).
      by apply elem_of_nil in Hsome. }
    unfold has_error. rewrite Hnone. simpl.
    split_and!; [done|done|]. by rewrite lookup_insert_eq.
  - destruct (handleInputChange_run
                (mkFormState (formData s) (loading s)
                   (collected name db_name username host port))
                "name" value
                (mkFormState (formData s) (loading s)
                   (collected name db_name username host port)))
      as (handler & Hh' & Hrun); [done|].
    exists handler. split; [done|]. rewrite Hrun. cbn.
    split; [|by rewrite lookup_insert_eq].
    unfold has_error, collected.
    assert (∀ E : gmap string string,
              (if trim_is_empty port then <["port" := "Port is required"]> E
               else if negb (is_number port)
                    then <["port" := "Port must be a number"]> E else E)
              !! "name" = E !! "name") as ->.
    { intros E. by destruct (trim_is_empty port), (negb (is_number port));
        rewrite ?lookup_insert_ne. }
    rewrite !required_lookup.
    repeat (case_decide; [done|]).
    case_decide; [|done].
    by destruct (trim_is_empty name).
Qed.

Lemma typing_clears_only_name_error_witness :
  let s1 := (validateForm (initialState (Some spaced_port_workspace))
               (initialState (Some spaced_port_workspace))).2 in
  ∃ handler,
    handleInputChange s1 "db_connection.port" "5432" = Some handler
    ∧ errors (handler s1).2 = errors s1
    ∧ db_connection (formData (handler s1).2) !! "port" = Some "5432".
Proof.
  destruct (initialFormData_lookups (Some spaced_port_workspace))
    as (Hn & Hd & Hu & Hh & Hp).
  destruct (proj1 (typing_clears_only_name_error
                     (initialState (Some spaced_port_workspace))
                     (initialState (Some spaced_port_workspace))
                     "Sales" "" "reader" "db.example.org" "5432 " "5432"
                     Hn Hd Hu Hh Hp)
              "db_connection.port" eq_refl)
    as (handler & Hh' & _ & Herrors & Hvalue).
  exists handler. split; [exact Hh'|]. split; [exact Herrors|exact Hvalue].
Defined.
End WorkspaceFormFacts.

(** * Connecting to a workspace *)

Module DashboardFacts.
Import Dashboard.

Section Connect.
Variable Date_getTime : string → option Z.
#[local] Abbreviation time := (time Date_getTime).
#[local] Abbreviation parses := (parses Date_getTime).

Lemma by_updated_at_desc_parsed a b :
  parses a → parses b →
  by_updated_at_desc Date_getTime a b = Some (time b - time a)%Z.
Proof.
  unfold parses, time, by_updated_at_desc. intros [ta ->] [tb ->]. done.
Qed.

Lemma sort_insert_length x sorted :
  length (sort_insert (by_updated_at_desc Date_getTime) x sorted)
  = S (length sorted).
Proof.
  induction sorted as [|y rest IH]; simpl; [done|].
  destruct (_ <=? _)%Z; simpl; by rewrite ?IH.
Qed.

Lemma js_sort_length sessions :
  length (js_sort (by_updated_at_desc Date_getTime) sessions) = length sessions.
Proof.
  induction sessions as [|x rest IH]; simpl; [done|].
  by rewrite sort_insert_length, IH.
Qed.

Lemma sort_insert_elem x sorted y :
  y ∈ sort_insert (by_updated_at_desc Date_getTime) x sorted
  ↔ y = x ∨ y ∈ sorted.
Proof.
  induction sorted as [|z rest IH]; simpl.
  - rewrite list_elem_of_singleton, elem_of_nil. tauto.
  - destruct (_ <=? _)%Z.
    + by rewrite elem_of_cons.
    + rewrite !elem_of_cons, IH. tauto.
Qed.

Lemma js_sort_elem sessions y :
  y ∈ js_sort (by_updated_at_desc Date_getTime) sessions ↔ y ∈ sessions.
Proof.
  induction sessions as [|x rest IH]; simpl; [done|].
  by rewrite sort_insert_elem, elem_of_cons, IH.
Qed.

(** The head of the sorted list, computed from the left: the first session
    is replaced by the most recent of the others only when that one is
    strictly later. *)
Lemma mostRecentSession_cons x rest :
  parses x → Forall parses rest →
  mostRecentSession Date_getTime (x :: rest)
  = match mostRecentSession Date_getTime rest with
    | Some y => if (time y <=? time x)%Z then Some x else Some y
    | None => Some x
    end.
Proof.
  intros Hx Hrest. unfold mostRecentSession. simpl.
  destruct (js_sort (by_updated_at_desc Date_getTime) rest) as [|y sorted] eqn:Hs;
    simpl; [done|].
  assert (parses y) as Hy.
  { rewrite Forall_forall in Hrest. apply Hrest, js_sort_elem.
    rewrite Hs. by left. }
  rewrite by_updated_at_desc_parsed by done. simpl.
  replace (time y - time x <=? 0)%Z with (time y <=? time x)%Z
    by (destruct (Z.leb_spec (time y) (time x)),
          (Z.leb_spec (time y - time x) 0); lia).
  by destruct (_ <=? _)%Z.
Qed.

Lemma mostRecentSession_spec sessions :
  sessions ≠ [] →
  Forall parses sessions →
  ∃ i best,
    mostRecentSession Date_getTime sessions = Some best
    ∧ sessions !! i = Some best
    ∧ (∀ s, s ∈ sessions → (time s ≤ time best)%Z)
    ∧ (∀ j s, j < i → sessions !! j = Some s → (time s < time best)%Z).
Proof.
  induction sessions as [|x rest IH]; [done|]. intros _ Hall.
  apply Forall_cons in Hall as [Hx Hrest].
  rewrite mostRecentSession_cons by done.
  destruct rest as [|x' rest'].
  - exists 0, x. split_and!; [done|done| |].
    + intros s Hs. apply list_elem_of_singleton in Hs as ->. lia.
    + intros j s Hj. lia.
  - destruct IH as (i & best & -> & Hi & Hmax & Hfirst); [done|done|].
    destruct (Z.leb_spec (time best) (time x)) as [Hle|Hlt].
    + exists 0, x. split_and!; [done|done| |].
      * intros s Hs. apply elem_of_cons in Hs as [->|Hs]; [lia|].
        specialize (Hmax s Hs). lia.
      * intros j s Hj. lia.
    + exists (S i), best. split_and!; [done|done| |].
      * intros s Hs. apply elem_of_cons in Hs as [->|Hs]; [lia|].
        by apply Hmax.
      * intros [|j] s Hj Hs; simpl in Hs.
        -- injection Hs as <-. done.
        -- eapply Hfirst; [|done]. lia.
Qed.

(** Connecting to a workspace whose sessions are listed resumes the most
    recently updated one: when the activation and the listing resolve and
    every [updated_at] is a date, the page ends up connected to the
    workspace, with the workspace list closed and with the id of a session
    whose update time no other session exceeds as [autoSessionId]; among
    sessions updated at that same time it is the one listed first.  An empty
    id is dropped. *)
Theorem connect_resumes_most_recent workspaceId sessions s :
  sessions ≠ [] →
  Forall parses sessions →
  ∃ i best,
    sessions !! i = Some best
    ∧ (∀ other, other ∈ sessions → (time other ≤ time best)%Z)
    ∧ (∀ j other, j < i → sessions !! j = Some other →
         (time other < time best)%Z)
    ∧ handleConnectWorkspace Date_getTime handleWorkspaceConnect workspaceId
        (Normal ()) (Normal (Some sessions)) s
      = (Normal (),
         mkPageState
           (mkDashboardState (Some workspaceId)
              (if truthy (Session._id best) then Some (Session._id best)
               else None)
              false)
           None (alerts s)).
Proof.
  intros Hne Hall.
  destruct (mostRecentSession_spec sessions Hne Hall)
    as (i & best & Hbest & Hi & Hmax & Hfirst).
  exists i, best. split_and!; [done..|].
  unfold handleConnectWorkspace, finally, catching, awaiting.
  cbv [mbind ST_bind]. simpl. rewrite Hbest.
  destruct sessions; [done|]. done.
Qed.

(** When the activation of the workspace is rejected, the page is left as
    it was and the user is alerted.  When the activation resolves but the
    sessions cannot be listed, or there are none, the page connects to the
    workspace without a session to resume.  In every case the workspace list
    stops showing the workspace as connecting. *)
Theorem connect_without_session workspaceId activateWorkspace listWorkspaceSessions s :
  (∀ error,
     activateWorkspace = Throw error →
     handleConnectWorkspace Date_getTime handleWorkspaceConnect workspaceId
       activateWorkspace listWorkspaceSessions s
     = (Normal (),
        mkPageState (dashboard s) None
          (alerts s
           ++ ["Failed to connect to database. Please check your connection settings."])))
  ∧ (activateWorkspace = Normal () →
     match listWorkspaceSessions with
     | Normal (Some (_ :: _)) => False
     | _ => True
     end →
     handleConnectWorkspace Date_getTime handleWorkspaceConnect workspaceId
       activateWorkspace listWorkspaceSessions s
     = (Normal (),
        mkPageState (mkDashboardState (Some workspaceId) None false) None
          (alerts s))).
Proof.
  split.
  - by intros error ->.
  - intros -> Hlist.
    by destruct listWorkspaceSessions as [[[|first rest]|]|error].
Qed.
End Connect.

Lemma connect_resumes_most_recent_witness :
  handleConnectWorkspace demo_getTime handleWorkspaceConnect "w1"
    (Normal ()) (Normal (Some demo_sessions))
    (mkPageState initialState None [])
  = (Normal (),
     mkPageState (mkDashboardState (Some "w1") (Some "b") false) None []).
Proof.
  destruct (connect_resumes_most_recent demo_getTime "w1" demo_sessions
              (mkPageState initialState None []))
    as (i & best & Hi & Hmax & Hfirst & Hrun).
  - done.
  - repeat constructor; by eexists.
  - destruct i as [|[|[|i]]]; simpl in Hi; try discriminate Hi;
      injection Hi as <-.
    + exfalso.
      assert (session_at "b" "2023-11-14T22:13:20Z" ∈ demo_sessions) as Hin
        by (right; left).
      specialize (Hmax _ Hin). vm_compute in Hmax. by apply Hmax.
    + exact Hrun.
    + exfalso. pose proof (Hfirst 1 _ ltac:(lia) eq_refl) as Hlt.
      vm_compute in Hlt. discriminate Hlt.
Defined.
End DashboardFacts.

(** ** Resuming the session the page hands over *)



(** * Authentication *)

Module AuthFacts.
Import Auth.

Lemma has_token_act a w : has_token w → has_token (act a w).
Proof.
  unfold has_token, isAuthenticated.
  destruct a as [apiLogin getCurrentUser|apiRegister apiLogin getCurrentUser|
                 |getCurrentUser]; simpl.
  - unfold login, report.
    destruct apiLogin as [?|[]]; [destruct getCurrentUser as [?|[]]| |];
      simpl; eauto.
  - unfold register, login, report.
    destruct apiRegister as [?|[]];
      [destruct apiLogin as [?|[]]; [destruct getCurrentUser as [?|[]]| |]| |];
      simpl; eauto.
  - done.
  - unfold reload, loadUserFromToken. simpl.
    destruct (truthy_opt (auth_token w)) eqn:Ht; simpl; [|done].
    destruct getCurrentUser; simpl; [|done].
    intros _. by destruct (auth_token w).
Qed.

(** After loading the application and any sequence of logins,
    registrations, logouts and reloads, whatever the backend answers, an
    authenticated user has a token in the store. *)
Theorem authenticated_has_token getCurrentUser actions w :
  let w' := run actions (reload getCurrentUser w) in
  isAuthenticated w' = true → is_Some (auth_token w').
Proof.
  intros w'. subst w'.
  assert (∀ w0, has_token w0 → has_token (run actions w0)) as Hrun.
  { unfold run. induction actions as [|a rest IH]; intros w0 Hw0; [done|].
    simpl. by apply IH, has_token_act. }
  apply Hrun.
  by apply (has_token_act (Reload getCurrentUser)
              (mkWorld None true None (auth_token w) (pushed w))).
Qed.

Lemma authenticated_has_token_witness :
  isAuthenticated
    (run [Logout; Login (Resolved "token-1") (Resolved demo_user)]
       (reload (Rejected (Failure None)) visitor)) = true
  ∧ is_Some
      (auth_token
         (run [Logout; Login (Resolved "token-1") (Resolved demo_user)]
            (reload (Rejected (Failure None)) visitor))).
Proof.
  split; [reflexivity|].
  apply (authenticated_has_token (Rejected (Failure None))
           [Logout; Login (Resolved "token-1") (Resolved demo_user)] visitor).
  reflexivity.
Defined.

(** Logging out holds across a reload: the token is gone, so the check on
    mount authenticates nobody, whatever the backend would answer for the
    current user; the last path pushed is the home page. *)
Theorem logout_survives_reload getCurrentUser w :
  let w' := reload getCurrentUser (logout w) in
  isAuthenticated w' = false
  ∧ auth_token w' = None
  ∧ loading w' = false
  ∧ error w' = None
  ∧ pushed w' = pushed w ++ ["/"].
Proof. done. Qed.

(** How a login fails.  When the credentials are rejected with something
    that is neither null nor undefined, nothing but the error and the
    loading flag changes, and the error shown is the detail of the
    rejection, or 'Failed to login' without one.  When the credentials are
    accepted and the request for the current user is rejected, the new
    token has already been stored: it stays in the store, and a later reload
    authenticates with it as soon as the request for the current user
    resolves.  A rejection with null or undefined makes the catch block
    fault before it sets an error: no error is shown, the [finally] block
    still resets the loading flag, and the promise of [login] is rejected.
    [register] then shows 'Failed to register', although the registration
    itself succeeded; and when the registration call itself is rejected with
    null or undefined, [register] faults in the same way, and leaves the
    loading flag on. *)
Theorem failed_login_outcomes w :
  (∀ detail getCurrentUser,
     login (Rejected (Failure detail)) getCurrentUser w
     = (Resolved (),
        mkWorld (user w) false (Some (or_else detail "Failed to login"))
          (auth_token w) (pushed w)))
  ∧ (∀ getCurrentUser,
       login (Rejected NullishFailure) getCurrentUser w
       = (Rejected (Failure None),
          mkWorld (user w) false None (auth_token w) (pushed w)))
  ∧ (∀ access_token err,
       login (Resolved access_token) (Rejected err) w
       = match err with
         | Failure detail =>
             (Resolved (),
              mkWorld (user w) false (Some (or_else detail "Failed to login"))
                (Some access_token) (pushed w))
         | NullishFailure =>
             (Rejected (Failure None),
              mkWorld (user w) false None (Some access_token) (pushed w))
         end
       ∧ (truthy access_token = true →
          ∀ userData,
            reload (Resolved userData)
              (login (Resolved access_token) (Rejected err) w).2
            = mkWorld (Some userData) false None (Some access_token)
                (pushed w)))
  ∧ (∀ getCurrentUser,
       register (Resolved ()) (Rejected NullishFailure) getCurrentUser w
       = (Resolved (),
          mkWorld (user w) false (Some "Failed to register") (auth_token w)
            (pushed w)))
  ∧ (∀ apiLogin getCurrentUser,
       register (Rejected NullishFailure) apiLogin getCurrentUser w
       = (Rejected (Failure None),
          mkWorld (user w) true None (auth_token w) (pushed w))).
Proof.
  split_and!; try done.
  intros access_token err. split; [by destruct err|].
  intros Htruthy userData. unfold reload, loadUserFromToken.
  destruct err; simpl; by rewrite Htruthy.
Qed.

Lemma failed_login_outcomes_witness :
  truthy "token-1" = true
  ∧ reload (Resolved demo_user)
      (login (Resolved "token-1") (Rejected (Failure (Some "Inactive user")))
         visitor).2
    = mkWorld (Some demo_user) false None (Some "token-1") [].
Proof.
  split; [reflexivity|].
  apply (proj2 (proj1 (proj2 (proj2 (failed_login_outcomes visitor)))
                  "token-1" (Failure (Some "Inactive user")))
           eq_refl demo_user).
Defined.
End AuthFacts.

(** * The list of sessions *)

Module SessionsListFacts.
Import SessionsList.

Lemma fetchSessions_run listWorkspaceSessions s :
  fetchSessions listWorkspaceSessions s
  = (Normal (),
     mkListState
       match listWorkspaceSessions with
       | Normal data => data
       | Throw _ => sessions s
       end
       false (creating s) (showCreateForm s) (newSessionName s)
       (newSessionDescription s)).
Proof. by destruct listWorkspaceSessions. Qed.

(** Creating a session from the list.  With a blank name nothing happens.
    When the creation is rejected, the form stays open with what was typed,
    and the list is not fetched again.  When the creation resolves, the form
    is closed and its fields are cleared even when fetching the list fails;
    in that case the list keeps its old content, without the new session.
    No failure is shown, and the creating flag ends off. *)
Theorem handleCreateSession_outcomes render createSession listWorkspaceSessions s :
  (trim_is_empty (newSessionName render) = true →
   handleCreateSession render createSession listWorkspaceSessions s
   = (Normal (), s))
  ∧ (trim_is_empty (newSessionName render) = false →
     (∀ error,
        createSession = Throw error →
        handleCreateSession render createSession listWorkspaceSessions s
        = (Normal (),
           mkListState (sessions s) (loading s) false (showCreateForm s)
             (newSessionName s) (newSessionDescription s)))
     ∧ (∀ sessionData,
          createSession = Normal sessionData →
          handleCreateSession render createSession listWorkspaceSessions s
          = (Normal (),
             mkListState
               match listWorkspaceSessions with
               | Normal data => data
               | Throw _ => sessions s
               end
               false false false "" ""))).
Proof.
  unfold handleCreateSession. split; [by intros ->|]. intros ->. split.
  - by intros error ->.
  - intros sessionData ->.
    unfold finally, catching. cbv [mbind ST_bind]. simpl.
    rewrite fetchSessions_run. by destruct listWorkspaceSessions.
Qed.

(** Deleting a session from the list.  Unless the user confirms and the
    deletion resolves, the state is left exactly as it was and the list is
    not fetched again.  After a deletion the list is the fetched one, or
    the old one, still showing the deleted session, when fetching fails. *)
Theorem handleDeleteSession_outcomes confirmed deleteSession listWorkspaceSessions s :
  (confirmed = false ∨ is_normal deleteSession = false →
   handleDeleteSession confirmed deleteSession listWorkspaceSessions s
   = (Normal (), s))
  ∧ (confirmed = true →
     deleteSession = Normal () →
     handleDeleteSession confirmed deleteSession listWorkspaceSessions s
     = (Normal (),
        mkListState
          match listWorkspaceSessions with
          | Normal data => data
          | Throw _ => sessions s
          end
          false (creating s) (showCreateForm s) (newSessionName s)
          (newSessionDescription s))).
Proof.
  unfold handleDeleteSession. split.
  - intros [-> | Hfail]; [done|].
    destruct confirmed; [|done]. by destruct deleteSession.
  - intros -> ->. unfold catching. cbv [mbind ST_bind]. simpl.
    by rewrite fetchSessions_run.
Qed.
End SessionsListFacts.

(** * The profile menu *)

Example trim_names : trim "  Ada Lovelace " = "Ada Lovelace".
Proof. reflexivity. Qed.

Ltac bytes c := destruct c as [[] [] [] [] [] [] [] []]; try reflexivity.

Lemma trimStart_blank n : ∀ s,
  String.length s ≤ n →
  trim_is_empty (trimStart s) = trim_is_empty s.
Proof.
  induction n as [|n IH]; intros s Hlen.
  - destruct s; [done|simpl in Hlen; lia].
  - destruct s as [|c rest]; [done|]. simpl in Hlen.
    bytes c.
    all: try (simpl; apply IH; lia).
    all: destruct rest as [|c2 rest2]; try reflexivity; simpl in Hlen; bytes c2.
    all: try (simpl; apply IH; lia).
    all: destruct rest2 as [|c3 rest3]; try reflexivity; simpl in Hlen.
    all: bytes c3; simpl; apply IH; lia.
Qed.

Lemma trimEnd_empty s : trimEnd s = "" ↔ trim_is_empty s = true.
Proof.
  destruct s as [|c rest]; [done|].
  cbn [trimEnd]. by destruct (trim_is_empty (String c rest)).
Qed.

(** Trimming leaves nothing exactly when there was only white space. *)
Lemma trim_empty s : trim s = "" ↔ trim_is_empty s = true.
Proof.
  unfold trim. rewrite trimEnd_empty.
  by rewrite (trimStart_blank (String.length s)).
Qed.

(** White space on both sides of a blank. *)
Lemma blank_around_space n : ∀ a b,
  String.length a ≤ n →
  trim_is_empty (a +:+ String " " b) = trim_is_empty a && trim_is_empty b.
Proof.
  induction n as [|n IH]; intros a b Hlen.
  - destruct a; [done|simpl in Hlen; lia].
  - destruct a as [|c rest]; [done|]. simpl in Hlen.
    rewrite string_app_cons.
    bytes c.
    all: try (simpl; apply IH; lia).
    all: destruct rest as [|c2 rest2]; try reflexivity; simpl in Hlen;
      rewrite ?string_app_cons; bytes c2.
    all: try (simpl; apply IH; lia).
    all: destruct rest2 as [|c3 rest3]; try reflexivity; simpl in Hlen;
      rewrite ?string_app_cons.
    all: bytes c3; simpl; apply IH; lia.
Qed.

Lemma split_on_head_empty sep s :
  match split_on sep s with
  | first :: _ => first
  | [] => ""
  end = ""
  ↔ s = "" ∨ ∃ rest, s = String sep rest.
Proof.
  destruct s as [|c rest]; simpl.
  - split; [by left|done].
  - destruct (Ascii.eqb_spec c sep) as [->|Hne].
    + split; [intros _; right; by eexists|done].
    + destruct (split_on sep rest); split; try done;
        intros [?|[? [= ? ?]]]; done.
Qed.

Module UserProfileFacts.
Import UserProfile.

(** The profile menu faults while it renders exactly when a user is logged
    in whose display name is empty: reading the initial of an empty name
    raises a TypeError.  With a first name, the display name is empty
    exactly when the first name is white space only and the last name is
    missing or white space only; without a first name, exactly when the
    email is empty or starts with '@'. *)
Theorem profile_faults_on_empty_name upper_initial w :
  (is_normal (render upper_initial w) = false
   ↔ ∃ user, Auth.user w = Some user ∧ displayName user = "")
  ∧ ∀ user,
      (truthy_opt (Auth.User.first_name user) = true →
       (displayName user = ""
        ↔ trim_is_empty (default "" (Auth.User.first_name user)) = true
          ∧ trim_is_empty (or_else (Auth.User.last_name user) "") = true))
      ∧ (truthy_opt (Auth.User.first_name user) = false →
         (displayName user = ""
          ↔ Auth.User.email user = ""
            ∨ ∃ rest, Auth.User.email user = String "@" rest)).
Proof.
  split.
  - unfold render, avatarInitial.
    destruct (Auth.user w) as [user|]; simpl.
    + destruct (String.eqb_spec (displayName user) "") as [Hd|Hd]; simpl.
      * split; [eauto|done].
      * split; [done|]. by intros (? & [= <-] & ?).
    + split; [done|]. by intros (? & [=] & _).
  - intros user. unfold displayName. split.
    + intros Hfirst. rewrite Hfirst, trim_empty.
      destruct (Auth.User.first_name user) as [first|]; [|done].
      simpl in Hfirst. unfold or_else at 1. rewrite Hfirst. simpl.
      change (first +:+ " " +:+ ?l) with (first +:+ String " " l).
      rewrite (blank_around_space (String.length first)) by done.
      apply andb_true_iff.
    + intros ->. apply split_on_head_empty.
Qed.

Lemma profile_faults_on_empty_name_witness :
  truthy_opt (Auth.User.first_name blank_named_user) = true
  ∧ displayName blank_named_user = ""
  ∧ is_normal
      (render (λ s, s)
         (Auth.mkWorld (Some blank_named_user) false None (Some "token-1") []))
    = false.
Proof.
  split; [reflexivity|].
  destruct (profile_faults_on_empty_name (λ s, s)
              (Auth.mkWorld (Some blank_named_user) false None
                 (Some "token-1") []))
    as [Hrender Hname].
  assert (displayName blank_named_user = "") as Hempty.
  { apply (proj1 (Hname blank_named_user) eq_refl). by split. }
  split; [exact Hempty|].
  apply Hrender. exists blank_named_user. by split.
Defined.
End UserProfileFacts.
